(** * Vasitos Whisper Bot: consent-gated voice recording (src/main.py)

    A shallow embedding of the handlers of [src/main.py] and the properties
    its specification states about them.

    Conventions of the embedding
    - A Python [str] is a Rocq [string] (code points below 256).  What Python
      takes from the Unicode database for non-ASCII characters (word
      characters for [\w], white space for [int]) is not part of the
      repository: it is a parameter of the development.
    - A [pathlib.Path] is the list of its parts.
    - Discord snowflakes (user, guild and channel ids) are [N].
    - Handlers run in a small state-and-exception monad over [World]: the
      files on disk, the consent document and whether it can be written,
      the session registry, the uuid supply, the clock and the log of
      outward effects (most recent first).  Side effects made before an
      exception is raised persist, as in Python.
    - Calls into the voice gateway, Discord and Redis are taken to succeed;
      the exceptions that are modelled are the ones the handlers' own
      file-system and parsing steps raise.  Logging is not modelled. *)

From Stdlib Require Import NArith ZArith Ascii String DecimalString DecimalN.
From stdpp Require Import gmap strings list.

Local Open Scope N_scope.

(** ** Python builtins on strings *)

Definition code (c : ascii) : N := N_of_ascii c.

Definition ascii_digit (c : ascii) : bool := (48 <=? code c) && (code c <=? 57).
Definition ascii_upper (c : ascii) : bool := (65 <=? code c) && (code c <=? 90).
Definition ascii_lower (c : ascii) : bool := (97 <=? code c) && (code c <=? 122).

(** The white space [int()] skips around the digits (C's [isspace]): tab,
    LF, VT, FF, CR and the space.  The separators 0x1c-0x1f, which
    [str.isspace] accepts, are not among them. *)
Definition c_isspace (c : ascii) : bool :=
  ((9 <=? code c) && (code c <=? 13)) || (code c =? 32).

Definition is_ascii (c : ascii) : bool := code c <? 128.

(** [str(n)] for a non-negative integer. *)
Definition py_str (n : N) : string := NilZero.string_of_uint (N.to_uint n).

(** [s.split("_")]: the pieces between the separators, empty pieces kept. *)
Fixpoint split_on (sep : ascii) (s : string) : list string :=
  match s with
  | EmptyString => [EmptyString]
  | String c rest =>
      if Ascii.eqb c sep then EmptyString :: split_on sep rest
      else match split_on sep rest with
           | [] => [String c EmptyString]
           | piece :: pieces => String c piece :: pieces
           end
  end.

Fixpoint drop_while {A} (p : A -> bool) (l : list A) : list A :=
  match l with
  | [] => []
  | x :: l' => if p x then drop_while p l' else l
  end.

(** [s.strip(chars)] with the character class given as a predicate. *)
Definition strip_chars (p : ascii -> bool) (l : list ascii) : list ascii :=
  rev (drop_while p (rev (drop_while p l))).

(** Digits of an integer literal: [digit (["_"] digit)*]; the separators are
    dropped.  [prev] tells whether the previous character was a digit. *)
Fixpoint literal_digits (prev : bool) (l : list ascii) : option (list ascii) :=
  match l with
  | [] => if prev then Some [] else None
  | c :: l' =>
      if ascii_digit c then (c ::.) <$> literal_digits true l'
      else if Ascii.eqb c "_" && prev then literal_digits false l'
      else None
  end.

Definition digits_value (l : list ascii) : option N :=
  ds ← literal_digits false l;
  N.of_uint <$> NilZero.uint_of_string (string_of_list_ascii ds).

(** Path parts: [p / s] appends the part [s]; an empty [s] leaves [p] as it
    is.  The parts joined here hold no separator and are never [.] or [..]. *)
Definition Path := list string.

Definition path_div (p : Path) (s : string) : Path :=
  if String.eqb s "" then p else p ++ [s].

Definition parent (p : Path) : Path := removelast p.

(** [str.rfind(".")] as the number of characters before the last dot. *)
Fixpoint rfind_dot (s : string) : option nat :=
  match s with
  | EmptyString => None
  | String c rest =>
      match rfind_dot rest with
      | Some i => Some (S i)
      | None => if Ascii.eqb c "." then Some O else None
      end
  end.

(** [PurePath.suffix]: the last dot and what follows it, unless the dot is
    the first or the last character of the name. *)
Definition name_suffix (name : string) : string :=
  match rfind_dot name with
  | Some i =>
      if (0 <? i)%nat && (i <? String.length name - 1)%nat
      then String.substring i (String.length name - i) name
      else ""
  | None => ""
  end.

Definition name_with_suffix (name sfx : string) : string :=
  String.substring 0 (String.length name - String.length (name_suffix name)) name +:+ sfx.

(** [Path.with_suffix]: the suffix of the last part is replaced.  The paths
    it is applied to here end in a part [<uuid>-<timestamp>], never empty. *)
Definition with_suffix (p : Path) (sfx : string) : Path :=
  removelast p ++ [name_with_suffix (List.last p "") sfx].

(** [datetime.now(timezone.utc)] to the minute. *)
Record Clock := {
  year : N;
  month : N;
  day : N;
  hour : N;
  minute : N
}.

Definition pad2 (n : N) : string :=
  if n <? 10 then "0" +:+ py_str n else py_str n.

(** [strftime("%Y-%m-%d-%H-%M")]. *)
Definition strftime (t : Clock) : string :=
  py_str (year t) +:+ "-" +:+ pad2 (month t) +:+ "-" +:+ pad2 (day t)
    +:+ "-" +:+ pad2 (hour t) +:+ "-" +:+ pad2 (minute t).

(** ** Data model *)

(** [Config.AUDIOS_DIR] and the texts of the replies. *)
Definition AUDIOS_DIR : Path := ["audio"%string].

Definition MSG_NOT_IN_VOICE : string := "Debes estar en un canal de voz.".
Definition MSG_ALREADY_RECORDING : string := "Ya hay una grabación activa.".
Definition MSG_NO_ACTIVE_RECORDING : string := "No hay grabaciones activas.".
Definition MSG_STARTED : string := "🎙️ Grabación iniciada!".
Definition MSG_START_ERROR : string := "Error al iniciar la grabación".
Definition MSG_STOP_ERROR : string := "Error al detener la grabación".
Definition MSG_PROCESS_ERROR : string := "Error al procesar las grabaciones".
Definition MSG_CONSENT_REJECTED : string := "No puedes responder a esta solicitud.".
Definition MSG_CONSENT_SAVED : string := "Tu preferencia ha sido guardada.".
Definition MSG_ALL_LEFT : string := "Todos los miembros han abandonado el canal.".

Definition MSG_STOPPED (successful : nat) : string :=
  "⏹️ Grabación detenida. Procesadas " +:+ py_str (N.of_nat successful) +:+ " grabaciones".

(** Keys of [Config.MESSAGE_FILES]. *)
Inductive Cue := CueStart | CueStop | CueError.

Inductive Exn := OSError | ValueError | KeyError | JSONDecodeError.

Record Member := {
  member_id : N;
  username : string;
  bot : bool;
  accepts_dm : bool          (* whether [member.send] succeeds *)
}.

Record Channel := {
  channel_id : N;
  channel_guild : N;
  members : list Member
}.

(** [interactions.ActiveVoiceState]: the channel it is connected to, the
    gateway flags, and [recorder.output], the captured artifact of each
    participant in insertion order. *)
Record VoiceState := {
  vs_channel : N;
  connected : bool;
  recording : bool;
  output : list (N * Path)
}.

(** [interactions.SlashContext]: [author_voice] is [ctx.author.voice] and,
    inside, its [channel]; [guild_members] is what [ctx.guild.get_member]
    looks up. *)
Record SlashContext := {
  guild_id : N;
  ctx_channel : N;
  guild_members : gmap N Member;
  author_voice : option (option Channel)
}.

Record ComponentContext := {
  custom_id : string;
  user_id_of : N             (* [ctx.user.id] *)
}.

(** [VoiceUserJoin] and [VoiceUserLeave]. *)
Record VoiceEvent := {
  ev_author : Member;
  ev_channel : Channel
}.

(** The JSON object published on the audio queue. *)
Record SegmentMessage := {
  msg_id : string;           (* "id" *)
  msg_path : Path;           (* "path" *)
  msg_userId : N;            (* "userId" *)
  msg_user : string;         (* "user" *)
  msg_channelId : N;         (* "channelId" *)
  msg_guildId : N            (* "guildId" *)
}.

(** What [json.loads] makes of the payload of a pub/sub message: it raises
    on a payload that is not JSON; a parsed body may lack ["guildId"]. *)
Inductive Payload :=
| Unparsable
| Parsed (guildId : option N).

Record Message := {
  message_type : string;     (* message["type"] *)
  message_channel : string;  (* message["channel"] *)
  message_data : Payload     (* message["data"] *)
}.

(** Outward effects. *)
Inductive Event :=
| EvSend (text : string) (ephemeral : bool)
| EvChannelSend (channel : N) (text : string)
| EvConsentRequest (fallback : option N) (user : N) (buttons : list string)
| EvPublish (topic : string) (m : SegmentMessage)
| EvConnect (channel : N)
| EvDisconnect (channel : N)
| EvStartRecording (channel : N)
| EvStopRecording (channel : N)
| EvPlay (channel : N) (cue : Cue)
| EvPlayNoWait (channel : N) (cue : Cue)
| EvTaskStart
| EvTaskStop.

Record World := {
  fs : gset Path;                          (* regular files on disk *)
  consent_file : option (gmap string bool);(* consent.json; None: absent or unreadable *)
  consent_writable : bool;                 (* whether consent.json can be opened for writing *)
  active_recordings : gmap N VoiceState;   (* voice_state_manager *)
  task_ctx : option SlashContext;          (* scheduled_transcription_task, when started *)
  uuid_seed : N;                           (* identifiers drawn so far *)
  clock : Clock;
  trace : list Event                       (* most recent first *)
}.

(** ** The monad of the handlers *)

Inductive Result (A : Type) :=
| Ok (a : A)
| Raise (e : Exn).
Arguments Ok {A} a.
Arguments Raise {A} e.

Definition M (A : Type) : Type := World -> Result A * World.

Definition ret {A} (a : A) : M A := fun w => (Ok a, w).

Definition raise {A} (e : Exn) : M A := fun w => (Raise e, w).

Definition bind {A B} (m : M A) (k : A -> M B) : M B :=
  fun w =>
    match m w with
    | (Ok a, w') => k a w'
    | (Raise e, w') => (Raise e, w')
    end.

(** [try: body except Exception: handler]. *)
Definition try_except {A} (body handler : M A) : M A :=
  fun w =>
    match body w with
    | (Ok a, w') => (Ok a, w')
    | (Raise _, w') => handler w'
    end.

Definition gets {A} (f : World -> A) : M A := fun w => (Ok (f w), w).

Definition modify (f : World -> World) : M unit := fun w => (Ok tt, f w).

Declare Scope py_scope.
Delimit Scope py_scope with py.
Notation "x <- c1 ;; c2" := (bind c1 (fun x => c2))
  (at level 100, c1 at next level, right associativity) : py_scope.
Notation "c1 ;; c2" := (bind c1 (fun _ => c2))
  (at level 100, right associativity) : py_scope.
Local Open Scope py_scope.

Definition set_fs (f : gset Path) (w : World) : World :=
  {| fs := f; consent_file := consent_file w; consent_writable := consent_writable w;
     active_recordings := active_recordings w; task_ctx := task_ctx w;
     uuid_seed := uuid_seed w; clock := clock w; trace := trace w |}.

Definition set_consent_file (c : option (gmap string bool)) (w : World) : World :=
  {| fs := fs w; consent_file := c; consent_writable := consent_writable w;
     active_recordings := active_recordings w; task_ctx := task_ctx w;
     uuid_seed := uuid_seed w; clock := clock w; trace := trace w |}.

Definition set_active_recordings (r : gmap N VoiceState) (w : World) : World :=
  {| fs := fs w; consent_file := consent_file w; consent_writable := consent_writable w;
     active_recordings := r; task_ctx := task_ctx w;
     uuid_seed := uuid_seed w; clock := clock w; trace := trace w |}.

Definition set_task_ctx (t : option SlashContext) (w : World) : World :=
  {| fs := fs w; consent_file := consent_file w; consent_writable := consent_writable w;
     active_recordings := active_recordings w; task_ctx := t;
     uuid_seed := uuid_seed w; clock := clock w; trace := trace w |}.

Definition set_uuid_seed (n : N) (w : World) : World :=
  {| fs := fs w; consent_file := consent_file w; consent_writable := consent_writable w;
     active_recordings := active_recordings w; task_ctx := task_ctx w;
     uuid_seed := n; clock := clock w; trace := trace w |}.

Definition record (e : Event) (w : World) : World :=
  {| fs := fs w; consent_file := consent_file w; consent_writable := consent_writable w;
     active_recordings := active_recordings w; task_ctx := task_ctx w;
     uuid_seed := uuid_seed w; clock := clock w; trace := e :: trace w |}.

Definition emit (e : Event) : M unit := modify (record e).

(** [asyncio.gather] over coroutines on the single-threaded loop: every task
    is run, in order; the first exception raised is the one the awaiting
    handler receives, and the tasks after it still run. *)
Fixpoint gather {A} (tasks : list (M A)) : M (list A) :=
  match tasks with
  | [] => ret []
  | t :: rest =>
      fun w =>
        match t w with
        | (Ok a, w1) =>
            match gather rest w1 with
            | (Ok l, w2) => (Ok (a :: l), w2)
            | (Raise e, w2) => (Raise e, w2)
            end
        | (Raise e, w1) => (Raise e, snd (gather rest w1))
        end
  end.

(** [for x in xs: await f(x)]. *)
Fixpoint for_each {A} (f : A -> M unit) (xs : list A) : M unit :=
  match xs with
  | [] => ret tt
  | x :: rest => f x ;; for_each f rest
  end.

(** ** State management *)

Module VoiceStateManager.

Definition add (guild : N) (voice_state : VoiceState)
    (active : gmap N VoiceState) : gmap N VoiceState :=
  <[guild := voice_state]> active.

(** [dict.pop(guild_id, None)]: the popped value and the remaining map. *)
Definition remove (guild : N) (active : gmap N VoiceState)
    : option VoiceState * gmap N VoiceState :=
  (active !! guild, delete guild active).

Definition get (guild : N) (active : gmap N VoiceState) : option VoiceState :=
  active !! guild.

End VoiceStateManager.

Module ConsentManager.

(** An absent or unreadable file loads as the empty record. *)
Definition load : M (gmap string bool) :=
  gets (fun w => default ∅ (consent_file w)).

(** The write is inside a [try]: when the file cannot be opened for writing
    the exception is logged and dropped, and the document stays as it was. *)
Definition save (data : gmap string bool) : M unit :=
  modify (fun w =>
    if consent_writable w then set_consent_file (Some data) w else w).

End ConsentManager.

(** ** File system and voice gateway *)

(** [Path.unlink(missing_ok=True)]. *)
Definition unlink (p : Path) : M unit :=
  modify (fun w => set_fs (fs w ∖ {[p]}) w).

(** [Path.mkdir(parents=True, exist_ok=True)] fails when the directory or
    one of its ancestors exists as a regular file. *)
Definition blocked (d : Path) (files : gset Path) : bool :=
  existsb (fun k => bool_decide (take k d ∈ files)) (seq 1 (length d)).

Definition mkdir (d : Path) : M unit :=
  fun w => if blocked d (fs w) then (Raise OSError, w) else (Ok tt, w).

(** [shutil.move] of a regular file: the source must exist; it is gone
    afterwards and the destination holds it. *)
Definition shutil_move (src dst : Path) : M unit :=
  fun w =>
    if bool_decide (src ∈ fs w)
    then (Ok tt, set_fs (fs w ∖ {[src]} ∪ {[dst]}) w)
    else (Raise OSError, w).

Definition now_stamp : M string := gets (fun w => strftime (clock w)).

Definition set_recording (b : bool) (out : list (N * Path)) (vs : VoiceState) : VoiceState :=
  {| vs_channel := vs_channel vs; connected := connected vs;
     recording := b; output := out |}.

Definition set_connected (b : bool) (vs : VoiceState) : VoiceState :=
  {| vs_channel := vs_channel vs; connected := b;
     recording := recording vs; output := output vs |}.

(** [channel.connect()]. *)
Definition channel_connect (c : Channel) : M VoiceState :=
  emit (EvConnect (channel_id c)) ;;
  ret {| vs_channel := channel_id c; connected := true;
         recording := false; output := [] |}.

(** [voice_state.stop_recording()]: the recorder keeps its [output]. *)
Definition vs_stop_recording (vs : VoiceState) : M VoiceState :=
  emit (EvStopRecording (vs_channel vs)) ;;
  ret (set_recording false (output vs) vs).

(** [voice_state.start_recording(...)]: a new interval, no artifact yet. *)
Definition vs_start_recording (vs : VoiceState) : M VoiceState :=
  emit (EvStartRecording (vs_channel vs)) ;;
  ret (set_recording true [] vs).

Definition vs_disconnect (vs : VoiceState) : M VoiceState :=
  emit (EvDisconnect (vs_channel vs)) ;;
  ret (set_connected false vs).

(** The registry holds a reference to the voice state: what a handler does
    to a registered voice state is seen through the registry. *)
Definition sync (guild : N) (vs : VoiceState) : M unit :=
  modify (fun w => set_active_recordings (<[guild := vs]> (active_recordings w)) w).

Definition task_start (ctx : SlashContext) : M unit :=
  modify (set_task_ctx (Some ctx)) ;; emit EvTaskStart.

Definition task_stop : M unit :=
  modify (set_task_ctx None) ;; emit EvTaskStop.

(** The custom ids of the two buttons of a consent request. *)
Definition consent_buttons (m : Member) : list string :=
  ["consent_allow_" +:+ py_str (member_id m);
   "consent_deny_" +:+ py_str (member_id m)].

(** [request_consent]: the two buttons go out in a direct message
    ([fallback = None]), or in the channel of the context when the direct
    message fails. *)
Definition request_consent (channel : N) (member : Member) : M unit :=
  if accepts_dm member
  then emit (EvConsentRequest None (member_id member) (consent_buttons member))
  else emit (EvConsentRequest (Some channel) (member_id member) (consent_buttons member)).

(** ** Further builtins *)

(** [sep.join(pieces)]. *)
Fixpoint join_with (sep : ascii) (pieces : list string) : string :=
  match pieces with
  | [] => ""
  | [piece] => piece
  | piece :: rest => piece +:+ String sep (join_with sep rest)
  end.

(** [c in s]. *)
Fixpoint contains (c : ascii) (s : string) : bool :=
  match s with
  | EmptyString => false
  | String c' rest => Ascii.eqb c' c || contains c rest
  end.

(** ** Further observations *)

(** The event [request_consent] leaves for a member. *)
Definition consent_request_event (channel : N) (member : Member) : Event :=
  EvConsentRequest (if accepts_dm member then None else Some channel)
    (member_id member) (consent_buttons member).

(** The events recorded one after the other. *)
Definition record_all (events : list Event) (w : World) : World :=
  foldl (fun w e => record e w) w events.

(** The members [start_recording] asks for consent. *)
Definition needing_consent (consent_data : gmap string bool) (channel : Channel)
    : list Member :=
  List.filter
    (fun m => negb (bot m) && negb (bool_decide (is_Some (consent_data !! py_str (member_id m)))))
    (members channel).

(** The voice state [start_recording] registers. *)
Definition started_session (channel : Channel) : VoiceState :=
  {| vs_channel := channel_id channel; connected := true;
     recording := true; output := [] |}.

(** ** Shutdown

    The [finally] block of the main program: every guild of the registry
    is removed and its voice state disconnected.  [guilds] is
    [list(voice_state_manager.active_recordings)], the keys of the registry
    in the order in which they were inserted, an order the registry of the
    model does not keep. *)
Definition shutdown_guild (guild : N) : M unit :=
  active <- gets active_recordings ;;
  match VoiceStateManager.remove guild active with
  | (Some voice_state, active') =>
      modify (set_active_recordings active') ;;
      vs' <- vs_disconnect voice_state ;;
      ret tt
  | (None, active') => modify (set_active_recordings active')
  end.

Definition shutdown (guilds : list N) : M unit :=
  for_each shutdown_guild guilds.

(** The disconnections of the sessions that [active] holds for [guilds],
    in the order of [guilds]. *)
Definition disconnections (active : gmap N VoiceState) (guilds : list N)
    : list Event :=
  omap (fun g => (fun vs => EvDisconnect (vs_channel vs)) <$> active !! g) guilds.

(** ** Sample data

    A guild with three members, one of them a bot, a voice channel and a
    session in it; the tables of an ASCII-only process and a supply of
    identifiers that counts. *)

Definition ascii_only : ascii -> bool := fun _ => false.

Definition alice : Member :=
  {| member_id := 7; username := "Alice W."; bot := false; accepts_dm := true |}.

Definition carol : Member :=
  {| member_id := 9; username := "carol"; bot := false; accepts_dm := true |}.

Definition dj_bot : Member :=
  {| member_id := 8; username := "dj"; bot := true; accepts_dm := false |}.

(** The voice channel once alice has left it. *)
Definition lounge : Channel :=
  {| channel_id := 10; channel_guild := 1; members := [carol; dj_bot] |}.

Definition alice_leaves : VoiceEvent :=
  {| ev_author := alice; ev_channel := lounge |}.

(** The file the recorder writes for a participant, in [AUDIOS_DIR]. *)
Definition artifact (user : N) : Path := ["audio"%string; py_str user +:+ ".wav"].

Definition session (out : list (N * Path)) : VoiceState :=
  {| vs_channel := 10; connected := true; recording := true; output := out |}.

Definition guild_ctx (voice : option (option Channel)) : SlashContext :=
  {| guild_id := 1; ctx_channel := 20;
     guild_members := {[ 7 := alice; 8 := dj_bot; 9 := carol ]};
     author_voice := voice |}.

Definition noon : Clock :=
  {| year := 2025; month := 3; day := 14; hour := 12; minute := 0 |}.

(** A world with one session in guild 1 whose artifacts are on disk. *)
Definition world (consent : gmap string bool) (out : list (N * Path)) : World :=
  {| fs := list_to_set (snd <$> out);
     consent_file := Some consent;
     consent_writable := true;
     active_recordings := {[ 1 := session out ]};
     task_ctx := Some (guild_ctx None);
     uuid_seed := 0;
     clock := noon;
     trace := [] |}.

(** Alice has granted consent; carol has not answered. *)
Definition consent_alice : gmap string bool := {[ "7"%string := true ]}.

Definition two_artifacts : list (N * Path) := [(7, artifact 7); (9, artifact 9)].

Definition world_alice : World := world consent_alice two_artifacts.

(** Carol has answered, and denied. *)
Definition world_carol_denied : World :=
  world {[ "7"%string := true; "9"%string := false ]} two_artifacts.

(** A grant on record for user 11, who is no longer a member of the guild. *)
Definition consent_departed : gmap string bool := {[ "11"%string := true ]}.

Definition world_departed : World := world consent_departed [(11, artifact 11)].

(** A grant on record for the bot. *)
Definition consent_bot : gmap string bool := {[ "8"%string := true ]}.

Definition world_bot : World := world consent_bot [(8, artifact 8)].

(** Two voice states for one guild. *)
Definition first_session : VoiceState := session [].

Definition second_session : VoiceState :=
  {| vs_channel := 11; connected := true; recording := true; output := [] |}.

(** Where alice's artifact goes at [noon] with the first identifier. *)
Definition alice_dest : Path :=
  ["audio"; "Alice_W"; "2025-03-14-12-00"; "0-2025-03-14-12-00.wav"]%string.

Definition alice_message : SegmentMessage :=
  {| msg_id := "0"; msg_path := alice_dest; msg_userId := 7;
     msg_user := "Alice W."; msg_channelId := 10; msg_guildId := 1 |}.

(** The account the sample bot is logged in as. *)
Definition sample_bot_id : N := 99.



(** ** The rejection consumer of the specification

    The consumer as section 4.4 of the specification words it: every event
    increments the counter; when it reaches the threshold it is reset, and
    the session of the guild of that event, if registered and connected,
    is given the error cue. *)
Definition spec_rejection_step (counter : N) (guild : N) : M N :=
  let counter' := counter + 1 in
  if counter' =? 7 then
    active <- gets active_recordings ;;
    match VoiceStateManager.get guild active with
    | Some voice_state =>
        if connected voice_state
        then emit (EvPlay (vs_channel voice_state) CueError) ;; ret 0
        else ret 0
    | None => ret 0
    end
  else ret counter'.

Fixpoint spec_rejection_loop (counter : N) (guilds : list N) : M N :=
  match guilds with
  | [] => ret counter
  | guild :: rest =>
      counter' <- spec_rejection_step counter guild ;;
      spec_rejection_loop counter' rest
  end.

(** A world without any session. *)
Definition world_idle : World :=
  {| fs := ∅; consent_file := Some consent_alice; consent_writable := true;
     active_recordings := ∅;
     task_ctx := None; uuid_seed := 0; clock := noon; trace := [] |}.

(** A session whose one artifact, alice's, is not on disk. *)
Definition world_missing : World :=
  {| fs := ∅; consent_file := Some consent_alice; consent_writable := true;
     active_recordings := {[ 1 := session [(7, artifact 7)] ]};
     task_ctx := Some (guild_ctx None); uuid_seed := 0; clock := noon; trace := [] |}.

(** A session and a file that is not one of its artifacts. *)
Definition world_with_notes : World :=
  set_fs (fs world_alice ∪ {[ ["audio"%string; "notes.txt"%string] ]}) world_alice.

Definition carol_joins : VoiceEvent :=
  {| ev_author := carol; ev_channel := lounge |}.

Definition bot_leaves : VoiceEvent :=
  {| ev_author := dj_bot; ev_channel := lounge |}.


Definition click_without_id : ComponentContext :=
  {| custom_id := "consent_allow"; user_id_of := 7 |}.

Definition click_with_name : ComponentContext :=
  {| custom_id := "consent_allow_alice"; user_id_of := 7 |}.


(** Sessions in two guilds, on channels 10 and 30. *)
Definition world_two_guilds : World :=
  {| fs := ∅; consent_file := Some consent_alice; consent_writable := true;
     active_recordings :=
       {[ 1 := session [];
          2 := {| vs_channel := 30; connected := true; recording := true;
                  output := [] |} ]};
     task_ctx := None; uuid_seed := 0; clock := noon; trace := [] |}.

(** The separator 0x1c, white space for [str.isspace], in front of a 7. *)
Definition separator_seven : string := String (ascii_of_N 28) "7".

(** The confirmation Redis sends for the subscription. *)
Definition subscribe_confirmation : Message :=
  {| message_type := "subscribe"; message_channel := "rejected-queue";
     message_data := Unparsable |}.

(** ** The handlers *)

Section Bot.

(** The environment of the process: the queue names ([os.getenv]), the
    account the bot is logged in as, the identifiers [uuid.uuid4] yields,
    in order, and the Unicode classes of the non-ASCII characters. *)
Variables AUDIO_QUEUE REJECTED_AUDIO_QUEUE : string.
Variable bot_user_id : N.
Variable uuid4_str : N -> string.
Variables unicode_isalnum unicode_isspace : ascii -> bool.

(** [uuid.uuid4] does not repeat itself. *)
Hypothesis uuid4_fresh : forall i j : N, uuid4_str i = uuid4_str j -> i = j.

Definition isalnum (c : ascii) : bool :=
  if is_ascii c then ascii_digit c || ascii_upper c || ascii_lower c
  else unicode_isalnum c.

(** The class [\w] of [re]. *)
Definition is_word (c : ascii) : bool := isalnum c || Ascii.eqb c "_".

(** What [int()] makes of a character before it parses: an ASCII character
    is kept as it is; a non-ASCII white-space character counts as a space;
    any other non-ASCII character is refused (no code point from 128 to 255
    is a decimal digit). *)
Definition int_char (c : ascii) : ascii :=
  if is_ascii c then c
  else if unicode_isspace c then " "%char else "?"%char.

(** [int(s)]: white space around, an optional sign, decimal digits;
    [None] stands for [ValueError].  (The strings parsed here name
    snowflakes, far below the length at which Python refuses a decimal
    conversion.) *)
Definition py_int (s : string) : option Z :=
  match strip_chars c_isspace (int_char <$> list_ascii_of_string s) with
  | [] => None
  | c :: l =>
      if Ascii.eqb c "-" then (fun n => (- Z.of_N n)%Z) <$> digits_value l
      else if Ascii.eqb c "+" then Z.of_N <$> digits_value l
      else Z.of_N <$> digits_value (c :: l)
  end.

(** [re.sub(r"[^\w\-_]", "_", username).strip("_")[:64]]. *)
Definition sanitize_char (c : ascii) : ascii :=
  if is_word c || Ascii.eqb c "-" || Ascii.eqb c "_" then c else "_"%char.

Definition safe_name (name : string) : string :=
  string_of_list_ascii
    (take 64 (strip_chars (Ascii.eqb "_")
                (sanitize_char <$> list_ascii_of_string name))).

Definition uuid4 : M string :=
  fun w => (Ok (uuid4_str (uuid_seed w)), set_uuid_seed (uuid_seed w + 1) w).

Definition publish (topic : string) (m : SegmentMessage) : M unit :=
  emit (EvPublish topic m).

(** [consent_data.get(str(user_id), False)]. *)
Definition granted (consent_data : gmap string bool) (user : N) : bool :=
  default false (consent_data !! py_str user).

(** [str(m.id) in consent_data]. *)
Definition decided (consent_data : gmap string bool) (user : N) : bool :=
  bool_decide (is_Some (consent_data !! py_str user)).

Definition process_user_recording (ctx : SlashContext) (user : N)
    (file_path : Path) (consent_data : gmap string bool) (channel : N)
    : M (option Path) :=
  if negb (granted consent_data user) then
    unlink file_path ;;
    ret None
  else
    match guild_members ctx !! user with
    | None => ret None
    | Some member =>
        if bot member then ret None
        else
          timestamp <- now_stamp ;;
          let user_dir :=
            path_div (path_div AUDIOS_DIR (safe_name (username member))) timestamp in
          mkdir user_dir ;;
          identifier <- uuid4 ;;
          let dest_path :=
            with_suffix (path_div user_dir (identifier +:+ "-" +:+ timestamp)) ".wav" in
          shutil_move file_path dest_path ;;
          publish AUDIO_QUEUE
            {| msg_id := identifier; msg_path := dest_path; msg_userId := user;
               msg_user := username member; msg_channelId := channel;
               msg_guildId := guild_id ctx |} ;;
          ret (Some dest_path)
    end.

(** The consent-filtered flush both the periodic task and the stop command
    run: one [process_user_recording] per captured artifact, gathered. *)
Definition process_item (ctx : SlashContext) (consent_data : gmap string bool)
    (channel : N) (item : N * Path) : M (option Path) :=
  process_user_recording ctx (fst item) (snd item) consent_data channel.

Definition flush (ctx : SlashContext) (vs : VoiceState)
    (consent_data : gmap string bool) : M (list (option Path)) :=
  gather (process_item ctx consent_data (vs_channel vs) <$> output vs).

(** [sum(1 for t in recording_paths if t is not None)]. *)
Definition successful (recording_paths : list (option Path)) : nat :=
  length (List.filter (fun t => bool_decide (is_Some t)) recording_paths).

(** The periodic task ([IntervalTrigger]): suspend capture, flush, resume. *)
Definition scheduled_transcription_task (ctx : SlashContext) : M unit :=
  active <- gets active_recordings ;;
  match VoiceStateManager.get (guild_id ctx) active with
  | None => ret tt
  | Some voice_state =>
      try_except
        (vs1 <- vs_stop_recording voice_state ;;
         sync (guild_id ctx) vs1 ;;
         consent_data <- ConsentManager.load ;;
         recording_paths <- flush ctx vs1 consent_data ;;
         vs2 <- vs_start_recording vs1 ;;
         sync (guild_id ctx) vs2)
        (emit (EvSend MSG_PROCESS_ERROR true) ;;
         current <- gets (fun w => default voice_state (active_recordings w !! guild_id ctx)) ;;
         if connected current then
           emit (EvPlay (vs_channel current) CueError) ;;
           vs3 <- vs_disconnect current ;;
           sync (guild_id ctx) vs3
         else ret tt)
  end.

(** The [/start] command. *)
Definition start_recording (ctx : SlashContext) : M unit :=
  match author_voice ctx with
  | None | Some None => emit (EvSend MSG_NOT_IN_VOICE true)
  | Some (Some channel) =>
      active <- gets active_recordings ;;
      match VoiceStateManager.get (guild_id ctx) active with
      | Some _ => emit (EvSend MSG_ALREADY_RECORDING true)
      | None =>
          try_except
            (vs0 <- channel_connect channel ;;
             voice_state <- vs_start_recording vs0 ;;
             modify (fun w =>
               set_active_recordings
                 (VoiceStateManager.add (guild_id ctx) voice_state (active_recordings w)) w) ;;
             emit (EvPlayNoWait (vs_channel voice_state) CueStart) ;;
             consent_data <- ConsentManager.load ;;
             let members_needing_consent :=
               List.filter
                 (fun m => negb (bot m) && negb (decided consent_data (member_id m)))
                 (members channel) in
             for_each (request_consent (ctx_channel ctx)) members_needing_consent ;;
             emit (EvSend MSG_STARTED false) ;;
             task_start ctx)
            (emit (EvSend MSG_START_ERROR true) ;;
             active' <- gets active_recordings ;;
             match VoiceStateManager.get (guild_id ctx) active' with
             | Some voice_state =>
                 emit (EvPlay (vs_channel voice_state) CueError) ;;
                 vs3 <- vs_disconnect voice_state ;;
                 sync (guild_id ctx) vs3
             | None => ret tt
             end)
      end
  end.

(** The [/stop] command. *)
Definition stop_recording (ctx : SlashContext) : M unit :=
  active <- gets active_recordings ;;
  match VoiceStateManager.remove (guild_id ctx) active with
  | (None, _) => emit (EvSend MSG_NO_ACTIVE_RECORDING true)
  | (Some voice_state, active') =>
      modify (set_active_recordings active') ;;
      try_except
        (task_stop ;;
         vs1 <- vs_stop_recording voice_state ;;
         emit (EvPlayNoWait (vs_channel vs1) CueStop) ;;
         consent_data <- ConsentManager.load ;;
         recording_paths <- flush ctx vs1 consent_data ;;
         emit (EvSend (MSG_STOPPED (successful recording_paths)) false) ;;
         vs2 <- vs_disconnect vs1 ;;
         ret tt)
        (emit (EvSend MSG_STOP_ERROR true) ;;
         if connected voice_state then
           emit (EvPlay (vs_channel voice_state) CueError) ;;
           vs3 <- vs_disconnect voice_state ;;
           ret tt
         else ret tt)
  end.

(** The consent buttons: [custom_id] is [consent_<action>_<user id>]. *)
Definition handle_consent_response (ctx : ComponentContext) : M unit :=
  match split_on "_" (custom_id ctx) with
  | [_; action; user] =>
      match py_int user with
      | None => raise ValueError
      | Some n =>
          if negb (Z.of_N (user_id_of ctx) =? n)%Z then
            emit (EvSend MSG_CONSENT_REJECTED true)
          else
            consent_data <- ConsentManager.load ;;
            ConsentManager.save (<[user := String.eqb action "allow"]> consent_data) ;;
            emit (EvSend MSG_CONSENT_SAVED true)
      end
  | _ => raise ValueError
  end.

(** One turn of the loop of [on_ready] over the messages of the pub/sub
    connection: the new value of [counter]. *)
Definition on_ready_step (counter : N) (message : Message) : M N :=
  if negb (String.eqb (message_type message) "message") then ret counter
  else
    match message_data message with
    | Unparsable => raise JSONDecodeError
    | Parsed guild =>
        if String.eqb (message_channel message) REJECTED_AUDIO_QUEUE then
          if negb (counter =? 7) then ret counter
          else
            match guild with
            | None => raise KeyError
            | Some g =>
                active <- gets active_recordings ;;
                match VoiceStateManager.get g active with
                | Some voice_state =>
                    if negb (connected voice_state) then ret counter
                    else
                      emit (EvPlay (vs_channel voice_state) CueError) ;;
                      ret (0 + 1)
                | None => ret (counter + 1)
                end
            end
        else ret (counter + 1)
    end.

(** The loop itself: an exception leaves it, and the messages after the
    one that raised are not consumed. *)
Fixpoint on_ready_loop (counter : N) (messages : list Message) : M N :=
  match messages with
  | [] => ret counter
  | message :: rest =>
      counter' <- on_ready_step counter message ;;
      on_ready_loop counter' rest
  end.

Definition on_ready (messages : list Message) : M N := on_ready_loop 0 messages.

Definition on_voice_user_join (event : VoiceEvent) : M unit :=
  if bot (ev_author event) || (member_id (ev_author event) =? bot_user_id) then ret tt
  else
    active <- gets active_recordings ;;
    match VoiceStateManager.get (channel_guild (ev_channel event)) active with
    | None => ret tt
    | Some voice_state =>
        if negb (channel_id (ev_channel event) =? vs_channel voice_state) then ret tt
        else
          consent_data <- ConsentManager.load ;;
          if negb (decided consent_data (member_id (ev_author event)))
          then request_consent (channel_id (ev_channel event)) (ev_author event)
          else ret tt
    end.

(** The members the leave handler counts as remaining. *)
Definition remaining (event : VoiceEvent) (consent_data : gmap string bool)
    : list Member :=
  List.filter
    (fun m => negb (bot m) && decided consent_data (member_id m)
              && negb (member_id m =? member_id (ev_author event)))
    (members (ev_channel event)).

Definition on_voice_user_leave (event : VoiceEvent) : M unit :=
  if bot (ev_author event) || (member_id (ev_author event) =? bot_user_id) then ret tt
  else
    active <- gets active_recordings ;;
    match VoiceStateManager.get (channel_guild (ev_channel event)) active with
    | None => ret tt
    | Some voice_state =>
        if negb (channel_id (ev_channel event) =? vs_channel voice_state) then ret tt
        else
          consent_data <- ConsentManager.load ;;
          match remaining event consent_data with
          | [] =>
              task_stop ;;
              vs1 <- vs_disconnect voice_state ;;
              modify (fun w =>
                set_active_recordings
                  (snd (VoiceStateManager.remove (channel_guild (ev_channel event))
                          (active_recordings w))) w) ;;
              emit (EvChannelSend (channel_id (ev_channel event)) MSG_ALL_LEFT)
          | _ :: _ => ret tt
          end
    end.

(** ** Observations on a world *)

(** The messages published so far, with their topic, most recent first. *)
Definition publication (e : Event) : option (string * SegmentMessage) :=
  match e with
  | EvPublish topic m => Some (topic, m)
  | _ => None
  end.

Definition published (w : World) : list (string * SegmentMessage) :=
  omap publication (trace w).

(** The participants the publications are for. *)
Definition published_users (l : list (string * SegmentMessage)) : list N :=
  (fun tm => msg_userId (snd tm)) <$> l.

(** A publication that carries the artifact of a participant of the flush
    of [vs]: one who granted consent and resolves to a member that is not
    a bot. *)
Definition segment_of (ctx : SlashContext) (consent_data : gmap string bool)
    (items : list (N * Path)) (channel : N) (tm : string * SegmentMessage) : Prop :=
  exists fp mem,
    (msg_userId (snd tm), fp) ∈ items /\
    granted consent_data (msg_userId (snd tm)) = true /\
    guild_members ctx !! msg_userId (snd tm) = Some mem /\
    bot mem = false /\
    fst tm = AUDIO_QUEUE /\
    msg_user (snd tm) = username mem /\
    msg_channelId (snd tm) = channel /\
    msg_guildId (snd tm) = guild_id ctx.

(** The destination [process_user_recording] computes for a member. *)
Definition user_dir_of (member : Member) (w : World) : Path :=
  path_div (path_div AUDIOS_DIR (safe_name (username member))) (strftime (clock w)).

Definition dest_path_of (member : Member) (w : World) : Path :=
  with_suffix
    (path_div (user_dir_of member w)
       (uuid4_str (uuid_seed w) +:+ "-" +:+ strftime (clock w)))
    ".wav".

(** [AUDIOS_DIR / <sanitized name> / <timestamp> / <id>-<timestamp>.wav]. *)
Definition segment_path (name stamp id : string) : Path :=
  path_div (path_div AUDIOS_DIR (safe_name name)) stamp
    ++ [(id +:+ "-" +:+ stamp) +:+ ".wav"].

(** Every identifier published so far was drawn from the supply. *)
Definition ids_drawn (w : World) : Prop :=
  forall tm, tm ∈ published w ->
    exists k, k < uuid_seed w /\ msg_id (snd tm) = uuid4_str k.

(** What a handler that flushes does to the disk and to the queue is what
    the gathered calls do, started in a world [w0] with the same disk and
    the same publications as the world the handler started in. *)
Definition via_flush (ctx : SlashContext) (vs : VoiceState) (w w' : World) : Prop :=
  exists w0,
    fs w0 = fs w /\ published w0 = published w /\
    let w1 :=
      snd (gather (process_item ctx (default ∅ (consent_file w)) (vs_channel vs)
                   <$> output vs) w0) in
    fs w' = fs w1 /\ published w' = published w1.

(** The world in which [stop_recording] runs its flush: the session
    unregistered, the task cancelled, the capture stopped, the stop cue
    queued. *)
Definition stop_flush_start (ctx : SlashContext) (vs : VoiceState) (w : World) : World :=
  record (EvPlayNoWait (vs_channel vs) CueStop)
    (record (EvStopRecording (vs_channel vs))
       (record EvTaskStop
          (set_task_ctx None
             (set_active_recordings (delete (guild_id ctx) (active_recordings w)) w)))).

(** The world in which the periodic task runs its flush: the capture
    stopped. *)
Definition periodic_flush_start (ctx : SlashContext) (vs : VoiceState) (w : World) : World :=
  set_active_recordings
    (<[guild_id ctx := set_recording false (output vs) vs]> (active_recordings w))
    (record (EvStopRecording (vs_channel vs)) w).

(** A well-formed event of the rejection stream for a guild. *)
Definition rejection_event (guild : N) : Message :=
  {| message_type := "message"; message_channel := REJECTED_AUDIO_QUEUE;
     message_data := Parsed (Some guild) |}.

(** The world the leave handler leaves behind when it tears a session
    down: the task cancelled, the voice state disconnected, the registry
    entry removed, the notice sent. *)
Definition torn_down (event : VoiceEvent) (vs : VoiceState) (w : World) : World :=
  record (EvChannelSend (channel_id (ev_channel event)) MSG_ALL_LEFT)
    (set_active_recordings
       (delete (channel_guild (ev_channel event)) (active_recordings w))
       (record (EvDisconnect (vs_channel vs))
          (record EvTaskStop (set_task_ctx None w)))).

(** The identifiers of the messages published so far. *)
Definition published_ids (w : World) : list string :=
  (fun tm => msg_id (snd tm)) <$> published w.

(** A message of the stream that [on_ready] passes over when its counter is
    not at the threshold: one that is not of type [message], or a parsed
    one on the rejection channel. *)
Definition passed_over (message : Message) : Prop :=
  message_type message <> "message"%string \/
  (message_channel message = REJECTED_AUDIO_QUEUE /\
   message_data message <> Unparsable).

(** ** Decimal strings: [int(str(n)) = n] *)

Lemma drop_while_head {A} (p : A -> bool) (x : A) (l : list A) :
  p x = false -> drop_while p (x :: l) = x :: l.
Proof. intros H. simpl. now rewrite H. Qed.

Lemma strip_chars_id (p : ascii -> bool) (l : list ascii) :
  Forall (fun c => p c = false) l -> strip_chars p l = l.
Proof.
  intros H. unfold strip_chars.
  assert (Hd : forall k : list ascii,
             Forall (fun c => p c = false) k -> drop_while p k = k).
  { intros k Hk. destruct Hk as [|c k Hc Hk]; [reflexivity|].
    now apply drop_while_head. }
  rewrite (Hd l H). rewrite Hd.
  - apply rev_involutive.
  - now apply List.Forall_rev.
Qed.

Lemma literal_digits_all (l : list ascii) (prev : bool) :
  Forall (fun c => ascii_digit c = true) l ->
  (l <> [] \/ prev = true) ->
  literal_digits prev l = Some l.
Proof.
  intros H. revert prev. induction H as [|c l Hc Hl IH]; intros prev Hne.
  - destruct Hne as [Hne | ->]; [congruence | reflexivity].
  - simpl. rewrite Hc. rewrite (IH true); [reflexivity | now right].
Qed.

Lemma uint_digits (d : Decimal.uint) :
  Forall (fun c => ascii_digit c = true)
    (list_ascii_of_string (NilEmpty.string_of_uint d)).
Proof.
  induction d; simpl; constructor; try reflexivity; assumption.
Qed.

Lemma py_str_digits (n : N) :
  Forall (fun c => ascii_digit c = true) (list_ascii_of_string (py_str n)).
Proof.
  unfold py_str, NilZero.string_of_uint.
  destruct (N.to_uint n) eqn:E; try apply uint_digits.
  repeat constructor.
Qed.

Lemma py_str_nonempty (n : N) : list_ascii_of_string (py_str n) <> [].
Proof.
  unfold py_str, NilZero.string_of_uint.
  destruct (N.to_uint n); simpl; discriminate.
Qed.

Lemma to_uint_not_nil (n : N) : N.to_uint n <> Decimal.Nil.
Proof.
  destruct n as [|p]; simpl; [discriminate|].
  intros H. apply (f_equal Pos.of_uint) in H.
  rewrite DecimalPos.Unsigned.of_to in H. discriminate.
Qed.

Lemma digit_not_space (c : ascii) : ascii_digit c = true -> c_isspace c = false.
Proof.
  unfold ascii_digit, c_isspace. intros H.
  apply andb_prop in H as [H1 H2].
  apply N.leb_le in H1. apply N.leb_le in H2.
  replace (code c <=? 13) with false by (symmetry; apply N.leb_gt; lia).
  replace (code c =? 32) with false by (symmetry; apply N.eqb_neq; lia).
  now rewrite andb_false_r.
Qed.

Lemma digit_int_char (c : ascii) : ascii_digit c = true -> int_char c = c.
Proof.
  unfold ascii_digit, int_char, is_ascii. intros H.
  apply andb_prop in H as [_ H2]. apply N.leb_le in H2.
  now replace (code c <? 128) with true by (symmetry; apply N.ltb_lt; lia).
Qed.

Lemma digits_int_chars (l : list ascii) :
  Forall (fun c => ascii_digit c = true) l -> int_char <$> l = l.
Proof.
  induction 1 as [|c l Hc _ IH]; [reflexivity|].
  rewrite fmap_cons, IH. now rewrite digit_int_char.
Qed.

Lemma digit_not_sign (c : ascii) :
  ascii_digit c = true -> Ascii.eqb c "-" = false /\ Ascii.eqb c "+" = false.
Proof.
  intros H. split; apply Ascii.eqb_neq; intros ->; discriminate.
Qed.

Lemma digits_value_str (n : N) :
  digits_value (list_ascii_of_string (py_str n)) = Some n.
Proof.
  unfold digits_value.
  rewrite literal_digits_all;
    [| apply py_str_digits | left; apply py_str_nonempty].
  simpl. rewrite string_of_list_ascii_of_string.
  unfold py_str. rewrite NilZero.usu by apply to_uint_not_nil.
  simpl. now rewrite DecimalN.Unsigned.of_to.
Qed.

Lemma py_int_str (n : N) : py_int (py_str n) = Some (Z.of_N n).
Proof.
  unfold py_int. rewrite digits_int_chars by apply py_str_digits.
  rewrite strip_chars_id.
  2:{ eapply Forall_impl; [apply py_str_digits|].
      intros c Hc. now apply digit_not_space. }
  pose proof (py_str_digits n) as Hd.
  pose proof (digits_value_str n) as Hv.
  destruct (list_ascii_of_string (py_str n)) as [|c l] eqn:E.
  - now apply py_str_nonempty in E.
  - apply Forall_cons in Hd as [Hc _].
    destruct (digit_not_sign c Hc) as [-> ->].
    now rewrite Hv.
Qed.

(** ** Paths: a destination never lies directly in [AUDIOS_DIR] *)

Lemma append_dash_nonempty (a b : string) : a +:+ "-" +:+ b <> "".
Proof. destruct a; simpl; discriminate. Qed.

Lemma strftime_nonempty (t : Clock) : strftime t <> "".
Proof. unfold strftime. apply append_dash_nonempty. Qed.

Lemma path_div_part (p : Path) (s : string) : s <> "" -> path_div p s = p ++ [s].
Proof.
  intros H. unfold path_div.
  destruct (String.eqb_spec s ""); [contradiction | reflexivity].
Qed.

Lemma parent_with_suffix (d : Path) (name sfx : string) :
  name <> "" -> parent (with_suffix (path_div d name) sfx) = d.
Proof.
  intros H. rewrite path_div_part by assumption.
  unfold with_suffix, parent.
  rewrite removelast_last. apply removelast_last.
Qed.

Lemma user_dir_deep (member : Member) (w : World) :
  user_dir_of member w <> AUDIOS_DIR.
Proof.
  unfold user_dir_of.
  rewrite (path_div_part _ (strftime (clock w))) by apply strftime_nonempty.
  intros H. apply (f_equal (@length string)) in H.
  rewrite length_app in H. unfold path_div in H.
  destruct (String.eqb _ ""); [| rewrite length_app in H]; simpl in H; lia.
Qed.

Lemma dest_path_parent (member : Member) (w : World) :
  parent (dest_path_of member w) = user_dir_of member w.
Proof.
  unfold dest_path_of. apply parent_with_suffix, append_dash_nonempty.
Qed.

Lemma dest_path_deep (member : Member) (w : World) :
  parent (dest_path_of member w) <> AUDIOS_DIR.
Proof. rewrite dest_path_parent. apply user_dir_deep. Qed.

(** ** [process_user_recording], case by case *)

Lemma process_unconsented ctx user file_path consent_data channel w :
  granted consent_data user = false ->
  process_user_recording ctx user file_path consent_data channel w
  = (Ok None, set_fs (fs w ∖ {[file_path]}) w).
Proof. intros H. unfold process_user_recording. now rewrite H. Qed.

Lemma process_unresolved ctx user file_path consent_data channel w :
  granted consent_data user = true ->
  guild_members ctx !! user = None ->
  process_user_recording ctx user file_path consent_data channel w = (Ok None, w).
Proof. intros H1 H2. unfold process_user_recording. now rewrite H1, H2. Qed.

Lemma process_bot ctx user file_path consent_data channel w member :
  granted consent_data user = true ->
  guild_members ctx !! user = Some member ->
  bot member = true ->
  process_user_recording ctx user file_path consent_data channel w = (Ok None, w).
Proof. intros H1 H2 H3. unfold process_user_recording. now rewrite H1, H2, H3. Qed.

Lemma process_blocked ctx user file_path consent_data channel w member :
  granted consent_data user = true ->
  guild_members ctx !! user = Some member ->
  bot member = false ->
  blocked (user_dir_of member w) (fs w) = true ->
  process_user_recording ctx user file_path consent_data channel w = (Raise OSError, w).
Proof.
  intros H1 H2 H3 H4. unfold process_user_recording. rewrite H1, H2, H3.
  unfold user_dir_of in H4.
  unfold bind, now_stamp, gets, mkdir. simpl. now rewrite H4.
Qed.

Lemma process_missing ctx user file_path consent_data channel w member :
  granted consent_data user = true ->
  guild_members ctx !! user = Some member ->
  bot member = false ->
  blocked (user_dir_of member w) (fs w) = false ->
  file_path ∉ fs w ->
  process_user_recording ctx user file_path consent_data channel w
  = (Raise OSError, set_uuid_seed (uuid_seed w + 1) w).
Proof.
  intros H1 H2 H3 H4 H5. unfold process_user_recording. rewrite H1, H2, H3.
  unfold user_dir_of in H4.
  unfold bind, now_stamp, gets, mkdir, uuid4, shutil_move. simpl. rewrite H4.
  now rewrite bool_decide_eq_false_2.
Qed.

Lemma process_granted ctx user file_path consent_data channel w member :
  granted consent_data user = true ->
  guild_members ctx !! user = Some member ->
  bot member = false ->
  blocked (user_dir_of member w) (fs w) = false ->
  file_path ∈ fs w ->
  process_user_recording ctx user file_path consent_data channel w
  = (Ok (Some (dest_path_of member w)),
     {| fs := fs w ∖ {[file_path]} ∪ {[dest_path_of member w]};
        consent_file := consent_file w; consent_writable := consent_writable w;
        active_recordings := active_recordings w;
        task_ctx := task_ctx w;
        uuid_seed := uuid_seed w + 1;
        clock := clock w;
        trace :=
          EvPublish AUDIO_QUEUE
            {| msg_id := uuid4_str (uuid_seed w);
               msg_path := dest_path_of member w;
               msg_userId := user;
               msg_user := username member;
               msg_channelId := channel;
               msg_guildId := guild_id ctx |} :: trace w |}).
Proof.
  intros H1 H2 H3 H4 H5. unfold process_user_recording. rewrite H1, H2, H3.
  unfold user_dir_of in H4.
  unfold bind, now_stamp, gets, mkdir, uuid4, shutil_move. simpl. rewrite H4.
  now rewrite bool_decide_eq_true_2.
Qed.

(** The five ways a call can go. *)
Ltac process_cases ctx user file_path consent_data channel w :=
  let Hg := fresh "Hg" in
  let Hm := fresh "Hm" in
  let Hb := fresh "Hb" in
  let Hk := fresh "Hk" in
  let Hf := fresh "Hf" in
  let member := fresh "member" in
  destruct (granted consent_data user) eqn:Hg;
  [ destruct (guild_members ctx !! user) as [member|] eqn:Hm;
    [ destruct (bot member) eqn:Hb;
      [ rewrite (process_bot ctx user file_path consent_data channel w member Hg Hm Hb)
      | destruct (blocked (user_dir_of member w) (fs w)) eqn:Hk;
        [ rewrite (process_blocked ctx user file_path consent_data channel w member Hg Hm Hb Hk)
        | destruct (decide (file_path ∈ fs w)) as [Hf|Hf];
          [ rewrite (process_granted ctx user file_path consent_data channel w member Hg Hm Hb Hk Hf)
          | rewrite (process_missing ctx user file_path consent_data channel w member Hg Hm Hb Hk Hf) ] ] ]
    | rewrite (process_unresolved ctx user file_path consent_data channel w Hg Hm) ]
  | rewrite (process_unconsented ctx user file_path consent_data channel w Hg) ].

Lemma process_frame ctx user file_path consent_data channel w :
  let w' := snd (process_user_recording ctx user file_path consent_data channel w) in
  consent_file w' = consent_file w /\
  active_recordings w' = active_recordings w /\
  task_ctx w' = task_ctx w /\
  clock w' = clock w.
Proof.
  process_cases ctx user file_path consent_data channel w; simpl; auto.
Qed.

(** A path directly in [AUDIOS_DIR] that is not on disk stays off disk. *)
Lemma process_absent ctx user file_path consent_data channel w (p : Path) :
  parent p = AUDIOS_DIR ->
  p ∉ fs w ->
  p ∉ fs (snd (process_user_recording ctx user file_path consent_data channel w)).
Proof.
  intros Hp Hn.
  process_cases ctx user file_path consent_data channel w; simpl; try assumption.
  - intros [Hin | Hin%elem_of_singleton]%elem_of_union.
    + apply elem_of_difference in Hin as [Hin _]. contradiction.
    + subst p. now apply dest_path_deep in Hp.
  - intros [Hin _]%elem_of_difference. contradiction.
Qed.

Lemma process_published ctx user file_path consent_data channel w :
  let w' := snd (process_user_recording ctx user file_path consent_data channel w) in
  published w' = published w \/
  exists m, published w' = (AUDIO_QUEUE, m) :: published w /\
            segment_of ctx consent_data [(user, file_path)] channel (AUDIO_QUEUE, m).
Proof.
  process_cases ctx user file_path consent_data channel w; simpl; auto.
  right. eexists. split; [reflexivity|].
  exists file_path, member. simpl. repeat split; try assumption.
  apply list_elem_of_singleton. reflexivity.
Qed.

(** ** The flush *)

Lemma gather_snd_cons {A} (t : M A) (rest : list (M A)) (w : World) :
  snd (gather (t :: rest) w) = snd (gather rest (snd (t w))).
Proof.
  simpl. destruct (t w) as [[a|e] w1]; simpl; [|reflexivity].
  destruct (gather rest w1) as [[l|e] w2]; reflexivity.
Qed.

Lemma flush_unfold ctx vs consent_data :
  flush ctx vs consent_data
  = gather (process_item ctx consent_data (vs_channel vs) <$> output vs).
Proof. reflexivity. Qed.

Lemma segment_of_mono ctx consent_data items items' channel tm :
  (forall it, it ∈ items -> it ∈ items') ->
  segment_of ctx consent_data items channel tm ->
  segment_of ctx consent_data items' channel tm.
Proof.
  intros Hsub (fp & mem & Hin & H). exists fp, mem. split; [auto | exact H].
Qed.

Lemma gather_frame ctx consent_data channel items w :
  let w' := snd (gather (process_item ctx consent_data channel <$> items) w) in
  consent_file w' = consent_file w /\
  active_recordings w' = active_recordings w /\
  task_ctx w' = task_ctx w /\
  clock w' = clock w.
Proof.
  revert w. induction items as [|it items IH]; intros w; [simpl; auto|].
  rewrite fmap_cons. cbv zeta. rewrite gather_snd_cons.
  destruct (IH (snd (process_item ctx consent_data channel it w))) as (H1 & H2 & H3 & H4).
  destruct (process_frame ctx (fst it) (snd it) consent_data channel w) as (G1 & G2 & G3 & G4).
  unfold process_item in *. repeat split; congruence.
Qed.

(** What a flush publishes: each message is the segment of an item, and
    the participants of the messages, oldest first, are picked in order
    from the participants of the items. *)
Lemma gather_published ctx consent_data channel items w :
  exists new,
    published (snd (gather (process_item ctx consent_data channel <$> items) w))
    = new ++ published w /\
    Forall (segment_of ctx consent_data items channel) new /\
    published_users new `sublist_of` reverse (fst <$> items).
Proof.
  revert w. induction items as [|it items IH]; intros w.
  - exists []. split; [reflexivity|]. split; [constructor | apply sublist_nil_l].
  - rewrite fmap_cons, gather_snd_cons.
    destruct (IH (snd (process_item ctx consent_data channel it w)))
      as (new & Hnew & Hall & Hsub).
    assert (Hweak : Forall (segment_of ctx consent_data (it :: items) channel) new).
    { eapply Forall_impl; [exact Hall|]. intros tm. apply segment_of_mono.
      intros x Hx. now apply list_elem_of_further. }
    rewrite fmap_cons, reverse_cons.
    destruct (process_published ctx (fst it) (snd it) consent_data channel w)
      as [Heq | (m & Heq & Hseg)]; unfold process_item in *.
    + exists new. split; [now rewrite Hnew, Heq|]. split; [exact Hweak|].
      now apply sublist_inserts_r.
    + exists (new ++ [(AUDIO_QUEUE, m)]). split; [|split].
      * rewrite Hnew, Heq. now rewrite <- app_assoc.
      * apply Forall_app. split; [exact Hweak|].
        constructor; [|constructor].
        eapply segment_of_mono; [|exact Hseg].
        intros x Hx%list_elem_of_singleton. subst x.
        destruct it. apply list_elem_of_here.
      * unfold published_users. rewrite fmap_app.
        apply sublist_app; [exact Hsub|].
        destruct Hseg as (fp & mem & Hin & _).
        apply list_elem_of_singleton in Hin. injection Hin as Hu _.
        cbn [fmap list_fmap snd]. rewrite Hu. reflexivity.
Qed.

Lemma gather_absent ctx consent_data channel items w (p : Path) :
  parent p = AUDIOS_DIR ->
  p ∉ fs w ->
  p ∉ fs (snd (gather (process_item ctx consent_data channel <$> items) w)).
Proof.
  intros Hp. revert w. induction items as [|it items IH]; intros w Hn; [exact Hn|].
  rewrite fmap_cons, gather_snd_cons. apply IH.
  now apply process_absent.
Qed.

(** The artifact of a participant without a grant is off disk after the
    flush. *)
Lemma gather_discards ctx consent_data channel items w user (p : Path) :
  (user, p) ∈ items ->
  granted consent_data user = false ->
  parent p = AUDIOS_DIR ->
  p ∉ fs (snd (gather (process_item ctx consent_data channel <$> items) w)).
Proof.
  intros Hin Hg Hp. revert w.
  induction items as [|it items IH]; intros w; [now apply elem_of_nil in Hin|].
  rewrite fmap_cons, gather_snd_cons.
  apply elem_of_cons in Hin as [<- | Hin]; [|now apply IH].
  apply gather_absent; [exact Hp|].
  unfold process_item. simpl.
  rewrite (process_unconsented _ _ _ _ _ _ Hg). simpl.
  intros [_ Hne]%elem_of_difference. apply Hne. now apply elem_of_singleton.
Qed.

(** ** Both flushing handlers go through [flush] *)

Lemma periodic_via_flush ctx w vs :
  active_recordings w !! guild_id ctx = Some vs ->
  via_flush ctx vs w (snd (scheduled_transcription_task ctx w)).
Proof.
  intros Hreg.
  remember (snd (scheduled_transcription_task ctx w)) as w' eqn:Ew.
  unfold scheduled_transcription_task in Ew.
  unfold bind at 1 in Ew. unfold gets at 1 in Ew.
  unfold VoiceStateManager.get in Ew. rewrite Hreg in Ew.
  unfold try_except, bind, vs_stop_recording, sync, emit, modify, ret,
    ConsentManager.load, gets in Ew.
  simpl in Ew. rewrite flush_unfold in Ew. simpl in Ew.
  match type of Ew with
  | context [gather ?ts ?w0] =>
      exists w0; split; [reflexivity | split; [reflexivity|]];
      cbv zeta; destruct (gather ts w0) as [[r|e] w1]; simpl in Ew
  end.
  - subst w'. split; reflexivity.
  - destruct (connected _); simpl in Ew; subst w'; split; reflexivity.
Qed.

Lemma stop_via_flush ctx w vs :
  active_recordings w !! guild_id ctx = Some vs ->
  via_flush ctx vs w (snd (stop_recording ctx w)).
Proof.
  intros Hreg.
  remember (snd (stop_recording ctx w)) as w' eqn:Ew.
  unfold stop_recording in Ew.
  unfold bind at 1 in Ew. unfold gets at 1 in Ew.
  unfold VoiceStateManager.remove in Ew. rewrite Hreg in Ew.
  unfold try_except, bind, task_stop, vs_stop_recording, vs_disconnect, emit,
    modify, ret, ConsentManager.load, gets in Ew.
  simpl in Ew. rewrite flush_unfold in Ew. simpl in Ew.
  match type of Ew with
  | context [gather ?ts ?w0] =>
      exists w0; split; [reflexivity | split; [reflexivity|]];
      cbv zeta; destruct (gather ts w0) as [[r|e] w1]; simpl in Ew
  end.
  - subst w'. split; reflexivity.
  - destruct (connected _); simpl in Ew; subst w'; split; reflexivity.
Qed.

Lemma via_flush_published ctx vs w w' :
  via_flush ctx vs w w' ->
  exists new,
    published w' = new ++ published w /\
    Forall (segment_of ctx (default ∅ (consent_file w)) (output vs) (vs_channel vs)) new /\
    (NoDup (fst <$> output vs) -> NoDup (published_users new)).
Proof.
  intros (w0 & Hfs & Hpub & _ & Hpub').
  destruct (gather_published ctx (default ∅ (consent_file w)) (vs_channel vs) (output vs) w0)
    as (new & Hnew & Hall & Hsub).
  exists new. split; [now rewrite Hpub', Hnew, Hpub|]. split; [exact Hall|].
  intros Hnd. eapply sublist_NoDup; [|exact Hsub]. now rewrite reverse_Permutation.
Qed.

Lemma via_flush_discards ctx vs w w' user (p : Path) :
  via_flush ctx vs w w' ->
  (user, p) ∈ output vs ->
  granted (default ∅ (consent_file w)) user = false ->
  parent p = AUDIOS_DIR ->
  p ∉ fs w'.
Proof.
  intros (w0 & _ & _ & Hfs' & _) Hin Hg Hp.
  rewrite Hfs'. now apply (gather_discards _ _ _ _ _ user).
Qed.

(** Whoever a flush publishes for has granted consent and is not a bot. *)
Lemma via_flush_only_granted ctx vs w w' (tm : string * SegmentMessage) :
  via_flush ctx vs w w' ->
  tm ∈ published w' ->
  (tm ∈ published w) \/
  segment_of ctx (default ∅ (consent_file w)) (output vs) (vs_channel vs) tm.
Proof.
  intros Hv Hin. destruct (via_flush_published _ _ _ _ Hv) as (new & Hnew & Hall & _).
  rewrite Hnew in Hin. apply elem_of_app in Hin as [Hin | Hin]; [right | now left].
  rewrite Forall_forall in Hall. now apply Hall.
Qed.

(** ** Consent gating of the flush *)

Lemma granted_false (consent_data : gmap string bool) (user : N) :
  consent_data !! py_str user = Some false \/ consent_data !! py_str user = None ->
  granted consent_data user = false.
Proof. unfold granted. intros [-> | ->]; reflexivity. Qed.

Lemma granted_true (consent_data : gmap string bool) (user : N) :
  consent_data !! py_str user = Some true -> granted consent_data user = true.
Proof. unfold granted. now intros ->. Qed.

(** C1. The artifact of a participant whose consent entry is [false] or
    missing: [process_user_recording] deletes the file, publishes nothing and
    returns no path; and after every flush, by the periodic task or by the
    stop command, the file is off disk and no message published by the
    flush carries that participant. *)
Theorem unconsented_artifact_discarded
    ctx (consent_data : gmap string bool) (user : N) (file_path : Path) :
  consent_data !! py_str user = Some false \/ consent_data !! py_str user = None ->
  (forall channel w,
     process_user_recording ctx user file_path consent_data channel w
     = (Ok None, set_fs (fs w ∖ {[file_path]}) w)) /\
  (forall w vs w',
     active_recordings w !! guild_id ctx = Some vs ->
     default ∅ (consent_file w) = consent_data ->
     (user, file_path) ∈ output vs ->
     parent file_path = AUDIOS_DIR ->
     w' = snd (scheduled_transcription_task ctx w) \/ w' = snd (stop_recording ctx w) ->
     (file_path ∉ fs w') /\
     forall tm, tm ∈ published w' -> msg_userId (snd tm) = user -> tm ∈ published w).
Proof.
  intros Hc. apply granted_false in Hc. split.
  - intros channel w. now apply process_unconsented.
  - intros w vs w' Hreg Hload Hin Hp Hw'.
    assert (Hv : via_flush ctx vs w w').
    { destruct Hw' as [-> | ->];
        [now apply periodic_via_flush | now apply stop_via_flush]. }
    subst consent_data. split.
    + now apply (via_flush_discards ctx vs w w' user).
    + intros tm Htm Hu.
      destruct (via_flush_only_granted _ _ _ _ _ Hv Htm) as [Hold | Hseg]; [exact Hold|].
      destruct Hseg as (fp & mem & _ & Hg & _). congruence.
Qed.

(** C6, as the code has it.  For a bot account no segment is produced and
    nothing is published, whatever the consent record holds; the consent
    record is consulted first, and without a grant in it the artifact of
    the bot is deleted as any other. *)
Theorem bot_artifact_never_published
    ctx (consent_data : gmap string bool) (user : N) (file_path : Path) member :
  guild_members ctx !! user = Some member ->
  bot member = true ->
  (forall channel w,
     let r := process_user_recording ctx user file_path consent_data channel w in
     fst r = Ok None /\
     trace (snd r) = trace w /\
     uuid_seed (snd r) = uuid_seed w /\
     (granted consent_data user = false -> fs (snd r) = fs w ∖ {[file_path]})) /\
  (forall w vs w',
     active_recordings w !! guild_id ctx = Some vs ->
     w' = snd (scheduled_transcription_task ctx w) \/ w' = snd (stop_recording ctx w) ->
     forall tm, tm ∈ published w' -> msg_userId (snd tm) = user -> tm ∈ published w).
Proof.
  intros Hm Hb. split.
  - intros channel w. cbv zeta.
    destruct (granted consent_data user) eqn:Hg.
    + rewrite (process_bot _ _ _ _ _ _ _ Hg Hm Hb). simpl. repeat split. discriminate.
    + rewrite (process_unconsented _ _ _ _ _ _ Hg). simpl. repeat split.
  - intros w vs w' Hreg Hw' tm Htm Hu.
    assert (Hv : via_flush ctx vs w w').
    { destruct Hw' as [-> | ->];
        [now apply periodic_via_flush | now apply stop_via_flush]. }
    destruct (via_flush_only_granted _ _ _ _ _ Hv Htm) as [Hold | Hseg]; [exact Hold|].
    destruct Hseg as (fp & mem & _ & _ & Hm' & Hb' & _). congruence.
Qed.

(** ** The rejection-feedback consumer *)

Lemma on_ready_step_rejection guild w :
  on_ready_step 0 (rejection_event guild) w = (Ok 0, w).
Proof.
  unfold on_ready_step, rejection_event. simpl.
  now rewrite String.eqb_refl.
Qed.

(** C3, on the code.  Started at zero, the counter of [on_ready] stays at
    zero over any sequence of rejection events, whatever their guilds and
    whatever the registry holds: no cue is played and the world is left as
    it was.  Fourteen events for one connected session give no cue. *)
Theorem rejection_counter_stuck (guilds : list N) (w : World) :
  on_ready (rejection_event <$> guilds) w = (Ok 0, w).
Proof.
  unfold on_ready. induction guilds as [|g guilds IH]; [reflexivity|].
  rewrite fmap_cons. cbn [on_ready_loop]. unfold bind.
  now rewrite on_ready_step_rejection.
Qed.

Lemma on_ready_step_malformed (counter : N) (channel : string) (w : World) :
  on_ready_step counter
    {| message_type := "message"; message_channel := channel;
       message_data := Unparsable |} w
  = (Raise JSONDecodeError, w).
Proof. reflexivity. Qed.

(** C7, on the code.  A message whose payload does not parse makes
    [json.loads] raise inside the loop of [on_ready]: whatever was consumed
    before it, the loop ends there with that exception, and the messages
    after it are not consumed: they have no part in the outcome. *)
Theorem malformed_event_ends_loop
    (before rest : list Message) (channel : string)
    (counter counter' : N) (w w' : World) :
  on_ready_loop counter before w = (Ok counter', w') ->
  on_ready_loop counter
    (before ++ {| message_type := "message"; message_channel := channel;
                  message_data := Unparsable |} :: rest) w
  = (Raise JSONDecodeError, w').
Proof.
  revert counter w. induction before as [|m before IH]; intros counter w H.
  - cbn [on_ready_loop ret] in H. injection H as -> ->.
    cbn [app on_ready_loop]. unfold bind.
    now rewrite on_ready_step_malformed.
  - cbn [app on_ready_loop] in *. unfold bind in *.
    destruct (on_ready_step counter m w) as [[c1|e] w1].
    + now apply IH.
    + discriminate.
Qed.

(** ** The start command and the registry *)

Lemma start_not_in_voice (ctx : SlashContext) (w : World) :
  author_voice ctx = None \/ author_voice ctx = Some None ->
  start_recording ctx w = (Ok tt, record (EvSend MSG_NOT_IN_VOICE true) w).
Proof. intros [H | H]; unfold start_recording; rewrite H; reflexivity. Qed.

Lemma start_already_recording (ctx : SlashContext) (w : World) channel vs :
  author_voice ctx = Some (Some channel) ->
  active_recordings w !! guild_id ctx = Some vs ->
  start_recording ctx w = (Ok tt, record (EvSend MSG_ALREADY_RECORDING true) w).
Proof.
  intros H Hreg. unfold start_recording. rewrite H.
  unfold bind at 1. unfold gets at 1. unfold VoiceStateManager.get.
  rewrite Hreg. reflexivity.
Qed.

Lemma start_keeps_registered (ctx : SlashContext) (w : World) :
  is_Some (active_recordings w !! guild_id ctx) ->
  active_recordings (snd (start_recording ctx w)) = active_recordings w.
Proof.
  intros [vs Hreg].
  destruct (author_voice ctx) as [[channel|]|] eqn:Hv.
  - now rewrite (start_already_recording ctx w channel vs Hv Hreg).
  - rewrite start_not_in_voice; auto.
  - rewrite start_not_in_voice; auto.
Qed.

(** C8, as the code has it.  [start_recording] first checks that the
    requester is in a voice channel and answers [MSG_NOT_IN_VOICE] if not,
    whatever the registry holds; only for a requester in a voice channel
    does a registered session give [MSG_ALREADY_RECORDING].  Neither reply
    changes anything else. *)
Theorem start_checks_voice_first (ctx : SlashContext) (w : World) :
  (author_voice ctx = None \/ author_voice ctx = Some None ->
   start_recording ctx w = (Ok tt, record (EvSend MSG_NOT_IN_VOICE true) w)) /\
  (forall channel vs,
     author_voice ctx = Some (Some channel) ->
     active_recordings w !! guild_id ctx = Some vs ->
     start_recording ctx w = (Ok tt, record (EvSend MSG_ALREADY_RECORDING true) w)).
Proof.
  split.
  - apply start_not_in_voice.
  - intros channel vs. apply start_already_recording.
Qed.

(** C9, as the code has it.  [VoiceStateManager.add] makes no check: it
    stores the voice state under the guild, replacing what was there, and
    leaves the other guilds alone.  One session per guild rests on the
    caller: [start_recording] leaves the registry as it is when the guild
    already has a session. *)
Theorem add_overwrites
    (guild : N) (vs : VoiceState) (active : gmap N VoiceState)
    (ctx : SlashContext) (w : World) :
  VoiceStateManager.get guild (VoiceStateManager.add guild vs active) = Some vs /\
  (forall other, other <> guild ->
     VoiceStateManager.get other (VoiceStateManager.add guild vs active)
     = VoiceStateManager.get other active) /\
  (is_Some (VoiceStateManager.get (guild_id ctx) (active_recordings w)) ->
   active_recordings (snd (start_recording ctx w)) = active_recordings w).
Proof.
  unfold VoiceStateManager.get, VoiceStateManager.add. split; [|split].
  - apply lookup_insert_eq.
  - intros other Hne. now apply lookup_insert_ne.
  - apply start_keeps_registered.
Qed.

(** ** Consent responses *)


Lemma consent_response_unparsed ctx w :
  (forall prefix action user n,
     split_on "_" (custom_id ctx) = [prefix; action; user] -> py_int user <> Some n) ->
  handle_consent_response ctx w = (Raise ValueError, w).
Proof.
  intros H. unfold handle_consent_response.
  destruct (split_on "_" (custom_id ctx)) as [|a [|b [|c [|d l]]]]; try reflexivity.
  destruct (py_int c) as [n|] eqn:E; [|reflexivity].
  now destruct (H a b c n eq_refl).
Qed.


(** ** Voice presence: the leave handler *)

Lemma remaining_nil (event : VoiceEvent) (consent_data : gmap string bool) :
  remaining event consent_data = [] <->
  forall m, m ∈ members (ev_channel event) ->
    bot m = false ->
    member_id m <> member_id (ev_author event) ->
    consent_data !! py_str (member_id m) = None.
Proof.
  unfold remaining. split.
  - intros Hnil m Hin Hb Hne.
    destruct (consent_data !! py_str (member_id m)) as [d|] eqn:E; [|reflexivity].
    assert (Hm : m ∈ List.filter
              (fun m => negb (bot m) && decided consent_data (member_id m)
                        && negb (member_id m =? member_id (ev_author event)))
              (members (ev_channel event))).
    { apply list_elem_of_In, filter_In. split; [now apply list_elem_of_In|].
      rewrite Hb. unfold decided. rewrite E.
      rewrite bool_decide_eq_true_2 by eauto.
      apply N.eqb_neq in Hne. now rewrite Hne. }
    rewrite Hnil in Hm. now apply elem_of_nil in Hm.
  - intros H.
    destruct (List.filter _ _) as [|m l] eqn:E; [reflexivity|].
    assert (Hm : In m (m :: l)) by now left.
    rewrite <- E in Hm. apply filter_In in Hm as [Hin Hp].
    apply andb_prop in Hp as [Hp Hne]. apply andb_prop in Hp as [Hb Hd].
    apply negb_true_iff in Hb. apply negb_true_iff, N.eqb_neq in Hne.
    apply list_elem_of_In in Hin.
    specialize (H m Hin Hb Hne).
    unfold decided in Hd. rewrite H in Hd.
    apply bool_decide_eq_true in Hd. now destruct Hd.
Qed.

Lemma leave_unfold (event : VoiceEvent) (w : World) (vs : VoiceState) :
  bot (ev_author event) = false ->
  member_id (ev_author event) <> bot_user_id ->
  active_recordings w !! channel_guild (ev_channel event) = Some vs ->
  channel_id (ev_channel event) = vs_channel vs ->
  on_voice_user_leave event w
  = match remaining event (default ∅ (consent_file w)) with
    | [] => (Ok tt, torn_down event vs w)
    | _ :: _ => (Ok tt, w)
    end.
Proof.
  intros Hb Hne Hreg Hch. unfold on_voice_user_leave.
  rewrite Hb. apply N.eqb_neq in Hne. rewrite Hne. cbn [orb].
  unfold bind at 1. unfold gets at 1. unfold VoiceStateManager.get. rewrite Hreg.
  replace (channel_id (ev_channel event) =? vs_channel vs) with true
    by (symmetry; now apply N.eqb_eq).
  cbn [negb].
  unfold bind at 1. unfold ConsentManager.load, gets.
  destruct (remaining event (default ∅ (consent_file w))); reflexivity.
Qed.

(** C4, as the code has it.  When a participant that is not a bot leaves
    the channel of the active session, the session is torn down and the
    departure notice sent exactly when no other member of the channel that
    is not a bot has a consent decision on record, granted or denied; a
    member without a decision does not keep the session running, a member
    with one does. *)
Theorem leave_stops_without_decided_member
    (event : VoiceEvent) (w : World) (vs : VoiceState) :
  bot (ev_author event) = false ->
  member_id (ev_author event) <> bot_user_id ->
  active_recordings w !! channel_guild (ev_channel event) = Some vs ->
  channel_id (ev_channel event) = vs_channel vs ->
  ((forall m, m ∈ members (ev_channel event) ->
      bot m = false ->
      member_id m <> member_id (ev_author event) ->
      default ∅ (consent_file w) !! py_str (member_id m) = None) ->
   on_voice_user_leave event w = (Ok tt, torn_down event vs w)) /\
  (forall m, m ∈ members (ev_channel event) ->
     bot m = false ->
     member_id m <> member_id (ev_author event) ->
     is_Some (default ∅ (consent_file w) !! py_str (member_id m)) ->
     on_voice_user_leave event w = (Ok tt, w)).
Proof.
  intros Hb Hne Hreg Hch.
  rewrite (leave_unfold event w vs Hb Hne Hreg Hch). split.
  - intros H. apply remaining_nil in H. now rewrite H.
  - intros m Hin Hbm Hnm [d Hd].
    destruct (remaining event (default ∅ (consent_file w))) eqn:E; [|reflexivity].
    rewrite remaining_nil in E. rewrite (E m Hin Hbm Hnm) in Hd. discriminate.
Qed.
(** ** The stop command against the stop forced by a leave *)

Lemma process_trace_mono ctx user file_path consent_data channel w (e : Event) :
  e ∈ trace w ->
  e ∈ trace (snd (process_user_recording ctx user file_path consent_data channel w)).
Proof.
  intros He.
  process_cases ctx user file_path consent_data channel w; simpl; try assumption.
  now apply list_elem_of_further.
Qed.

Lemma gather_trace_mono ctx consent_data channel items w (e : Event) :
  e ∈ trace w ->
  e ∈ trace (snd (gather (process_item ctx consent_data channel <$> items) w)).
Proof.
  revert w. induction items as [|it items IH]; intros w He; [exact He|].
  rewrite fmap_cons, gather_snd_cons. apply IH.
  now apply process_trace_mono.
Qed.

(** [stop_recording] on a registered session, in one equation. *)
Lemma stop_unfold ctx w vs :
  active_recordings w !! guild_id ctx = Some vs ->
  stop_recording ctx w
  = match
      gather (process_item ctx (default ∅ (consent_file w)) (vs_channel vs) <$> output vs)
        (record (EvPlayNoWait (vs_channel vs) CueStop)
           (record (EvStopRecording (vs_channel vs))
              (record EvTaskStop
                 (set_task_ctx None
                    (set_active_recordings
                       (delete (guild_id ctx) (active_recordings w)) w)))))
    with
    | (Ok paths, w1) =>
        (Ok tt,
         record (EvDisconnect (vs_channel vs))
           (record (EvSend (MSG_STOPPED (successful paths)) false) w1))
    | (Raise _, w1) =>
        if connected vs
        then (Ok tt,
              record (EvDisconnect (vs_channel vs))
                (record (EvPlay (vs_channel vs) CueError)
                   (record (EvSend MSG_STOP_ERROR true) w1)))
        else (Ok tt, record (EvSend MSG_STOP_ERROR true) w1)
    end.
Proof.
  intros Hreg.
  match goal with
  | |- _ = match ?g with _ => _ end => set (G := g)
  end.
  unfold stop_recording.
  unfold bind at 1. unfold gets at 1.
  unfold VoiceStateManager.remove. rewrite Hreg.
  unfold try_except, bind, task_stop, vs_stop_recording, vs_disconnect, emit,
    modify, ret, ConsentManager.load, gets.
  simpl. rewrite flush_unfold. simpl.
  match goal with
  | |- context [gather ?ts ?w0] => change (gather ts w0) with G
  end.
  destruct G as [[r|e] w1]; [reflexivity|].
  destruct (connected vs); reflexivity.
Qed.

(** C5, as the code has it.  The stop forced by a leave shares with the
    stop command the cancelling of the task, the disconnection and the
    removal from the registry.  It does not stop the capture, queues no
    stop cue and runs no flush: it touches no file and publishes nothing,
    where the stop command stops the capture, queues the stop cue and runs
    the flush. *)
Theorem leave_stop_tears_down_without_flush
    (event : VoiceEvent) (ctx : SlashContext) (w : World) (vs : VoiceState) :
  bot (ev_author event) = false ->
  member_id (ev_author event) <> bot_user_id ->
  guild_id ctx = channel_guild (ev_channel event) ->
  active_recordings w !! guild_id ctx = Some vs ->
  channel_id (ev_channel event) = vs_channel vs ->
  remaining event (default ∅ (consent_file w)) = [] ->
  let wl := snd (on_voice_user_leave event w) in
  let ws := snd (stop_recording ctx w) in
  active_recordings wl = delete (guild_id ctx) (active_recordings w) /\
  active_recordings ws = delete (guild_id ctx) (active_recordings w) /\
  task_ctx wl = None /\
  task_ctx ws = None /\
  trace wl
  = [EvChannelSend (channel_id (ev_channel event)) MSG_ALL_LEFT;
     EvDisconnect (vs_channel vs); EvTaskStop] ++ trace w /\
  fs wl = fs w /\
  published wl = published w /\
  EvStopRecording (vs_channel vs) ∈ trace ws /\
  EvPlayNoWait (vs_channel vs) CueStop ∈ trace ws /\
  via_flush ctx vs w ws.
Proof.
  intros Hb Hne Hg Hreg Hch Hrem. cbv zeta.
  assert (Hreg' : active_recordings w !! channel_guild (ev_channel event) = Some vs)
    by now rewrite <- Hg.
  rewrite (leave_unfold event w vs Hb Hne Hreg' Hch), Hrem.
  split; [now rewrite Hg|].
  assert (Hstop := stop_unfold ctx w vs Hreg).
  pose proof (stop_via_flush ctx w vs Hreg) as Hvia.
  set (w0 := record (EvPlayNoWait (vs_channel vs) CueStop) _) in Hstop.
  pose proof (gather_frame ctx (default ∅ (consent_file w)) (vs_channel vs) (output vs) w0)
    as (_ & Hact & Htask & _).
  pose proof (gather_trace_mono ctx (default ∅ (consent_file w)) (vs_channel vs)
                (output vs) w0 (EvStopRecording (vs_channel vs))) as Hsr.
  pose proof (gather_trace_mono ctx (default ∅ (consent_file w)) (vs_channel vs)
                (output vs) w0 (EvPlayNoWait (vs_channel vs) CueStop)) as Hpn.
  assert (Htr : forall e, e ∈ trace (snd (gather
                  (process_item ctx (default ∅ (consent_file w)) (vs_channel vs)
                   <$> output vs) w0)) -> e ∈ trace (snd (stop_recording ctx w))).
  { intros e He. rewrite Hstop.
    destruct (gather _ w0) as [[r|x] w1]; [|destruct (connected vs)];
      cbn [snd record trace] in *; repeat apply list_elem_of_further; exact He. }
  assert (Hfr : active_recordings (snd (stop_recording ctx w))
                = active_recordings (snd (gather
                    (process_item ctx (default ∅ (consent_file w)) (vs_channel vs)
                     <$> output vs) w0)) /\
                task_ctx (snd (stop_recording ctx w))
                = task_ctx (snd (gather
                    (process_item ctx (default ∅ (consent_file w)) (vs_channel vs)
                     <$> output vs) w0))).
  { rewrite Hstop.
    destruct (gather _ w0) as [[r|x] w1]; [|destruct (connected vs)];
      split; reflexivity. }
  destruct Hfr as [Hfa Hft].
  split; [rewrite Hfa, Hact; reflexivity|].
  split; [reflexivity|].
  split; [rewrite Hft, Htask; reflexivity|].
  split; [reflexivity|]. split; [reflexivity|]. split; [reflexivity|].
  split; [apply Htr, Hsr; subst w0; cbn [record trace];
          apply list_elem_of_further, list_elem_of_here|].
  split; [apply Htr, Hpn; subst w0; cbn [record trace]; apply list_elem_of_here|].
  exact Hvia.
Qed.

(** ** Splitting and joining *)

Lemma split_on_nonempty (sep : ascii) (s : string) : split_on sep s <> [].
Proof.
  destruct s as [|c s]; simpl; [discriminate|].
  destruct (Ascii.eqb c sep); [discriminate|].
  destruct (split_on sep s); discriminate.
Qed.

Lemma split_on_free (sep : ascii) (s : string) :
  contains sep s = false -> split_on sep s = [s].
Proof.
  induction s as [|c s IH]; simpl; [reflexivity|].
  intros H. apply orb_false_elim in H as [Hc Hs].
  rewrite Hc, (IH Hs). reflexivity.
Qed.

Lemma split_on_append (sep : ascii) (piece rest : string) :
  contains sep piece = false ->
  split_on sep (piece +:+ String sep rest) = piece :: split_on sep rest.
Proof.
  induction piece as [|c piece IH]; simpl; intros H.
  - now rewrite Ascii.eqb_refl.
  - apply orb_false_elim in H as [Hc Hs]. rewrite Hc, (IH Hs). reflexivity.
Qed.

(** X1.  [split] and [join] are inverse to each other: joining the pieces
    of a string gives the string back, no piece holds the separator, and
    splitting the join of separator-free pieces gives the pieces back. *)
Theorem split_join_round_trip (sep : ascii) :
  (forall s, join_with sep (split_on sep s) = s) /\
  (forall s, Forall (fun piece => contains sep piece = false) (split_on sep s)) /\
  (forall pieces,
     pieces <> [] ->
     Forall (fun piece => contains sep piece = false) pieces ->
     split_on sep (join_with sep pieces) = pieces).
Proof.
  split; [|split].
  - induction s as [|c s IH]; [reflexivity|].
    simpl. destruct (Ascii.eqb_spec c sep) as [-> | Hne].
    + pose proof (split_on_nonempty sep s) as Hn.
      simpl. destruct (split_on sep s) as [|p l]; [contradiction|].
      simpl in *. now rewrite IH.
    + pose proof (split_on_nonempty sep s) as Hn.
      destruct (split_on sep s) as [|p l]; [contradiction|].
      destruct l; simpl in *; now rewrite <- IH.
  - induction s as [|c s IH]; [repeat constructor|].
    simpl. destruct (Ascii.eqb_spec c sep) as [-> | Hne].
    + constructor; [reflexivity | exact IH].
    + destruct (split_on sep s) as [|p l]; [repeat constructor|].
      * simpl. apply Ascii.eqb_neq in Hne. now rewrite Hne.
      * apply Forall_cons in IH as [Hp Hl]. constructor; [|exact Hl].
        simpl. apply Ascii.eqb_neq in Hne. now rewrite Hne.
  - induction pieces as [|p l IH]; [contradiction|].
    intros _ Hall. apply Forall_cons in Hall as [Hp Hl].
    destruct l as [|q l].
    + simpl. now apply split_on_free.
    + change (join_with sep (p :: q :: l)) with (p +:+ String sep (join_with sep (q :: l))).
      rewrite split_on_append by exact Hp.
      rewrite IH; [reflexivity | discriminate | exact Hl].
Qed.

(** ** The sanitized name *)

Lemma drop_while_incl {A} (p : A -> bool) (l : list A) (x : A) :
  x ∈ drop_while p l -> x ∈ l.
Proof.
  induction l as [|y l IH]; simpl; [auto|].
  destruct (p y); [|auto]. intros H. now apply list_elem_of_further, IH.
Qed.

Lemma strip_chars_incl (p : ascii -> bool) (l : list ascii) (x : ascii) :
  x ∈ strip_chars p l -> x ∈ l.
Proof.
  unfold strip_chars. intros H.
  apply list_elem_of_In, in_rev, list_elem_of_In, drop_while_incl in H.
  apply list_elem_of_In, in_rev, list_elem_of_In, drop_while_incl in H.
  exact H.
Qed.

Lemma sanitize_char_safe (c : ascii) :
  is_word (sanitize_char c) = true \/ sanitize_char c = "-"%char.
Proof.
  unfold sanitize_char.
  destruct (is_word c) eqn:Hw; cbn [orb]; [now left|].
  destruct (Ascii.eqb_spec c "-") as [-> | _]; cbn [orb]; [now right|].
  destruct (Ascii.eqb_spec c "_") as [-> | _]; left; unfold is_word;
    now rewrite Ascii.eqb_refl, orb_true_r.
Qed.

(** X2.  The directory name made of a user name is at most 64 characters
    long and holds only word characters and dashes: no path separator, no
    dot, no space, whatever the user name. *)
Theorem safe_name_is_safe (name : string) :
  (String.length (safe_name name) <= 64)%nat /\
  Forall (fun c => (is_word c = true \/ c = "-"%char) /\
                   c <> "/"%char /\ c <> "."%char /\ c <> " "%char /\ c <> "\"%char)
    (list_ascii_of_string (safe_name name)).
Proof.
  unfold safe_name. split.
  - rewrite <- (list_ascii_of_string_of_list_ascii (take 64 _)) at 1.
    rewrite string_of_list_ascii_of_string.
    assert (H : forall l, String.length (string_of_list_ascii l) = length l).
    { induction l as [|c l IH]; simpl; [reflexivity | now rewrite IH]. }
    rewrite H, length_take. lia.
  - rewrite list_ascii_of_string_of_list_ascii.
    assert (Hs : Forall (fun c => is_word c = true \/ c = "-"%char)
                   (take 64 (strip_chars (Ascii.eqb "_")
                               (sanitize_char <$> list_ascii_of_string name)))).
    { apply Forall_forall. intros c Hc.
      pose proof (elem_of_sublist _ _ _ Hc (sublist_take _ 64)) as Hc'.
      apply strip_chars_incl, list_elem_of_fmap in Hc' as (c0 & -> & _).
      apply sanitize_char_safe. }
    eapply Forall_impl; [exact Hs|].
    intros c Hc. split; [exact Hc|].
    repeat split; intros ->; destruct Hc as [Hc | Hc]; discriminate.
Qed.

(** ** Identifiers as consent keys *)

(** X3.  [int(str(n)) = n] for every identifier, so [str] gives distinct
    participants distinct keys of the consent record. *)
Theorem consent_keys_round_trip :
  (forall n : N, py_int (py_str n) = Some (Z.of_N n)) /\
  (forall a b : N, py_str a = py_str b -> a = b).
Proof.
  split; [apply py_int_str|].
  intros a b H. pose proof (py_int_str a) as Ha.
  rewrite H, py_int_str in Ha. injection Ha as Ha. lia.
Qed.

(** ** Consent responses, further *)








(** X7.  A custom id that does not split into three pieces, or whose third
    piece is not a number, makes the handler raise [ValueError] before it
    reads or writes anything. *)
Theorem consent_response_malformed_id (ctx : ComponentContext) (w : World) :
  (length (split_on "_" (custom_id ctx)) <> 3%nat ->
   handle_consent_response ctx w = (Raise ValueError, w)) /\
  (forall prefix action user,
     split_on "_" (custom_id ctx) = [prefix; action; user] ->
     py_int user = None ->
     handle_consent_response ctx w = (Raise ValueError, w)).
Proof.
  split.
  - intros Hlen. unfold handle_consent_response.
    destruct (split_on "_" (custom_id ctx)) as [|a [|b [|c [|d l]]]];
      try reflexivity.
    now contradiction Hlen.
  - intros prefix action user Hs Hi. unfold handle_consent_response.
    now rewrite Hs, Hi.
Qed.

(** ** The start command, when it goes through *)

Lemma request_consent_event (channel : N) (member : Member) (w : World) :
  request_consent channel member w
  = (Ok tt, record (consent_request_event channel member) w).
Proof.
  unfold request_consent, consent_request_event.
  destruct (accepts_dm member); reflexivity.
Qed.

Lemma for_each_request_consent (channel : N) (l : list Member) (w : World) :
  for_each (request_consent channel) l w
  = (Ok tt, record_all (consent_request_event channel <$> l) w).
Proof.
  revert w. induction l as [|m l IH]; intros w; [reflexivity|].
  cbn [for_each]. unfold bind. rewrite request_consent_event.
  rewrite IH. reflexivity.
Qed.

Lemma record_all_trace (events : list Event) (w : World) :
  trace (record_all events w) = reverse events ++ trace w.
Proof.
  revert w. induction events as [|e events IH]; intros w; [reflexivity|].
  cbn [record_all foldl]. fold (record_all events (record e w)).
  rewrite IH, reverse_cons, <- app_assoc. reflexivity.
Qed.

Lemma record_all_frame (events : list Event) (w : World) :
  fs (record_all events w) = fs w /\
  consent_file (record_all events w) = consent_file w /\
  active_recordings (record_all events w) = active_recordings w /\
  task_ctx (record_all events w) = task_ctx w /\
  uuid_seed (record_all events w) = uuid_seed w /\
  clock (record_all events w) = clock w.
Proof.
  revert w. induction events as [|e events IH]; intros w; [repeat split|].
  cbn [record_all foldl]. fold (record_all events (record e w)).
  destruct (IH (record e w)) as (H1 & H2 & H3 & H4 & H5 & H6).
  repeat split; assumption.
Qed.

Lemma start_success (ctx : SlashContext) (w : World) (channel : Channel) :
  author_voice ctx = Some (Some channel) ->
  active_recordings w !! guild_id ctx = None ->
  start_recording ctx w
  = (Ok tt,
     record EvTaskStart
       (set_task_ctx (Some ctx)
          (record (EvSend MSG_STARTED false)
             (record_all
                (consent_request_event (ctx_channel ctx)
                 <$> needing_consent (default ∅ (consent_file w)) channel)
                (record (EvPlayNoWait (channel_id channel) CueStart)
                   (set_active_recordings
                      (<[guild_id ctx := started_session channel]> (active_recordings w))
                      (record (EvStartRecording (channel_id channel))
                         (record (EvConnect (channel_id channel)) w)))))))).
Proof.
  intros Hv Hreg. unfold start_recording. rewrite Hv.
  unfold bind at 1. unfold gets at 1. unfold VoiceStateManager.get. rewrite Hreg.
  unfold try_except, channel_connect, vs_start_recording, task_start,
    ConsentManager.load, VoiceStateManager.add, decided.
  unfold bind at 1. unfold bind at 1. unfold emit at 1, modify at 1.
  unfold bind at 1. unfold ret at 1.
  unfold bind at 1. unfold bind at 1. unfold emit at 1, modify at 1.
  unfold ret at 1.
  unfold bind at 1. unfold modify at 1.
  unfold bind at 1. unfold emit at 1, modify at 1.
  unfold bind at 1. unfold gets at 1.
  unfold bind at 1.
  cbn [vs_channel set_recording consent_file record set_active_recordings].
  rewrite for_each_request_consent.
  reflexivity.
Qed.

(** X8.  A start by a requester in a voice channel of a guild without a
    session goes through: the channel is joined, capture starts, the new
    session is registered, the start cue is queued, consent is requested
    from the members of the channel that are not bots and have no decision
    on record, one request each and in the order of the channel, the start
    is announced and the periodic task is started with this context. *)
Theorem start_registers_and_requests_consent
    (ctx : SlashContext) (w : World) (channel : Channel) :
  author_voice ctx = Some (Some channel) ->
  active_recordings w !! guild_id ctx = None ->
  let w' := snd (start_recording ctx w) in
  fst (start_recording ctx w) = Ok tt /\
  active_recordings w' = <[guild_id ctx := started_session channel]> (active_recordings w) /\
  task_ctx w' = Some ctx /\
  fs w' = fs w /\
  consent_file w' = consent_file w /\
  trace w'
  = [EvTaskStart; EvSend MSG_STARTED false]
    ++ reverse (consent_request_event (ctx_channel ctx)
                <$> needing_consent (default ∅ (consent_file w)) channel)
    ++ [EvPlayNoWait (channel_id channel) CueStart;
        EvStartRecording (channel_id channel);
        EvConnect (channel_id channel)]
    ++ trace w.
Proof.
  intros Hv Hreg. cbv zeta. rewrite (start_success ctx w channel Hv Hreg).
  cbn [fst snd record set_task_ctx active_recordings task_ctx fs consent_file trace].
  match goal with
  | |- context [record_all ?es ?w0] =>
      destruct (record_all_frame es w0) as (H1 & H2 & H3 & H4 & H5 & H6);
      pose proof (record_all_trace es w0) as Ht
  end.
  split; [reflexivity|]. split; [now rewrite H3|]. split; [reflexivity|].
  split; [now rewrite H1|]. split; [now rewrite H2|].
  cbn [app]. now rewrite Ht.
Qed.

(** X9.  Two starts in a row: the second finds the session of the first,
    answers that a recording is active and does nothing else; and a stop
    after a start leaves the registry as it was before the start. *)
Theorem start_twice_and_start_stop
    (ctx : SlashContext) (w : World) (channel : Channel) :
  author_voice ctx = Some (Some channel) ->
  active_recordings w !! guild_id ctx = None ->
  let w1 := snd (start_recording ctx w) in
  start_recording ctx w1 = (Ok tt, record (EvSend MSG_ALREADY_RECORDING true) w1) /\
  fst (stop_recording ctx w1) = Ok tt /\
  active_recordings (snd (stop_recording ctx w1)) = active_recordings w /\
  task_ctx (snd (stop_recording ctx w1)) = None.
Proof.
  intros Hv Hreg. cbv zeta.
  assert (Hreg1 : active_recordings (snd (start_recording ctx w)) !! guild_id ctx
                  = Some (started_session channel)).
  { rewrite (start_success ctx w channel Hv Hreg).
    cbn [snd record set_task_ctx active_recordings].
    match goal with
    | |- context [record_all ?es ?w0] =>
        destruct (record_all_frame es w0) as (_ & _ & -> & _)
    end.
    cbn [record set_active_recordings active_recordings]. apply lookup_insert_eq. }
  assert (Hact1 : active_recordings (snd (start_recording ctx w))
                  = <[guild_id ctx := started_session channel]> (active_recordings w)).
  { rewrite (start_success ctx w channel Hv Hreg).
    cbn [snd record set_task_ctx active_recordings].
    match goal with
    | |- context [record_all ?es ?w0] =>
        destruct (record_all_frame es w0) as (_ & _ & -> & _)
    end.
    reflexivity. }
  split; [exact (start_already_recording ctx _ channel _ Hv Hreg1)|].
  rewrite (stop_unfold ctx _ _ Hreg1).
  match goal with
  | |- context [gather ?ts ?w0] =>
      pose proof (gather_frame ctx
                    (default ∅ (consent_file (snd (start_recording ctx w))))
                    (vs_channel (started_session channel))
                    (output (started_session channel)) w0) as (_ & Ha & Ht & _);
      destruct (gather ts w0) as [[r|e] w2]
  end.
  - cbn [fst snd record active_recordings task_ctx] in *.
    split; [reflexivity|]. rewrite Ha, Ht.
    cbn [record set_task_ctx set_active_recordings active_recordings task_ctx].
    split; [|reflexivity]. rewrite Hact1. rewrite delete_insert_eq.
    now apply delete_id.
  - cbn [connected started_session fst snd record active_recordings task_ctx] in *.
    split; [reflexivity|]. rewrite Ha, Ht.
    cbn [record set_task_ctx set_active_recordings active_recordings task_ctx].
    split; [|reflexivity]. rewrite Hact1. rewrite delete_insert_eq.
    now apply delete_id.
Qed.

(** ** The stop command, further *)

Lemma stop_no_session (ctx : SlashContext) (w : World) :
  active_recordings w !! guild_id ctx = None ->
  stop_recording ctx w = (Ok tt, record (EvSend MSG_NO_ACTIVE_RECORDING true) w).
Proof.
  intros Hreg. unfold stop_recording.
  unfold bind at 1. unfold gets at 1. unfold VoiceStateManager.remove.
  now rewrite Hreg.
Qed.

Lemma stop_registry (ctx : SlashContext) (w : World) :
  fst (stop_recording ctx w) = Ok tt /\
  active_recordings (snd (stop_recording ctx w))
  = delete (guild_id ctx) (active_recordings w).
Proof.
  destruct (active_recordings w !! guild_id ctx) as [vs|] eqn:Hreg.
  - rewrite (stop_unfold ctx w vs Hreg).
    match goal with
    | |- context [gather ?ts ?w0] =>
        pose proof (gather_frame ctx (default ∅ (consent_file w)) (vs_channel vs)
                      (output vs) w0) as (_ & Ha & _);
        destruct (gather ts w0) as [[r|e] w2]
    end; [|destruct (connected vs)];
      cbn [fst snd record active_recordings] in *; rewrite Ha; split; reflexivity.
  - rewrite (stop_no_session ctx w Hreg). cbn [fst snd record active_recordings].
    split; [reflexivity|]. symmetry. now apply delete_id.
Qed.

(** X10.  Whatever its flush does, the stop command leaves the guild
    without a session, since the removal from the registry is its first
    step, and the other guilds as they were; a second stop in a row finds
    no session, and all it does is answer that there is no active
    recording. *)
Theorem stop_unregisters_and_second_stop_fails (ctx : SlashContext) (w : World) :
  let w1 := snd (stop_recording ctx w) in
  active_recordings w1 !! guild_id ctx = None /\
  (forall other, other <> guild_id ctx ->
     active_recordings w1 !! other = active_recordings w !! other) /\
  snd (stop_recording ctx w1) = record (EvSend MSG_NO_ACTIVE_RECORDING true) w1.
Proof.
  cbv zeta. destruct (stop_registry ctx w) as [_ Hact].
  assert (Hnone : active_recordings (snd (stop_recording ctx w)) !! guild_id ctx = None)
    by (rewrite Hact; apply lookup_delete_eq).
  split; [exact Hnone|]. split.
  - intros other Hne. rewrite Hact. now apply lookup_delete_ne.
  - now rewrite stop_no_session.
Qed.

(** ** Counting the segments of a flush *)

Lemma successful_cons (a : option Path) (l : list (option Path)) :
  successful (a :: l)
  = (match a with Some _ => 1 | None => 0 end + successful l)%nat.
Proof. unfold successful. destruct a; reflexivity. Qed.

Lemma process_result_published ctx user file_path consent_data channel w :
  let r := process_user_recording ctx user file_path consent_data channel w in
  match fst r with
  | Ok (Some p) =>
      exists m, published (snd r) = (AUDIO_QUEUE, m) :: published w /\ msg_path m = p
  | Ok None => published (snd r) = published w
  | Raise _ => published (snd r) = published w
  end.
Proof.
  process_cases ctx user file_path consent_data channel w; simpl; auto.
  eexists. split; reflexivity.
Qed.

Lemma gather_ok_cons {A} (t : M A) (rest : list (M A)) (w w2 : World) (l : list A) :
  gather (t :: rest) w = (Ok l, w2) ->
  exists a l' w1, t w = (Ok a, w1) /\ gather rest w1 = (Ok l', w2) /\ l = a :: l'.
Proof.
  simpl. destruct (t w) as [[a|e] w1]; [|discriminate].
  destruct (gather rest w1) as [[l'|e] w2'] eqn:E; [|discriminate].
  intros H. injection H as <- <-. eauto 6.
Qed.

Lemma gather_count ctx consent_data channel items w paths w1 :
  gather (process_item ctx consent_data channel <$> items) w = (Ok paths, w1) ->
  length paths = length items /\
  exists new, published w1 = new ++ published w /\ length new = successful paths.
Proof.
  revert w paths. induction items as [|it items IH]; intros w paths H.
  - simpl in H. injection H as <- <-. split; [reflexivity|]. now exists [].
  - rewrite fmap_cons in H. apply gather_ok_cons in H as (a & l & w0 & Ht & Hg & ->).
    destruct (IH w0 l Hg) as (Hlen & new & Hnew & Hcount).
    split; [simpl; now rewrite Hlen|].
    pose proof (process_result_published ctx (fst it) (snd it) consent_data channel w) as Hp.
    unfold process_item in Ht. cbv zeta in Hp. rewrite Ht in Hp. cbn [fst snd] in Hp.
    rewrite successful_cons. destruct a as [p|].
    + destruct Hp as (m & Hp & _). exists (new ++ [(AUDIO_QUEUE, m)]). split.
      * now rewrite Hnew, Hp, <- app_assoc.
      * rewrite length_app. simpl. lia.
    + exists new. split; [now rewrite Hnew, Hp | simpl; lia].
Qed.

Lemma successful_le (paths : list (option Path)) : (successful paths <= length paths)%nat.
Proof.
  induction paths as [|a l IH]; [reflexivity|].
  rewrite successful_cons. destruct a; simpl; lia.
Qed.

(** X11.  What the stop command tells the user follows what its flush
    did.  When the flush returns, the reply is the count of the artifacts
    it relocated, which is the number of messages the command put on the
    queue, at most one per captured artifact, and the voice state is
    disconnected.  When the flush raises, the reply is the error text, and
    a connected voice state is given the error cue and disconnected. *)
Theorem stop_reports_published_count (ctx : SlashContext) (w : World) (vs : VoiceState) :
  active_recordings w !! guild_id ctx = Some vs ->
  let w' := snd (stop_recording ctx w) in
  match flush ctx vs (default ∅ (consent_file w)) (stop_flush_start ctx vs w) with
  | (Ok recording_paths, w1) =>
      w' = record (EvDisconnect (vs_channel vs))
             (record (EvSend (MSG_STOPPED (successful recording_paths)) false) w1) /\
      (exists new,
         published w' = new ++ published w /\
         length new = successful recording_paths) /\
      (successful recording_paths <= length (output vs))%nat
  | (Raise _, w1) =>
      w' = (if connected vs
            then record (EvDisconnect (vs_channel vs))
                   (record (EvPlay (vs_channel vs) CueError)
                      (record (EvSend MSG_STOP_ERROR true) w1))
            else record (EvSend MSG_STOP_ERROR true) w1)
  end.
Proof.
  intros Hreg. cbv zeta. rewrite (stop_unfold ctx w vs Hreg).
  rewrite flush_unfold. unfold stop_flush_start.
  match goal with
  | |- context [gather ?ts ?w0] => destruct (gather ts w0) as [[paths|e] w1] eqn:E
  end.
  - apply gather_count in E as (Hlen & new & Hnew & Hcount).
    cbn [snd]. split; [reflexivity|]. split.
    + exists new. split; [exact Hnew | exact Hcount].
    + rewrite <- Hlen. apply successful_le.
  - destruct (connected vs); reflexivity.
Qed.

(** ** The periodic task, further *)

Lemma set_recording_twice (b b' : bool) (out out' : list (N * Path)) (vs : VoiceState) :
  set_recording b out (set_recording b' out' vs) = set_recording b out vs.
Proof. reflexivity. Qed.

(** [scheduled_transcription_task] on a registered session, in one
    equation: [w1] is the world the flush leaves. *)
Lemma periodic_unfold ctx w vs :
  active_recordings w !! guild_id ctx = Some vs ->
  scheduled_transcription_task ctx w
  = match
      gather (process_item ctx (default ∅ (consent_file w)) (vs_channel vs) <$> output vs)
        (set_active_recordings
           (<[guild_id ctx := set_recording false (output vs) vs]> (active_recordings w))
           (record (EvStopRecording (vs_channel vs)) w))
    with
    | (Ok _, w1) =>
        (Ok tt,
         set_active_recordings
           (<[guild_id ctx := set_recording true [] vs]> (active_recordings w))
           (record (EvStartRecording (vs_channel vs)) w1))
    | (Raise _, w1) =>
        if connected vs
        then (Ok tt,
              set_active_recordings
                (<[guild_id ctx := set_connected false (set_recording false (output vs) vs)]>
                   (active_recordings w))
                (record (EvDisconnect (vs_channel vs))
                   (record (EvPlay (vs_channel vs) CueError)
                      (record (EvSend MSG_PROCESS_ERROR true) w1))))
        else (Ok tt, record (EvSend MSG_PROCESS_ERROR true) w1)
    end.
Proof.
  intros Hreg.
  match goal with
  | |- _ = match ?g with _ => _ end => set (G := g)
  end.
  pose proof (gather_frame ctx (default ∅ (consent_file w)) (vs_channel vs) (output vs)
                (set_active_recordings
                   (<[guild_id ctx := set_recording false (output vs) vs]>
                      (active_recordings w))
                   (record (EvStopRecording (vs_channel vs)) w))) as (_ & Ha & _).
  fold G in Ha.
  unfold scheduled_transcription_task.
  unfold bind at 1. unfold gets at 1. unfold VoiceStateManager.get. rewrite Hreg.
  unfold try_except, bind, vs_stop_recording, vs_start_recording, vs_disconnect,
    sync, emit, modify, ret, ConsentManager.load, gets.
  simpl. rewrite flush_unfold. simpl.
  match goal with
  | |- context [gather ?ts ?w0] => change (gather ts w0) with G
  end.
  destruct G as [[r|e] w1]; cbn [snd] in Ha; cbn [set_active_recordings active_recordings] in Ha.
  - rewrite Ha, insert_insert_eq. reflexivity.
  - rewrite Ha, lookup_insert_eq. cbn [default from_option id connected set_recording].
    destruct (connected vs); [|reflexivity].
    cbn [set_active_recordings record active_recordings].
    rewrite Ha, insert_insert_eq. reflexivity.
Qed.

Lemma periodic_no_session (ctx : SlashContext) (w : World) :
  active_recordings w !! guild_id ctx = None ->
  scheduled_transcription_task ctx w = (Ok tt, w).
Proof.
  intros Hreg. unfold scheduled_transcription_task.
  unfold bind at 1. unfold gets at 1. unfold VoiceStateManager.get.
  now rewrite Hreg.
Qed.

(** X12.  Whatever its flush does, the periodic task leaves the consent
    document, the task and the other guilds alone, and the guilds that
    have a session are the same before and after: a rotation neither
    registers nor unregisters. *)
Theorem periodic_keeps_registry (ctx : SlashContext) (w : World) :
  let w' := snd (scheduled_transcription_task ctx w) in
  consent_file w' = consent_file w /\
  task_ctx w' = task_ctx w /\
  (forall other, other <> guild_id ctx ->
     active_recordings w' !! other = active_recordings w !! other) /\
  (forall guild, is_Some (active_recordings w' !! guild)
                 <-> is_Some (active_recordings w !! guild)).
Proof.
  cbv zeta.
  destruct (active_recordings w !! guild_id ctx) as [vs|] eqn:Hreg.
  2:{ rewrite (periodic_no_session ctx w Hreg). cbn [fst snd].
      repeat split; auto. }
  assert (Hins : forall (x : VoiceState) (m : gmap N VoiceState),
             m = active_recordings w ->
             (forall other, other <> guild_id ctx ->
                <[guild_id ctx := x]> m !! other = active_recordings w !! other) /\
             (forall guild, is_Some (<[guild_id ctx := x]> m !! guild)
                            <-> is_Some (active_recordings w !! guild))).
  { intros x m ->. split.
    - intros other Hne. now rewrite lookup_insert_ne.
    - intros guild. destruct (decide (guild_id ctx = guild)) as [<- | Hne].
      + rewrite lookup_insert_eq, Hreg. split; eauto.
      + now rewrite lookup_insert_ne. }
  rewrite (periodic_unfold ctx w vs Hreg).
  match goal with
  | |- context [gather ?ts ?w0] =>
      pose proof (gather_frame ctx (default ∅ (consent_file w)) (vs_channel vs)
                    (output vs) w0) as (Hc & Ha & Ht & _);
      destruct (gather ts w0) as [[r|e] w1]
  end; [|destruct (connected vs)];
    cbn [fst snd record set_active_recordings consent_file task_ctx active_recordings] in *;
    (split; [exact Hc|]); (split; [exact Ht|]).
  - now apply Hins.
  - now apply Hins.
  - rewrite Ha. now apply Hins.
Qed.

(** X13.  A rotation of a connected session ends by what its flush did.
    When the flush returns, capture is resumed on the same channel with an
    empty recorder.  When the flush raises, the error text is sent, the
    error cue played and the voice state disconnected, capture is not
    resumed, and the session stays in the registry.  Either way a start
    that follows is refused as already recording. *)
Theorem periodic_resumes_or_goes_stale
    (ctx : SlashContext) (w : World) (vs : VoiceState) (channel : Channel) :
  active_recordings w !! guild_id ctx = Some vs ->
  connected vs = true ->
  author_voice ctx = Some (Some channel) ->
  let w' := snd (scheduled_transcription_task ctx w) in
  match flush ctx vs (default ∅ (consent_file w)) (periodic_flush_start ctx vs w) with
  | (Ok _, w1) =>
      active_recordings w' !! guild_id ctx = Some (set_recording true [] vs) /\
      trace w' = EvStartRecording (vs_channel vs) :: trace w1
  | (Raise _, w1) =>
      active_recordings w' !! guild_id ctx
      = Some (set_connected false (set_recording false (output vs) vs)) /\
      trace w' = EvDisconnect (vs_channel vs) :: EvPlay (vs_channel vs) CueError
                 :: EvSend MSG_PROCESS_ERROR true :: trace w1
  end /\
  snd (start_recording ctx w') = record (EvSend MSG_ALREADY_RECORDING true) w'.
Proof.
  intros Hreg Hconn Hv. cbv zeta.
  assert (Hstill : exists vs',
             active_recordings (snd (scheduled_transcription_task ctx w)) !! guild_id ctx
             = Some vs').
  { rewrite (periodic_unfold ctx w vs Hreg), Hconn.
    match goal with
    | |- context [gather ?ts ?w0] => destruct (gather ts w0) as [[r|e] w1]
    end; cbn [snd record set_active_recordings active_recordings];
      rewrite lookup_insert_eq; eexists; reflexivity. }
  split.
  - rewrite (periodic_unfold ctx w vs Hreg), Hconn.
    rewrite flush_unfold. unfold periodic_flush_start.
    match goal with
    | |- context [gather ?ts ?w0] => destruct (gather ts w0) as [[r|e] w1]
    end; cbn [snd record set_active_recordings active_recordings trace];
      rewrite lookup_insert_eq; split; reflexivity.
  - destruct Hstill as (vs' & Hreg').
    now rewrite (start_already_recording ctx _ channel vs' Hv Hreg').
Qed.

(** ** Voice presence, further *)

(** X14.  A join asks for consent exactly once, and only the member who
    joined, when that member is not a bot, joins the channel of the active
    session and has no decision on record; a member with a decision on
    record is not asked again, and a join changes nothing but the log. *)
Theorem join_requests_consent_once (event : VoiceEvent) (w : World) (vs : VoiceState) :
  bot (ev_author event) = false ->
  member_id (ev_author event) <> bot_user_id ->
  active_recordings w !! channel_guild (ev_channel event) = Some vs ->
  channel_id (ev_channel event) = vs_channel vs ->
  (default ∅ (consent_file w) !! py_str (member_id (ev_author event)) = None ->
   on_voice_user_join event w
   = (Ok tt,
      record (consent_request_event (channel_id (ev_channel event)) (ev_author event)) w)) /\
  (is_Some (default ∅ (consent_file w) !! py_str (member_id (ev_author event))) ->
   on_voice_user_join event w = (Ok tt, w)).
Proof.
  intros Hb Hne Hreg Hch.
  assert (Hu : on_voice_user_join event w
               = if negb (decided (default ∅ (consent_file w)) (member_id (ev_author event)))
                 then request_consent (channel_id (ev_channel event)) (ev_author event) w
                 else (Ok tt, w)).
  { unfold on_voice_user_join. rewrite Hb. apply N.eqb_neq in Hne. rewrite Hne. cbn [orb].
    unfold bind at 1. unfold gets at 1. unfold VoiceStateManager.get. rewrite Hreg.
    replace (channel_id (ev_channel event) =? vs_channel vs) with true
      by (symmetry; now apply N.eqb_eq).
    cbn [negb]. unfold bind, ConsentManager.load, gets.
    destruct (negb _); reflexivity. }
  rewrite Hu. unfold decided. split.
  - intros Hnone. rewrite Hnone.
    rewrite bool_decide_eq_false_2 by (intros [x Hx]; discriminate).
    cbn [negb]. apply request_consent_event.
  - intros Hsome. now rewrite bool_decide_eq_true_2.
Qed.

(** X15.  Joins and leaves that are not for the session are ignored: an
    event of a bot, an event in a guild without a session, and an event in
    another channel than the one of the session leave everything as it is;
    in particular a leaving bot never stops a session. *)
Theorem presence_events_ignored (event : VoiceEvent) (w : World) :
  (bot (ev_author event) = true \/
   member_id (ev_author event) = bot_user_id \/
   active_recordings w !! channel_guild (ev_channel event) = None \/
   (exists vs, active_recordings w !! channel_guild (ev_channel event) = Some vs /\
               channel_id (ev_channel event) <> vs_channel vs)) ->
  on_voice_user_join event w = (Ok tt, w) /\
  on_voice_user_leave event w = (Ok tt, w).
Proof.
  intros H. unfold on_voice_user_join, on_voice_user_leave.
  destruct (bot (ev_author event)) eqn:Hb; [split; reflexivity|].
  destruct (N.eqb_spec (member_id (ev_author event)) bot_user_id) as [Heq | Hne];
    [split; reflexivity|].
  cbn [orb]. unfold bind at 1 3. unfold gets at 1 2. unfold VoiceStateManager.get.
  destruct H as [H | [H | [H | (vs & Hreg & Hch)]]]; try congruence.
  - rewrite H. split; reflexivity.
  - rewrite Hreg. apply N.eqb_neq in Hch. rewrite Hch. split; reflexivity.
Qed.

(** ** The rejection consumer, further *)

Lemma on_ready_step_cases (counter : N) (message : Message) (w : World) :
  (exists e, on_ready_step counter message w = (Raise e, w)) \/
  (exists counter', on_ready_step counter message w = (Ok counter', w)) \/
  (exists guild vs,
     counter = 7 /\
     message_data message = Parsed (Some guild) /\
     active_recordings w !! guild = Some vs /\
     connected vs = true /\
     on_ready_step counter message w
     = (Ok 1, record (EvPlay (vs_channel vs) CueError) w)).
Proof.
  unfold on_ready_step.
  destruct (negb (String.eqb (message_type message) "message")); [right; left; eexists; reflexivity|].
  destruct (message_data message) as [|[g|]] eqn:Hd; [left; eexists; reflexivity | |].
  - destruct (String.eqb (message_channel message) REJECTED_AUDIO_QUEUE);
      [|right; left; eexists; reflexivity].
    destruct (N.eqb_spec counter 7) as [-> | Hne]; cbn [negb]; [|right; left; eexists; reflexivity].
    unfold bind, gets, VoiceStateManager.get. cbn beta iota.
    destruct (active_recordings w !! g) as [vs|] eqn:Hreg; [|right; left; eexists; reflexivity].
    destruct (connected vs) eqn:Hc; cbn [negb]; [|right; left; eexists; reflexivity].
    right. right. exists g, vs. repeat split; auto; reflexivity.
  - destruct (String.eqb (message_channel message) REJECTED_AUDIO_QUEUE);
      [|right; left; eexists; reflexivity].
    destruct (N.eqb_spec counter 7) as [-> | Hne]; cbn [negb]; [left | right; left]; eexists; reflexivity.
Qed.

(** X16.  Whatever the stream delivers, and whether the loop ends with an
    exception or not, [on_ready] touches nothing but the log, and all it
    adds to the log are error cues on the channels of sessions that are
    registered and connected. *)
Theorem on_ready_only_plays_error_cues
    (counter : N) (messages : list Message) (w : World) :
  let w' := snd (on_ready_loop counter messages w) in
  fs w' = fs w /\
  consent_file w' = consent_file w /\
  active_recordings w' = active_recordings w /\
  task_ctx w' = task_ctx w /\
  uuid_seed w' = uuid_seed w /\
  exists cues,
    trace w' = cues ++ trace w /\
    Forall (fun e => exists guild vs,
                       active_recordings w !! guild = Some vs /\
                       connected vs = true /\
                       e = EvPlay (vs_channel vs) CueError) cues.
Proof.
  cbv zeta. revert counter w.
  induction messages as [|m messages IH]; intros counter w.
  - cbn [on_ready_loop ret snd]. repeat split; auto. exists []. split; [reflexivity|constructor].
  - cbn [on_ready_loop]. unfold bind.
    destruct (on_ready_step_cases counter m w)
      as [(e & ->) | [(c' & ->) | (g & vs & _ & _ & Hreg & Hc & ->)]].
    + cbn [snd]. repeat split; auto. exists []. split; [reflexivity|constructor].
    + apply IH.
    + destruct (IH 1 (record (EvPlay (vs_channel vs) CueError) w))
        as (H1 & H2 & H3 & H4 & H5 & cues & Ht & Hall).
      cbn [record fs consent_file active_recordings task_ctx uuid_seed trace] in *.
      repeat split; auto.
      exists (cues ++ [EvPlay (vs_channel vs) CueError]). split.
      * now rewrite Ht, <- app_assoc.
      * apply Forall_app. split; [exact Hall|]. constructor; [|constructor]. eauto.
Qed.

Lemma on_ready_step_passed_over (counter : N) (message : Message) (w : World) :
  counter <> 7 -> passed_over message ->
  on_ready_step counter message w = (Ok counter, w).
Proof.
  intros Hc [Ht | [Hch Hd]]; unfold on_ready_step.
  - apply String.eqb_neq in Ht. now rewrite Ht.
  - destruct (negb _); [reflexivity|].
    destruct (message_data message); [contradiction|].
    rewrite Hch, String.eqb_refl. apply N.eqb_neq in Hc. now rewrite Hc.
Qed.

(** X17.  While its counter is not at seven, [on_ready] passes over every
    message that is not of type [message], whatever its payload, and every
    parsed message of the rejection channel: the counter and the world stay
    as they are, so on such a stream the counter never reaches seven. *)
Theorem on_ready_passes_over (counter : N) (messages : list Message) (w : World) :
  counter <> 7 ->
  Forall passed_over messages ->
  on_ready_loop counter messages w = (Ok counter, w).
Proof.
  intros Hc Hall. induction Hall as [|m messages Hm Hall IH]; [reflexivity|].
  cbn [on_ready_loop]. unfold bind.
  now rewrite (on_ready_step_passed_over counter m w Hc Hm).
Qed.

(** ** Files and identifiers of a flush *)

Lemma process_keeps_other_files ctx user file_path consent_data channel w (p : Path) :
  p ∈ fs w -> p <> file_path ->
  p ∈ fs (snd (process_user_recording ctx user file_path consent_data channel w)).
Proof.
  intros Hin Hne.
  process_cases ctx user file_path consent_data channel w; simpl; try assumption.
  - apply elem_of_union_l, elem_of_difference. split; [exact Hin|].
    now rewrite elem_of_singleton.
  - apply elem_of_difference. split; [exact Hin|]. now rewrite elem_of_singleton.
Qed.

Lemma process_new_files ctx user file_path consent_data channel w (p : Path) :
  p ∈ fs (snd (process_user_recording ctx user file_path consent_data channel w)) ->
  p ∈ fs w \/
  exists m,
    published (snd (process_user_recording ctx user file_path consent_data channel w))
    = (AUDIO_QUEUE, m) :: published w /\ msg_path m = p.
Proof.
  process_cases ctx user file_path consent_data channel w; simpl; auto.
  - intros [Hin | Hin%elem_of_singleton]%elem_of_union.
    + left. now apply elem_of_difference in Hin as [Hin _].
    + right. eexists. split; [reflexivity | now subst].
  - intros [Hin _]%elem_of_difference. now left.
Qed.

Lemma gather_files ctx consent_data channel items w :
  let w' := snd (gather (process_item ctx consent_data channel <$> items) w) in
  (forall p : Path, p ∈ fs w -> p ∉ (snd <$> items) -> p ∈ fs w') /\
  (forall p : Path, p ∈ fs w' ->
     p ∈ fs w \/ exists tm, tm ∈ published w' /\ msg_path (snd tm) = p).
Proof.
  cbv zeta. revert w. induction items as [|it items IH]; intros w.
  - split; [auto | now left].
  - rewrite (fmap_cons (process_item ctx consent_data channel)), gather_snd_cons.
    destruct (IH (snd (process_item ctx consent_data channel it w))) as [IHk IHn].
    destruct (gather_published ctx consent_data channel items
                (snd (process_item ctx consent_data channel it w)))
      as (new & Hnew & _).
    split.
    + intros p Hin Hnot. apply IHk.
      * apply process_keeps_other_files; [exact Hin|].
        intros ->. apply Hnot. rewrite fmap_cons. apply list_elem_of_here.
      * intros Hp. apply Hnot. rewrite fmap_cons. now apply list_elem_of_further.
    + intros p Hin. destruct (IHn p Hin) as [Hmid | Hpub]; [|now right].
      apply process_new_files in Hmid as [Hold | (m & Hm & Hpath)]; [now left|].
      right. exists (AUDIO_QUEUE, m). split; [|exact Hpath].
      rewrite Hnew. apply elem_of_app. right. unfold process_item. rewrite Hm.
      apply list_elem_of_here.
Qed.

(** X18.  A flush, by the periodic task or by the stop command, touches
    the disk only through the artifacts of the session: a file that is not
    one of the captured artifacts is still there afterwards, and every file
    that is there afterwards and was not before is the path of a message on
    the queue. *)
Theorem flush_touches_only_artifacts
    (ctx : SlashContext) (w w' : World) (vs : VoiceState) :
  active_recordings w !! guild_id ctx = Some vs ->
  w' = snd (scheduled_transcription_task ctx w) \/ w' = snd (stop_recording ctx w) ->
  (forall p : Path, p ∈ fs w -> p ∉ (snd <$> output vs) -> p ∈ fs w') /\
  (forall p : Path, p ∈ fs w' ->
     p ∈ fs w \/ exists tm, tm ∈ published w' /\ msg_path (snd tm) = p).
Proof.
  intros Hreg Hw'.
  assert (Hv : via_flush ctx vs w w').
  { destruct Hw' as [-> | ->];
      [now apply periodic_via_flush | now apply stop_via_flush]. }
  destruct Hv as (w0 & Hfs0 & Hpub0 & Hfs' & Hpub').
  destruct (gather_files ctx (default ∅ (consent_file w)) (vs_channel vs) (output vs) w0)
    as [Hk Hn].
  rewrite Hfs', Hpub', <- Hfs0. split; [exact Hk | exact Hn].
Qed.

Lemma ids_drawn_ext (a b : World) :
  published a = published b -> uuid_seed a = uuid_seed b ->
  ids_drawn a -> ids_drawn b.
Proof.
  intros Hp Hu H tm Htm. rewrite <- Hp in Htm. rewrite <- Hu. now apply H.
Qed.

Lemma process_ids ctx user file_path consent_data channel w :
  ids_drawn w ->
  NoDup (published_ids w) ->
  let w' := snd (process_user_recording ctx user file_path consent_data channel w) in
  ids_drawn w' /\ NoDup (published_ids w').
Proof.
  intros Hids Hnd.
  process_cases ctx user file_path consent_data channel w; cbv zeta; cbn [snd];
    try (split; assumption).
  - split.
    + intros tm Htm. unfold published in Htm. cbn [trace omap list_omap publication] in Htm.
      apply elem_of_cons in Htm as [-> | Htm].
      * exists (uuid_seed w). cbn [snd msg_id uuid_seed]. split; [lia | reflexivity].
      * destruct (Hids tm Htm) as (k & Hk' & Hid). exists k.
        cbn [uuid_seed]. split; [lia | exact Hid].
    + unfold published_ids, published. cbn [trace omap list_omap publication fmap list_fmap].
      apply NoDup_cons. split; [|exact Hnd].
      intros Hin. apply list_elem_of_fmap in Hin as (tm & Heq & Htm).
      destruct (Hids tm Htm) as (k & Hk' & Hid). cbn [snd msg_id] in Heq.
      rewrite Hid in Heq. apply uuid4_fresh in Heq. lia.
  - split; [|exact Hnd].
    intros tm Htm. destruct (Hids tm Htm) as (k & Hk' & Hid). exists k.
    cbn [set_uuid_seed uuid_seed]. split; [lia | exact Hid].
Qed.

Lemma gather_ids ctx consent_data channel items w :
  ids_drawn w ->
  NoDup (published_ids w) ->
  let w' := snd (gather (process_item ctx consent_data channel <$> items) w) in
  ids_drawn w' /\ NoDup (published_ids w').
Proof.
  cbv zeta. revert w. induction items as [|it items IH]; intros w Hids Hnd.
  - split; assumption.
  - rewrite fmap_cons, gather_snd_cons.
    destruct (process_ids ctx (fst it) (snd it) consent_data channel w Hids Hnd) as [H1 H2].
    now apply IH.
Qed.

Lemma flush_handlers_world (ctx : SlashContext) (w w' : World) (vs : VoiceState) :
  active_recordings w !! guild_id ctx = Some vs ->
  w' = snd (scheduled_transcription_task ctx w) \/ w' = snd (stop_recording ctx w) ->
  exists w0,
    published w0 = published w /\ uuid_seed w0 = uuid_seed w /\
    let w1 := snd (gather (process_item ctx (default ∅ (consent_file w)) (vs_channel vs)
                           <$> output vs) w0) in
    published w' = published w1 /\ uuid_seed w' = uuid_seed w1.
Proof.
  intros Hreg [-> | ->].
  - rewrite (periodic_unfold ctx w vs Hreg).
    match goal with
    | |- context [gather ?ts ?w0] =>
        exists w0; split; [reflexivity | split; [reflexivity|]];
        cbv zeta; destruct (gather ts w0) as [[r|e] w1]
    end; [|destruct (connected vs)]; split; reflexivity.
  - rewrite (stop_unfold ctx w vs Hreg).
    match goal with
    | |- context [gather ?ts ?w0] =>
        exists w0; split; [reflexivity | split; [reflexivity|]];
        cbv zeta; destruct (gather ts w0) as [[r|e] w1]
    end; [|destruct (connected vs)]; split; reflexivity.
Qed.

(** X19.  The identifiers on the queue stay unique: if every identifier
    published so far was drawn from the supply and no two messages share
    one, the same holds after a flush by the periodic task or by the stop
    command. *)
Theorem flush_keeps_ids_unique
    (ctx : SlashContext) (w w' : World) (vs : VoiceState) :
  active_recordings w !! guild_id ctx = Some vs ->
  w' = snd (scheduled_transcription_task ctx w) \/ w' = snd (stop_recording ctx w) ->
  ids_drawn w ->
  NoDup (published_ids w) ->
  ids_drawn w' /\ NoDup (published_ids w').
Proof.
  intros Hreg Hw' Hids Hnd.
  destruct (flush_handlers_world ctx w w' vs Hreg Hw') as (w0 & Hp0 & Hu0 & Hp' & Hu').
  assert (Hids0 : ids_drawn w0) by (apply (ids_drawn_ext w w0); auto).
  assert (Hnd0 : NoDup (published_ids w0)) by (unfold published_ids; now rewrite Hp0).
  destruct (gather_ids ctx (default ∅ (consent_file w)) (vs_channel vs) (output vs) w0
              Hids0 Hnd0) as [H1 H2].
  split.
  - eapply ids_drawn_ext; [| |exact H1]; auto.
  - unfold published_ids in *. now rewrite Hp'.
Qed.

(** ** Shutdown *)

Lemma shutdown_guild_registered (guild : N) (vs : VoiceState) (w : World) :
  active_recordings w !! guild = Some vs ->
  shutdown_guild guild w
  = (Ok tt,
     record (EvDisconnect (vs_channel vs))
       (set_active_recordings (delete guild (active_recordings w)) w)).
Proof.
  intros Hreg. unfold shutdown_guild. unfold bind at 1. unfold gets at 1.
  unfold VoiceStateManager.remove. rewrite Hreg. reflexivity.
Qed.

Lemma disconnections_cons (active : gmap N VoiceState) (g : N) (vs : VoiceState)
    (guilds : list N) :
  active !! g = Some vs ->
  disconnections active (g :: guilds)
  = EvDisconnect (vs_channel vs) :: disconnections active guilds.
Proof. intros H. unfold disconnections. cbn [omap list_omap]. now rewrite H. Qed.

Lemma disconnections_delete (active : gmap N VoiceState) (g : N) (guilds : list N) :
  g ∉ guilds ->
  disconnections (delete g active) guilds = disconnections active guilds.
Proof.
  induction guilds as [|g' guilds IH]; intros Hg; [reflexivity|].
  apply not_elem_of_cons in Hg as [Hne Hg]. unfold disconnections in *.
  cbn [omap list_omap]. rewrite lookup_delete_ne by exact Hne. now rewrite IH.
Qed.

Lemma shutdown_guilds (guilds : list N) (w : World) :
  NoDup guilds ->
  (forall g, g ∈ guilds -> is_Some (active_recordings w !! g)) ->
  exists w',
    for_each shutdown_guild guilds w = (Ok tt, w') /\
    fs w' = fs w /\ consent_file w' = consent_file w /\ task_ctx w' = task_ctx w /\
    trace w' = reverse (disconnections (active_recordings w) guilds) ++ trace w /\
    (forall g, g ∈ guilds -> active_recordings w' !! g = None) /\
    (forall g, g ∉ guilds -> active_recordings w' !! g = active_recordings w !! g).
Proof.
  revert w. induction guilds as [|g guilds IH]; intros w Hnd Hreg.
  - exists w. repeat split; auto. intros g Hg. now apply elem_of_nil in Hg.
  - apply NoDup_cons in Hnd as [Hg Hnd].
    destruct (Hreg g (list_elem_of_here _ _)) as [vs Hvs].
    cbn [for_each]. unfold bind.
    rewrite (shutdown_guild_registered g vs w Hvs).
    destruct (IH (record (EvDisconnect (vs_channel vs))
                    (set_active_recordings (delete g (active_recordings w)) w)) Hnd)
      as (w' & Hrun & Hfs & Hc & Ht & Htr & Hin & Hout).
    { intros g' Hg'. cbn [record set_active_recordings active_recordings].
      rewrite lookup_delete_ne; [apply Hreg; now apply list_elem_of_further|].
      intros <-. now apply Hg. }
    exists w'. split; [exact Hrun|].
    cbn [record set_active_recordings fs consent_file task_ctx trace active_recordings] in *.
    split; [exact Hfs|]. split; [exact Hc|]. split; [exact Ht|]. split; [|split].
    + rewrite Htr, (disconnections_cons _ g vs) by exact Hvs.
      rewrite disconnections_delete by exact Hg.
      rewrite reverse_cons, <- app_assoc. reflexivity.
    + intros g' [Heq | Hg']%elem_of_cons; [|now apply Hin].
      subst g'. rewrite (Hout g Hg). apply lookup_delete_eq.
    + intros g' Hg'. apply not_elem_of_cons in Hg' as [Hne Hg'].
      rewrite (Hout g' Hg'). now apply lookup_delete_ne.
Qed.

Lemma disconnects_not_published (active : gmap N VoiceState) (guilds : list N) :
  omap publication (reverse (disconnections active guilds)) = [].
Proof.
  induction guilds as [|g l IH]; [reflexivity|].
  unfold disconnections in *. cbn [omap list_omap].
  destruct (active !! g) as [vs|]; cbn [fmap option_fmap option_map]; [|exact IH].
  rewrite reverse_cons, omap_app, IH. reflexivity.
Qed.

(** X20.  Shutdown visits the registered guilds in the order in which the
    registry lists them: whatever that order, it empties the registry and
    disconnects every session that was registered, each once and in that
    order; it touches no file, not the consent document, and does not
    flush: nothing is published. *)
Theorem shutdown_disconnects_all (guilds : list N) (w : World) :
  NoDup guilds ->
  (forall g, g ∈ guilds <-> is_Some (active_recordings w !! g)) ->
  let w' := snd (shutdown guilds w) in
  active_recordings w' = ∅ /\
  fs w' = fs w /\
  consent_file w' = consent_file w /\
  published w' = published w /\
  trace w' = reverse (disconnections (active_recordings w) guilds) ++ trace w /\
  length (disconnections (active_recordings w) guilds) = length guilds.
Proof.
  intros Hnd Hkeys. cbv zeta.
  destruct (shutdown_guilds guilds w Hnd (fun g Hg => proj1 (Hkeys g) Hg))
    as (w' & Hrun & Hfs & Hc & _ & Htr & Hin & Hout).
  assert (Hdown : shutdown guilds w = (Ok tt, w')) by exact Hrun.
  rewrite Hdown. cbn [fst snd].
  split; [|split; [exact Hfs|split; [exact Hc|split; [|split; [exact Htr|]]]]].
  - apply map_eq. intros g. rewrite lookup_empty.
    destruct (decide (g ∈ guilds)) as [Hg | Hg]; [now apply Hin|].
    rewrite (Hout g Hg).
    destruct (active_recordings w !! g) as [vs|] eqn:E; [|reflexivity].
    exfalso. apply Hg, Hkeys. eauto.
  - unfold published. rewrite Htr, omap_app.
    now rewrite disconnects_not_published.
  - clear Hrun Hdown Htr Hin Hout Hnd.
    assert (Hall : forall g, g ∈ guilds -> is_Some (active_recordings w !! g))
      by (intros g Hg; now apply Hkeys).
    clear Hkeys. induction guilds as [|g l IH]; [reflexivity|].
    destruct (Hall g (list_elem_of_here _ _)) as [vs Hvs].
    rewrite (disconnections_cons _ g vs) by exact Hvs. cbn [length].
    rewrite IH; [reflexivity|]. intros g' Hg'. now apply Hall, list_elem_of_further.
Qed.

(** ** A flush without consent on record *)

(** X21.  With the consent document absent, unreadable or empty, a flush
    by the periodic task or by the stop command publishes nothing, and
    every captured artifact that lies in [AUDIOS_DIR] is off disk
    afterwards. *)
Theorem flush_without_consent_record
    (ctx : SlashContext) (w w' : World) (vs : VoiceState) :
  consent_file w = None \/ consent_file w = Some ∅ ->
  active_recordings w !! guild_id ctx = Some vs ->
  w' = snd (scheduled_transcription_task ctx w) \/ w' = snd (stop_recording ctx w) ->
  published w' = published w /\
  forall user (p : Path), (user, p) ∈ output vs -> parent p = AUDIOS_DIR -> p ∉ fs w'.
Proof.
  intros Hc Hreg Hw'.
  assert (Hempty : default ∅ (consent_file w) = ∅) by (destruct Hc as [-> | ->]; reflexivity).
  assert (Hv : via_flush ctx vs w w').
  { destruct Hw' as [-> | ->];
      [now apply periodic_via_flush | now apply stop_via_flush]. }
  split.
  - destruct (via_flush_published _ _ _ _ Hv) as (new & Hnew & Hall & _).
    destruct new as [|tm new]; [exact Hnew|].
    apply Forall_cons in Hall as [(fp & mem & _ & Hg & _) _].
    rewrite Hempty in Hg. unfold granted in Hg. rewrite lookup_empty in Hg. discriminate.
  - intros user p Hin Hp. apply (via_flush_discards ctx vs w w' user p Hv Hin); [|exact Hp].
    rewrite Hempty. unfold granted. now rewrite lookup_empty.
Qed.

(** ** Where a segment goes *)

(** X22.  The path of a published segment lies under [AUDIOS_DIR], three
    or four parts deep, in a directory that depends on the member and the
    minute only, and its file name ends in [.wav]. *)
Theorem dest_path_shape (member : Member) (w : World) :
  let dest := dest_path_of member w in
  take 1 dest = AUDIOS_DIR /\
  (length dest = 3 \/ length dest = 4)%nat /\
  parent dest
  = path_div (path_div AUDIOS_DIR (safe_name (username member))) (strftime (clock w)) /\
  exists stem, List.last dest ""%string = stem +:+ ".wav".
Proof.
  cbv zeta.
  assert (Hd : dest_path_of member w
               = user_dir_of member w
                 ++ [name_with_suffix
                       (uuid4_str (uuid_seed w) +:+ "-" +:+ strftime (clock w)) ".wav"]).
  { unfold dest_path_of.
    rewrite (path_div_part _ (uuid4_str (uuid_seed w) +:+ "-" +:+ strftime (clock w)))
      by apply append_dash_nonempty.
    unfold with_suffix. now rewrite removelast_last, last_last. }
  assert (Hu : user_dir_of member w = AUDIOS_DIR ++ [strftime (clock w)] \/
               user_dir_of member w
               = AUDIOS_DIR ++ [safe_name (username member); strftime (clock w)]).
  { unfold user_dir_of.
    rewrite (path_div_part _ (strftime (clock w))) by apply strftime_nonempty.
    unfold path_div. destruct (String.eqb _ ""); [now left|].
    right. now rewrite <- app_assoc. }
  split; [|split; [|split]].
  - rewrite Hd. destruct Hu as [-> | ->]; reflexivity.
  - rewrite Hd. destruct Hu as [-> | ->]; [left | right]; reflexivity.
  - apply dest_path_parent.
  - rewrite Hd, last_last. unfold name_with_suffix. eauto.
Qed.

(** ** The flush of a granted artifact *)

Lemma contains_append (c : ascii) (a b : string) :
  contains c (a +:+ b) = contains c a || contains c b.
Proof.
  induction a as [|x a IH]; simpl; [reflexivity|]. now rewrite IH, orb_assoc.
Qed.

Lemma digits_lack (c : ascii) (s : string) :
  ascii_digit c = false ->
  Forall (fun x => ascii_digit x = true) (list_ascii_of_string s) ->
  contains c s = false.
Proof.
  intros Hc. induction s as [|x s IH]; simpl; [reflexivity|].
  intros H. apply Forall_cons in H as [Hx Hs]. rewrite (IH Hs), orb_false_r.
  apply Ascii.eqb_neq. intros ->. congruence.
Qed.

Lemma py_str_no_dot (n : N) : contains "." (py_str n) = false.
Proof. apply digits_lack; [reflexivity | apply py_str_digits]. Qed.

Lemma pad2_no_dot (n : N) : contains "." (pad2 n) = false.
Proof.
  unfold pad2. destruct (n <? 10); [rewrite contains_append|];
    rewrite py_str_no_dot; reflexivity.
Qed.

Lemma strftime_no_dot (t : Clock) : contains "." (strftime t) = false.
Proof.
  unfold strftime. rewrite !contains_append, py_str_no_dot, !pad2_no_dot. reflexivity.
Qed.

Lemma substring_full (s : string) : String.substring 0 (String.length s) s = s.
Proof. induction s as [|c s IH]; simpl; [reflexivity | now rewrite IH]. Qed.

Lemma rfind_dot_none (s : string) : contains "." s = false -> rfind_dot s = None.
Proof.
  induction s as [|c s IH]; simpl; [reflexivity|].
  intros H. apply orb_false_elim in H as [Hc Hs]. now rewrite (IH Hs), Hc.
Qed.

(** A name without a dot has no suffix to replace. *)
Lemma name_with_suffix_plain (name sfx : string) :
  contains "." name = false -> name_with_suffix name sfx = name +:+ sfx.
Proof.
  intros H. unfold name_with_suffix, name_suffix. rewrite (rfind_dot_none name H).
  simpl. now rewrite Nat.sub_0_r, substring_full.
Qed.

Lemma name_with_suffix_dot (name : string) :
  contains "." (name_with_suffix name ".wav") = true.
Proof. unfold name_with_suffix. rewrite contains_append. apply orb_true_r. Qed.

Lemma safe_name_no_dot (name : string) : contains "." (safe_name name) = false.
Proof.
  unfold safe_name.
  assert (H : forall l : list ascii,
             (forall c, c ∈ l -> c <> "."%char) ->
             contains "." (string_of_list_ascii l) = false).
  { induction l as [|c l IH]; intros Hl; simpl; [reflexivity|].
    rewrite IH by (intros x Hx; now apply Hl, list_elem_of_further).
    rewrite orb_false_r. apply Ascii.eqb_neq. apply Hl, list_elem_of_here. }
  apply H. intros c Hc.
  pose proof (elem_of_sublist _ _ _ Hc (sublist_take _ 64)) as Hc'.
  apply strip_chars_incl, list_elem_of_fmap in Hc' as (c0 & -> & _).
  intros Heq. destruct (sanitize_char_safe c0) as [Hw | Hd]; rewrite Heq in *; discriminate.
Qed.

Lemma user_dir_no_dot (member : Member) (w : World) :
  Forall (fun part => contains "." part = false) (user_dir_of member w).
Proof.
  unfold user_dir_of.
  rewrite (path_div_part _ (strftime (clock w))) by apply strftime_nonempty.
  apply Forall_app. split; [|repeat constructor; apply strftime_no_dot].
  unfold path_div, AUDIOS_DIR. destruct (String.eqb _ "").
  - repeat constructor.
  - repeat constructor. apply safe_name_no_dot.
Qed.

Lemma dest_path_split (member : Member) (w : World) :
  dest_path_of member w
  = user_dir_of member w
    ++ [name_with_suffix (uuid4_str (uuid_seed w) +:+ "-" +:+ strftime (clock w)) ".wav"].
Proof.
  unfold dest_path_of.
  rewrite (path_div_part _ (uuid4_str (uuid_seed w) +:+ "-" +:+ strftime (clock w)))
    by apply append_dash_nonempty.
  unfold with_suffix. now rewrite removelast_last, last_last.
Qed.

(** With an identifier that holds no dot, the destination is
    [AUDIOS_DIR / <sanitized name> / <timestamp> / <id>-<timestamp>.wav]. *)
Lemma dest_path_named (member : Member) (w : World) :
  contains "." (uuid4_str (uuid_seed w)) = false ->
  dest_path_of member w
  = segment_path (username member) (strftime (clock w)) (uuid4_str (uuid_seed w)).
Proof.
  intros H. rewrite dest_path_split. unfold segment_path, user_dir_of.
  rewrite name_with_suffix_plain; [reflexivity|].
  rewrite !contains_append, H, strftime_no_dot. reflexivity.
Qed.

Lemma dest_path_of_ext (member : Member) (a b : World) :
  clock a = clock b -> uuid_seed a = uuid_seed b ->
  dest_path_of member a = dest_path_of member b.
Proof. intros Hc Hu. unfold dest_path_of, user_dir_of. now rewrite Hc, Hu. Qed.

(** A destination is never a directory a later [mkdir] has to pass. *)
Lemma dest_blocks_nothing (member : Member) (w : World) (d : Path) (k : nat) :
  Forall (fun part => contains "." part = false) d ->
  take k d <> dest_path_of member w.
Proof.
  intros Hd Heq. rewrite dest_path_split in Heq.
  assert (Hin : name_with_suffix (uuid4_str (uuid_seed w) +:+ "-" +:+ strftime (clock w))
                  ".wav" ∈ take k d).
  { rewrite Heq. apply elem_of_app. right. apply list_elem_of_here. }
  pose proof (elem_of_sublist _ _ _ Hin (sublist_take _ k)) as Hin'.
  rewrite Forall_forall in Hd. apply Hd in Hin'.
  now rewrite name_with_suffix_dot in Hin'.
Qed.

Lemma blocked_mono (d : Path) (files files' : gset Path) :
  (forall k, take k d ∈ files' -> take k d ∈ files) ->
  blocked d files = false -> blocked d files' = false.
Proof.
  intros H Hb. apply not_true_is_false. intros E.
  unfold blocked in *. apply existsb_exists in E as (k & Hk & Hin).
  apply bool_decide_eq_true in Hin. apply H in Hin.
  assert (Ht : existsb (fun k => bool_decide (take k d ∈ files)) (seq 1 (length d)) = true).
  { apply existsb_exists. exists k. split; [exact Hk | now apply bool_decide_eq_true]. }
  congruence.
Qed.

Lemma process_files_shape ctx user file_path consent_data channel w (p : Path) :
  p ∈ fs (snd (process_user_recording ctx user file_path consent_data channel w)) ->
  p ∈ fs w \/ exists member, p = dest_path_of member w.
Proof.
  process_cases ctx user file_path consent_data channel w; simpl; auto.
  - intros [Hin | Hin%elem_of_singleton]%elem_of_union.
    + left. now apply elem_of_difference in Hin as [Hin _].
    + right. now exists member.
  - intros [Hin _]%elem_of_difference. now left.
Qed.

Lemma process_keeps_unblocked ctx user file_path consent_data channel w (d : Path) :
  Forall (fun part => contains "." part = false) d ->
  blocked d (fs w) = false ->
  blocked d (fs (snd (process_user_recording ctx user file_path consent_data channel w)))
  = false.
Proof.
  intros Hd. apply blocked_mono. intros k Hin.
  apply process_files_shape in Hin as [Hin | (member & Heq)]; [exact Hin|].
  now apply dest_blocks_nothing in Heq.
Qed.

Lemma process_seed_mono ctx user file_path consent_data channel w :
  uuid_seed w
  <= uuid_seed (snd (process_user_recording ctx user file_path consent_data channel w)).
Proof.
  process_cases ctx user file_path consent_data channel w;
    cbn [snd uuid_seed set_uuid_seed set_fs]; lia.
Qed.

(** A flush publishes nothing for a participant it holds no artifact of. *)
Lemma gather_other_users ctx consent_data channel items w (user : N) :
  user ∉ (fst <$> items) ->
  exists new,
    published (snd (gather (process_item ctx consent_data channel <$> items) w))
    = new ++ published w /\
    List.filter (fun tm => msg_userId (snd tm) =? user) new = [].
Proof.
  intros Hu.
  destruct (gather_published ctx consent_data channel items w) as (new & Hnew & Hall & _).
  exists new. split; [exact Hnew|].
  clear Hnew. induction Hall as [|tm new (fp & mem & Hin & _) _ IH]; [reflexivity|].
  cbn [List.filter].
  destruct (N.eqb_spec (msg_userId (snd tm)) user) as [Heq | _]; [|exact IH].
  exfalso. apply Hu. apply list_elem_of_fmap. exists (msg_userId (snd tm), fp).
  split; [now rewrite Heq | exact Hin].
Qed.

(** The artifact of a participant who granted consent and resolves to a
    member that is not a bot, on disk when the flush starts, with a
    directory that can be made: the flush publishes exactly one message for
    the participant and leaves the artifact at the path the message
    names. *)
Lemma gather_granted ctx consent_data channel member user (file_path : Path)
    (items : list (N * Path)) (w : World) :
  granted consent_data user = true ->
  guild_members ctx !! user = Some member ->
  bot member = false ->
  (user, file_path) ∈ items ->
  NoDup (fst <$> items) ->
  NoDup (snd <$> items) ->
  (forall item, item ∈ items -> parent (snd item) = AUDIOS_DIR) ->
  file_path ∈ fs w ->
  blocked (user_dir_of member w) (fs w) = false ->
  let w' := snd (gather (process_item ctx consent_data channel <$> items) w) in
  exists new k,
    published w' = new ++ published w /\
    uuid_seed w <= k /\
    List.filter (fun tm => msg_userId (snd tm) =? user) new
    = [(AUDIO_QUEUE,
        {| msg_id := uuid4_str k;
           msg_path := dest_path_of member (set_uuid_seed k w);
           msg_userId := user;
           msg_user := username member;
           msg_channelId := channel;
           msg_guildId := guild_id ctx |})] /\
    (file_path ∉ fs w') /\
    dest_path_of member (set_uuid_seed k w) ∈ fs w'.
Proof.
  intros Hg Hm Hb. cbv zeta. revert w.
  induction items as [|it items IH]; intros w Hin Hnu Hnp Hpar Hf Hk;
    [now apply elem_of_nil in Hin|].
  rewrite !fmap_cons in *. apply NoDup_cons in Hnu as [Hu Hnu].
  apply NoDup_cons in Hnp as [Hp Hnp].
  rewrite gather_snd_cons.
  apply elem_of_cons in Hin as [<- | Hin].
  - change (process_item ctx consent_data channel (user, file_path) w)
      with (process_user_recording ctx user file_path consent_data channel w).
    rewrite (process_granted ctx user file_path consent_data channel w member Hg Hm Hb Hk Hf).
    cbn [snd].
    match goal with
    | |- context [gather _ ?w1] => set (w1' := w1)
    end.
    destruct (gather_other_users ctx consent_data channel items w1' user Hu)
      as (new & Hnew & Hnone).
    exists (new ++ [(AUDIO_QUEUE,
                     {| msg_id := uuid4_str (uuid_seed w);
                        msg_path := dest_path_of member w;
                        msg_userId := user;
                        msg_user := username member;
                        msg_channelId := channel;
                        msg_guildId := guild_id ctx |})]), (uuid_seed w).
    split; [rewrite Hnew, <- app_assoc; reflexivity|].
    split; [lia|].
    split; [|split].
    + rewrite List.filter_app, Hnone. cbn [List.filter snd msg_userId app].
      rewrite N.eqb_refl. reflexivity.
    + apply gather_absent; [apply (Hpar (user, file_path)), list_elem_of_here|].
      subst w1'. cbn [fs].
      intros [Hx | Hx%elem_of_singleton]%elem_of_union.
      * apply elem_of_difference in Hx as [_ Hx]. apply Hx. now apply elem_of_singleton.
      * apply (dest_path_deep member w). rewrite <- Hx.
        apply (Hpar (user, file_path)), list_elem_of_here.
    + apply (proj1 (gather_files ctx consent_data channel items w1')).
      * subst w1'. cbn [fs]. apply elem_of_union_r. now apply elem_of_singleton.
      * intros Hx. apply list_elem_of_fmap in Hx as (item & Heq & Hitem).
        apply (dest_path_deep member w).
        change (dest_path_of member (set_uuid_seed (uuid_seed w) w))
          with (dest_path_of member w) in Heq.
        rewrite Heq. apply Hpar. now apply list_elem_of_further.
  - assert (Hne_u : fst it <> user).
    { intros Heq. apply Hu. apply list_elem_of_fmap. exists (user, file_path).
      split; [now rewrite Heq | exact Hin]. }
    assert (Hne_p : file_path <> snd it).
    { intros Heq. apply Hp. apply list_elem_of_fmap. exists (user, file_path).
      split; [now rewrite <- Heq | exact Hin]. }
    change (process_item ctx consent_data channel it w)
      with (process_user_recording ctx (fst it) (snd it) consent_data channel w).
    pose proof (process_frame ctx (fst it) (snd it) consent_data channel w)
      as (_ & _ & _ & Hclock).
    pose proof (process_seed_mono ctx (fst it) (snd it) consent_data channel w) as Hseed.
    pose proof (process_published ctx (fst it) (snd it) consent_data channel w) as Hpub.
    pose proof (process_keeps_other_files ctx (fst it) (snd it) consent_data channel w
                  file_path Hf Hne_p) as Hf1.
    pose proof (process_keeps_unblocked ctx (fst it) (snd it) consent_data channel w
                  (user_dir_of member w) (user_dir_no_dot member w) Hk) as Hk1.
    cbv zeta in Hclock, Hpub.
    set (w1 := snd (process_user_recording ctx (fst it) (snd it) consent_data channel w)) in *.
    assert (Hdir : user_dir_of member w1 = user_dir_of member w)
      by (unfold user_dir_of; now rewrite Hclock).
    rewrite <- Hdir in Hk1.
    destruct (IH w1 Hin Hnu Hnp (fun item Hitem => Hpar item (list_elem_of_further _ _ _ Hitem))
                Hf1 Hk1) as (new & k & Hnew & Hle & Hone & Hgone & Hdest).
    assert (Hsame : dest_path_of member (set_uuid_seed k w1)
                    = dest_path_of member (set_uuid_seed k w))
      by (apply dest_path_of_ext; [exact Hclock | reflexivity]).
    rewrite Hsame in Hone, Hdest.
    destruct Hpub as [Hpub | (m & Hpub & Hseg)].
    + exists new, k. rewrite Hnew, Hpub.
      split; [reflexivity|]. split; [lia|]. split; [exact Hone|].
      split; [exact Hgone | exact Hdest].
    + exists (new ++ [(AUDIO_QUEUE, m)]), k. rewrite Hnew, Hpub, <- app_assoc.
      split; [reflexivity|]. split; [lia|]. split; [|split; [exact Hgone | exact Hdest]].
      rewrite List.filter_app, Hone. cbn [List.filter snd].
      destruct Hseg as (fp & mem & Hitem & _).
      apply list_elem_of_singleton in Hitem. injection Hitem as Hitem _.
      cbn [snd] in Hitem. rewrite Hitem.
      destruct (N.eqb_spec (fst it) user) as [Heq | _]; [contradiction | reflexivity].
Qed.

(** The artifact of a participant whose grant leads nowhere, because the
    participant does not resolve to a member or resolves to a bot, stays
    where it is through the flush. *)
Lemma gather_unresolved_stays ctx consent_data channel user (file_path : Path)
    (items : list (N * Path)) (w : World) :
  granted consent_data user = true ->
  (guild_members ctx !! user = None \/
   exists member, guild_members ctx !! user = Some member /\ bot member = true) ->
  (user, file_path) ∈ items ->
  NoDup (snd <$> items) ->
  file_path ∈ fs w ->
  file_path ∈ fs (snd (gather (process_item ctx consent_data channel <$> items) w)).
Proof.
  intros Hg Hm. revert w.
  induction items as [|it items IH]; intros w Hin Hnp Hf; [now apply elem_of_nil in Hin|].
  rewrite !fmap_cons in *. apply NoDup_cons in Hnp as [Hp Hnp].
  rewrite gather_snd_cons.
  apply elem_of_cons in Hin as [<- | Hin].
  - change (process_item ctx consent_data channel (user, file_path) w)
      with (process_user_recording ctx user file_path consent_data channel w).
    assert (Hnoop : process_user_recording ctx user file_path consent_data channel w
                    = (Ok None, w)).
    { destruct Hm as [Hm | (member & Hm & Hb)];
        [now apply process_unresolved | now apply (process_bot _ _ _ _ _ _ member)]. }
    rewrite Hnoop. cbn [snd].
    now apply (proj1 (gather_files ctx consent_data channel items w)).
  - apply IH; [exact Hin | exact Hnp |].
    unfold process_item. apply process_keeps_other_files; [exact Hf|].
    intros Heq. apply Hp. apply list_elem_of_fmap. exists (user, file_path).
    split; [now rewrite <- Heq | exact Hin].
Qed.

(** Both flushing handlers run the gathered calls in a world with the disk,
    the clock, the publications and the identifiers of the world they
    started in. *)
Lemma flush_handlers_start (ctx : SlashContext) (w w' : World) (vs : VoiceState) :
  active_recordings w !! guild_id ctx = Some vs ->
  w' = snd (scheduled_transcription_task ctx w) \/ w' = snd (stop_recording ctx w) ->
  exists w0,
    fs w0 = fs w /\ clock w0 = clock w /\
    published w0 = published w /\ uuid_seed w0 = uuid_seed w /\
    let w1 := snd (gather (process_item ctx (default ∅ (consent_file w)) (vs_channel vs)
                           <$> output vs) w0) in
    fs w' = fs w1 /\ published w' = published w1.
Proof.
  intros Hreg [-> | ->].
  - rewrite (periodic_unfold ctx w vs Hreg).
    match goal with
    | |- context [gather ?ts ?w0] =>
        exists w0; repeat (split; [reflexivity|]);
        cbv zeta; destruct (gather ts w0) as [[r|e] w1]
    end; [|destruct (connected vs)]; split; reflexivity.
  - rewrite (stop_unfold ctx w vs Hreg).
    match goal with
    | |- context [gather ?ts ?w0] =>
        exists w0; repeat (split; [reflexivity|]);
        cbv zeta; destruct (gather ts w0) as [[r|e] w1]
    end; [|destruct (connected vs)]; split; reflexivity.
Qed.

(** C2, as the code has it.  For a participant with a grant in the consent
    record, what happens to the artifact depends on what
    [ctx.guild.get_member] resolves the participant to.

    Resolved to a member that is not a bot, with the artifact on disk and
    its directory creatable: the call moves the artifact to
    [AUDIOS_DIR / <sanitized name> / <timestamp> / <id>-<timestamp>.wav]
    and publishes exactly one message on the audio queue, with an
    identifier no earlier message carries, the new path, the user id, the
    user name, the channel id and the guild id.  So does every flush, by the
    periodic task or by the stop command, with the consent record it loads
    and the channel of its session: among the messages it publishes exactly
    one is for the participant, and afterwards the artifact is gone from
    where it was captured and lies at the path the message names.

    Not resolved, or resolved to a bot: the call changes nothing, and after
    every flush the artifact is where it was and no message of the flush
    carries the participant. *)
Theorem consented_artifact_relocated_and_published
    ctx (consent_data : gmap string bool) (user : N) (file_path : Path) :
  consent_data !! py_str user = Some true ->
  (forall k, contains "." (uuid4_str k) = false) ->
  (forall member channel w,
     guild_members ctx !! user = Some member ->
     bot member = false ->
     file_path ∈ fs w ->
     blocked (user_dir_of member w) (fs w) = false ->
     ids_drawn w ->
     let id := uuid4_str (uuid_seed w) in
     let dest := segment_path (username member) (strftime (clock w)) id in
     let r := process_user_recording ctx user file_path consent_data channel w in
     fst r = Ok (Some dest) /\
     fs (snd r) = fs w ∖ {[file_path]} ∪ {[dest]} /\
     (file_path <> dest -> file_path ∉ fs (snd r)) /\
     dest ∈ fs (snd r) /\
     trace (snd r)
     = EvPublish AUDIO_QUEUE
         {| msg_id := id; msg_path := dest; msg_userId := user;
            msg_user := username member; msg_channelId := channel;
            msg_guildId := guild_id ctx |} :: trace w /\
     (forall tm, tm ∈ published w -> msg_id (snd tm) <> id) /\
     ids_drawn (snd r)) /\
  (forall member w vs w',
     guild_members ctx !! user = Some member ->
     bot member = false ->
     active_recordings w !! guild_id ctx = Some vs ->
     default ∅ (consent_file w) = consent_data ->
     (user, file_path) ∈ output vs ->
     NoDup (fst <$> output vs) ->
     NoDup (snd <$> output vs) ->
     (forall item, item ∈ output vs -> parent (snd item) = AUDIOS_DIR) ->
     file_path ∈ fs w ->
     blocked (user_dir_of member w) (fs w) = false ->
     ids_drawn w ->
     w' = snd (scheduled_transcription_task ctx w) \/ w' = snd (stop_recording ctx w) ->
     exists new id,
       let dest := segment_path (username member) (strftime (clock w)) id in
       published w' = new ++ published w /\
       List.filter (fun tm => msg_userId (snd tm) =? user) new
       = [(AUDIO_QUEUE,
           {| msg_id := id; msg_path := dest; msg_userId := user;
              msg_user := username member; msg_channelId := vs_channel vs;
              msg_guildId := guild_id ctx |})] /\
       (forall tm, tm ∈ published w -> msg_id (snd tm) <> id) /\
       (file_path ∉ fs w') /\
       dest ∈ fs w') /\
  (guild_members ctx !! user = None \/
   (exists member, guild_members ctx !! user = Some member /\ bot member = true) ->
   (forall channel w,
      process_user_recording ctx user file_path consent_data channel w = (Ok None, w)) /\
   (forall w vs w',
      active_recordings w !! guild_id ctx = Some vs ->
      default ∅ (consent_file w) = consent_data ->
      (user, file_path) ∈ output vs ->
      NoDup (snd <$> output vs) ->
      file_path ∈ fs w ->
      w' = snd (scheduled_transcription_task ctx w) \/ w' = snd (stop_recording ctx w) ->
      file_path ∈ fs w' /\
      forall tm, tm ∈ published w' -> msg_userId (snd tm) = user -> tm ∈ published w)).
Proof.
  intros Hc Hplain. apply granted_true in Hc. split; [|split].
  - intros member channel w Hm Hb Hf Hk Hids. cbv zeta.
    rewrite (process_granted _ _ _ _ _ _ _ Hc Hm Hb Hk Hf).
    rewrite (dest_path_named member w) by apply Hplain.
    cbn [fst snd fs trace uuid_seed].
    split; [reflexivity|]. split; [reflexivity|].
    split; [|split]; [| |split; [reflexivity|split]].
    + intros Hne [Hin | Hin%elem_of_singleton]%elem_of_union; [|contradiction].
      apply elem_of_difference in Hin as [_ Hin]. apply Hin. now apply elem_of_singleton.
    + apply elem_of_union_r. now apply elem_of_singleton.
    + intros tm Htm Heq. destruct (Hids tm Htm) as (k & Hk' & Hid).
      rewrite Hid in Heq. apply uuid4_fresh in Heq. lia.
    + intros tm Htm. unfold published in Htm. cbn [trace omap list_omap publication] in Htm.
      apply elem_of_cons in Htm as [-> | Htm].
      * exists (uuid_seed w). cbn [snd msg_id uuid_seed]. split; [lia | reflexivity].
      * destruct (Hids tm Htm) as (k & Hk' & Hid). exists k.
        cbn [uuid_seed]. split; [lia | exact Hid].
  - intros member w vs w' Hm Hb Hreg Hload Hin Hnu Hnp Hpar Hf Hk Hids Hw'.
    subst consent_data.
    destruct (flush_handlers_start ctx w w' vs Hreg Hw')
      as (w0 & Hfs0 & Hclock0 & Hpub0 & Hseed0 & Hfs' & Hpub').
    assert (Hdir : user_dir_of member w0 = user_dir_of member w)
      by (unfold user_dir_of; now rewrite Hclock0).
    rewrite <- Hfs0 in Hf. rewrite <- Hfs0, <- Hdir in Hk.
    destruct (gather_granted ctx (default ∅ (consent_file w)) (vs_channel vs) member user
                file_path (output vs) w0 Hc Hm Hb Hin Hnu Hnp Hpar Hf Hk)
      as (new & k & Hnew & Hle & Hone & Hgone & Hdest).
    assert (Hpath : dest_path_of member (set_uuid_seed k w0)
                    = segment_path (username member) (strftime (clock w)) (uuid4_str k)).
    { rewrite (dest_path_named member (set_uuid_seed k w0)) by apply Hplain.
      cbn [set_uuid_seed clock uuid_seed]. now rewrite Hclock0. }
    rewrite Hpath in Hone, Hdest.
    exists new, (uuid4_str k). cbv zeta.
    split; [now rewrite Hpub', Hnew, Hpub0|]. split; [exact Hone|].
    split; [|split; [now rewrite Hfs' | now rewrite Hfs']].
    intros tm Htm Heq. destruct (Hids tm Htm) as (j & Hj & Hid).
    rewrite Hid in Heq. apply uuid4_fresh in Heq. lia.
  - intros Hm. split.
    + intros channel w.
      destruct Hm as [Hm | (member & Hm & Hb)];
        [now apply process_unresolved | now apply (process_bot _ _ _ _ _ _ member)].
    + intros w vs w' Hreg Hload Hin Hnp Hf Hw'. subst consent_data. split.
      * destruct (flush_handlers_start ctx w w' vs Hreg Hw')
          as (w0 & Hfs0 & _ & _ & _ & Hfs' & _).
        rewrite Hfs'. rewrite <- Hfs0 in Hf.
        now apply (gather_unresolved_stays _ _ _ user).
      * intros tm Htm Hu.
        assert (Hv : via_flush ctx vs w w').
        { destruct Hw' as [-> | ->];
            [now apply periodic_via_flush | now apply stop_via_flush]. }
        destruct (via_flush_only_granted _ _ _ _ _ Hv Htm) as [Hold | Hseg]; [exact Hold|].
        destruct Hseg as (fp & mem & _ & _ & Hm' & Hb' & _). rewrite Hu in Hm'.
        destruct Hm as [Hm | (member & Hm & Hb)]; congruence.
Qed.

End Bot.

(** ** The builtins on sample strings *)

Example py_int_examples :
  py_int ascii_only " +12_3 " = Some 123%Z /\
  py_int ascii_only "-7" = Some (-7)%Z /\
  py_int ascii_only "007" = Some 7%Z /\
  py_int ascii_only "" = None /\
  py_int ascii_only "1__2" = None /\
  py_int ascii_only "7a" = None.
Proof. repeat split; reflexivity. Qed.

Example split_on_examples :
  split_on "_" "consent_allow_42" = ["consent"; "allow"; "42"]%string /\
  split_on "_" "a__b_" = ["a"; ""; "b"; ""]%string /\
  split_on "_" "" = [""%string].
Proof. repeat split; reflexivity. Qed.

Example safe_name_examples :
  safe_name ascii_only "Alice W." = "Alice_W"%string /\
  safe_name ascii_only "__Jo hn!!-x.y__" = "Jo_hn__-x_y"%string /\
  safe_name ascii_only "!!!" = ""%string.
Proof. repeat split; reflexivity. Qed.

Example with_suffix_examples :
  with_suffix ["audio"; "bob"; "0-2025-03-14-12-00"]%string ".wav"
  = ["audio"; "bob"; "0-2025-03-14-12-00.wav"]%string /\
  with_suffix ["audio"; "take.1.tmp"]%string ".wav" = ["audio"; "take.1.wav"]%string /\
  name_suffix ".hidden" = ""%string /\
  name_suffix "name." = ""%string.
Proof. repeat split; reflexivity. Qed.

Example strftime_noon : strftime noon = "2025-03-14-12-00"%string.
Proof. reflexivity. Qed.

(** ** The theorems at the sample data *)

Lemma py_str_inj (i j : N) : py_str i = py_str j -> i = j.
Proof.
  intros H. pose proof (py_int_str ascii_only i) as Hi.
  rewrite H, py_int_str in Hi. injection Hi as Hi. lia.
Qed.

Lemma ids_drawn_start (uuid4_str : N -> string) (w : World) :
  trace w = [] -> ids_drawn uuid4_str w.
Proof.
  intros H tm Htm. unfold published in Htm. rewrite H in Htm.
  now apply elem_of_nil in Htm.
Qed.

(** Carol has no entry: her artifact is deleted by the call and is off disk
    after the stop command, which publishes nothing for her. *)
Lemma unconsented_artifact_discarded_witness :
  (consent_alice !! py_str 9 = Some false \/ consent_alice !! py_str 9 = None) /\
  process_user_recording "audio-queue" py_str ascii_only (guild_ctx None)
    9 (artifact 9) consent_alice 10 world_alice
  = (Ok None, set_fs (fs world_alice ∖ {[artifact 9]}) world_alice) /\
  (artifact 9
   ∉ fs (snd (stop_recording "audio-queue" py_str ascii_only (guild_ctx None) world_alice))) /\
  forall tm,
    tm ∈ published
           (snd (stop_recording "audio-queue" py_str ascii_only (guild_ctx None) world_alice)) ->
    msg_userId (snd tm) = 9 -> tm ∈ published world_alice.
Proof.
  assert (Hc : consent_alice !! py_str 9 = Some false \/ consent_alice !! py_str 9 = None)
    by (right; reflexivity).
  destruct (unconsented_artifact_discarded "audio-queue" py_str ascii_only
              (guild_ctx None) consent_alice 9 (artifact 9) Hc) as [Hcall Hflush].
  split; [exact Hc|]. split; [apply Hcall|].
  apply (Hflush world_alice (session two_artifacts)).
  - reflexivity.
  - reflexivity.
  - apply list_elem_of_further, list_elem_of_here.
  - reflexivity.
  - right. reflexivity.
Defined.

(** Alice has granted consent: her artifact moves to [alice_dest] and
    [alice_message] is published, by the call; the stop command publishes
    one message for her and leaves her artifact at the path it names. *)
Lemma consented_artifact_relocated_and_published_witness :
  consent_alice !! py_str 7 = Some true /\
  (forall k, contains "." (py_str k) = false) /\
  guild_members (guild_ctx None) !! 7 = Some alice /\
  artifact 7 ∈ fs world_alice /\
  segment_path ascii_only (username alice) (strftime (clock world_alice)) (py_str 0)
  = alice_dest /\
  fst (process_user_recording "audio-queue" py_str ascii_only (guild_ctx None)
         7 (artifact 7) consent_alice 10 world_alice)
  = Ok (Some alice_dest) /\
  trace (snd (process_user_recording "audio-queue" py_str ascii_only (guild_ctx None)
                7 (artifact 7) consent_alice 10 world_alice))
  = [EvPublish "audio-queue" alice_message] /\
  exists new id,
    published (snd (stop_recording "audio-queue" py_str ascii_only (guild_ctx None)
                      world_alice))
    = new ++ published world_alice /\
    List.filter (fun tm => msg_userId (snd tm) =? 7) new
    = [("audio-queue"%string,
        {| msg_id := id;
           msg_path := segment_path ascii_only (username alice)
                         (strftime (clock world_alice)) id;
           msg_userId := 7; msg_user := username alice;
           msg_channelId := 10; msg_guildId := 1 |})] /\
    (artifact 7
     ∉ fs (snd (stop_recording "audio-queue" py_str ascii_only (guild_ctx None)
                  world_alice))) /\
    segment_path ascii_only (username alice) (strftime (clock world_alice)) id
    ∈ fs (snd (stop_recording "audio-queue" py_str ascii_only (guild_ctx None)
                 world_alice)).
Proof.
  assert (Hc : consent_alice !! py_str 7 = Some true) by reflexivity.
  assert (Hm : guild_members (guild_ctx None) !! 7 = Some alice) by reflexivity.
  assert (Hf : artifact 7 ∈ fs world_alice)
    by (vm_compute; reflexivity).
  assert (Hk : blocked (user_dir_of ascii_only alice world_alice) (fs world_alice) = false)
    by (vm_compute; reflexivity).
  assert (Hd : segment_path ascii_only (username alice) (strftime (clock world_alice))
                 (py_str 0) = alice_dest)
    by (vm_compute; reflexivity).
  assert (Hnu : NoDup (fst <$> output (session two_artifacts))).
  { cbn. apply NoDup_cons. split; [|apply NoDup_singleton].
    intros H%list_elem_of_singleton. discriminate. }
  assert (Hnp : NoDup (snd <$> output (session two_artifacts))).
  { cbn. apply NoDup_cons. split; [|apply NoDup_singleton].
    intros H%list_elem_of_singleton. vm_compute in H. discriminate. }
  assert (Hpar : forall item, item ∈ output (session two_artifacts) ->
                              parent (snd item) = AUDIOS_DIR).
  { intros item [-> | [-> | H%elem_of_nil]%elem_of_cons]%elem_of_cons;
      [reflexivity | reflexivity | contradiction]. }
  destruct (consented_artifact_relocated_and_published "audio-queue" py_str ascii_only
              py_str_inj (guild_ctx None) consent_alice 7 (artifact 7) Hc py_str_no_dot)
    as (Hcall & Hflush & _).
  destruct (Hcall alice 10 world_alice Hm eq_refl Hf Hk
              (ids_drawn_start py_str world_alice eq_refl))
    as (Hret & _ & _ & _ & Htrace & _).
  cbv zeta in Hret, Htrace. change (uuid_seed world_alice) with 0 in Hret, Htrace.
  rewrite Hd in Hret, Htrace.
  destruct (Hflush alice world_alice (session two_artifacts)
              (snd (stop_recording "audio-queue" py_str ascii_only (guild_ctx None)
                      world_alice))
              Hm eq_refl eq_refl eq_refl (list_elem_of_here _ _) Hnu Hnp Hpar Hf Hk
              (ids_drawn_start py_str world_alice eq_refl) (or_intror eq_refl))
    as (new & id & Hnew & Hone & _ & Hgone & Hdest).
  split; [exact Hc|]. split; [exact py_str_no_dot|]. split; [exact Hm|].
  split; [exact Hf|]. split; [exact Hd|]. split; [exact Hret|]. split; [exact Htrace|].
  exists new, id. split; [exact Hnew|]. split; [exact Hone|]. split; [exact Hgone | exact Hdest].
Defined.

(** The grant of a user who left the guild: nothing is moved and nothing is
    published, by the call and by the stop command. *)
Lemma granted_artifact_of_departed_member_stays :
  consent_departed !! py_str 11 = Some true /\
  artifact 11 ∈ fs world_departed /\
  process_user_recording "audio-queue" py_str ascii_only (guild_ctx None)
    11 (artifact 11) consent_departed 10 world_departed
  = (Ok None, world_departed) /\
  published (snd (stop_recording "audio-queue" py_str ascii_only (guild_ctx None)
                    world_departed)) = [] /\
  fs (snd (stop_recording "audio-queue" py_str ascii_only (guild_ctx None) world_departed))
  = {[ artifact 11 ]}.
Proof.
  split; [reflexivity|].
  split; [vm_compute; reflexivity|].
  split; [reflexivity|].
  split; vm_compute; reflexivity.
Qed.

(** The bot of the sample guild: nothing is published for it. *)
Lemma bot_artifact_never_published_witness :
  guild_members (guild_ctx None) !! 8 = Some dj_bot /\
  bot dj_bot = true /\
  fst (process_user_recording "audio-queue" py_str ascii_only (guild_ctx None)
         8 (artifact 8) consent_bot 10 world_bot) = Ok None /\
  forall tm,
    tm ∈ published
           (snd (stop_recording "audio-queue" py_str ascii_only (guild_ctx None) world_bot)) ->
    msg_userId (snd tm) = 8 -> tm ∈ published world_bot.
Proof.
  assert (Hm : guild_members (guild_ctx None) !! 8 = Some dj_bot) by reflexivity.
  destruct (bot_artifact_never_published "audio-queue" py_str ascii_only
              (guild_ctx None) consent_bot 8 (artifact 8) dj_bot Hm eq_refl)
    as [Hcall Hflush].
  split; [exact Hm|]. split; [reflexivity|].
  split; [apply (Hcall 10 world_bot)|].
  apply (Hflush world_bot (session [(8, artifact 8)])).
  - reflexivity.
  - right. reflexivity.
Defined.

(** With a grant on record for the bot its artifact is still on disk after
    the call and after the stop command; without one it is deleted: the
    consent record decides. *)
Lemma bot_artifact_with_grant_stays_on_disk :
  bot dj_bot = true /\
  consent_bot !! py_str 8 = Some true /\
  fs (snd (process_user_recording "audio-queue" py_str ascii_only (guild_ctx None)
             8 (artifact 8) consent_bot 10 world_bot))
  = {[ artifact 8 ]} /\
  fs (snd (stop_recording "audio-queue" py_str ascii_only (guild_ctx None) world_bot))
  = {[ artifact 8 ]} /\
  fs (snd (process_user_recording "audio-queue" py_str ascii_only (guild_ctx None)
             8 (artifact 8) ∅ 10 world_bot))
  = ∅.
Proof. repeat split; vm_compute; reflexivity. Qed.

(** Fourteen rejection events for the connected session of guild 1: the
    consumer of the specification plays two error cues, [on_ready] none. *)
Lemma rejection_counter_diverges :
  trace (snd (spec_rejection_loop 0 (replicate 14 1) world_alice))
  = [EvPlay 10 CueError; EvPlay 10 CueError] /\
  on_ready "rejected-queue" (rejection_event "rejected-queue" <$> replicate 14 1) world_alice
  = (Ok 0, world_alice).
Proof. split; vm_compute; reflexivity. Qed.

(** A malformed event between two well-formed ones: the first is consumed,
    the loop ends at the second, the third is never looked at. *)
Lemma malformed_event_ends_loop_witness :
  on_ready_loop "rejected-queue" 0 [rejection_event "rejected-queue" 1] world_alice
  = (Ok 0, world_alice) /\
  on_ready_loop "rejected-queue" 0
    ([rejection_event "rejected-queue" 1]
     ++ {| message_type := "message"; message_channel := "rejected-queue";
           message_data := Unparsable |}
     :: [rejection_event "rejected-queue" 1]) world_alice
  = (Raise JSONDecodeError, world_alice).
Proof.
  assert (H : on_ready_loop "rejected-queue" 0 [rejection_event "rejected-queue" 1]
                world_alice = (Ok 0, world_alice)) by reflexivity.
  split; [exact H|].
  exact (malformed_event_ends_loop "rejected-queue" _ _ _ _ _ _ _ H).
Defined.

(** The session of guild 1 is registered: a requester outside voice is told
    so, a requester in voice is told a recording is active. *)
Lemma start_checks_voice_first_witness :
  author_voice (guild_ctx None) = None /\
  author_voice (guild_ctx (Some (Some lounge))) = Some (Some lounge) /\
  active_recordings world_alice !! guild_id (guild_ctx None) = Some (session two_artifacts) /\
  start_recording (guild_ctx None) world_alice
  = (Ok tt, record (EvSend MSG_NOT_IN_VOICE true) world_alice) /\
  start_recording (guild_ctx (Some (Some lounge))) world_alice
  = (Ok tt, record (EvSend MSG_ALREADY_RECORDING true) world_alice).
Proof.
  split; [reflexivity|]. split; [reflexivity|]. split; [reflexivity|]. split.
  - apply (proj1 (start_checks_voice_first (guild_ctx None) world_alice)).
    left. reflexivity.
  - apply (proj2 (start_checks_voice_first (guild_ctx (Some (Some lounge))) world_alice)
             lounge (session two_artifacts)); reflexivity.
Defined.

(** Already recording and requester not in voice: the reply is the one for
    a requester outside voice, not the one for an active recording. *)
Lemma start_outside_voice_while_recording :
  is_Some (VoiceStateManager.get (guild_id (guild_ctx None)) (active_recordings world_alice)) /\
  author_voice (guild_ctx None) = None /\
  trace (snd (start_recording (guild_ctx None) world_alice))
  = [EvSend MSG_NOT_IN_VOICE true] /\
  MSG_NOT_IN_VOICE <> MSG_ALREADY_RECORDING.
Proof.
  split; [eexists; reflexivity|]. split; [reflexivity|].
  split; [reflexivity | discriminate].
Qed.

(** [start_recording] does not touch the registry of a guild that has a
    session. *)
Lemma add_overwrites_witness :
  is_Some (VoiceStateManager.get (guild_id (guild_ctx (Some (Some lounge))))
             (active_recordings world_alice)) /\
  active_recordings (snd (start_recording (guild_ctx (Some (Some lounge))) world_alice))
  = active_recordings world_alice.
Proof.
  assert (H : is_Some (VoiceStateManager.get (guild_id (guild_ctx (Some (Some lounge))))
                         (active_recordings world_alice)))
    by (eexists; reflexivity).
  split; [exact H|].
  exact (proj2 (proj2 (add_overwrites 1 first_session ∅
                         (guild_ctx (Some (Some lounge))) world_alice)) H).
Defined.

(** [add] on a guild that holds a session replaces the session. *)
Lemma add_on_held_guild_replaces :
  VoiceStateManager.get 1 {[ 1 := first_session ]} = Some first_session /\
  VoiceStateManager.get 1 (VoiceStateManager.add 1 second_session {[ 1 := first_session ]})
  = Some second_session /\
  first_session <> second_session.
Proof.
  split; [reflexivity|]. split; [reflexivity | discriminate].
Qed.


(** Alice leaves.  With carol undecided the session is torn down; with a
    denial of carol on record it keeps running. *)
Lemma leave_stops_without_decided_member_witness :
  bot (ev_author alice_leaves) = false /\
  member_id (ev_author alice_leaves) <> sample_bot_id /\
  active_recordings world_alice !! channel_guild (ev_channel alice_leaves)
  = Some (session two_artifacts) /\
  channel_id (ev_channel alice_leaves) = vs_channel (session two_artifacts) /\
  on_voice_user_leave sample_bot_id alice_leaves world_alice
  = (Ok tt, torn_down alice_leaves (session two_artifacts) world_alice) /\
  on_voice_user_leave sample_bot_id alice_leaves world_carol_denied
  = (Ok tt, world_carol_denied).
Proof.
  assert (Hne : member_id (ev_author alice_leaves) <> sample_bot_id) by discriminate.
  split; [reflexivity|]. split; [exact Hne|]. split; [reflexivity|].
  split; [reflexivity|]. split.
  - apply (proj1 (leave_stops_without_decided_member sample_bot_id alice_leaves
                    world_alice (session two_artifacts) eq_refl Hne eq_refl eq_refl)).
    intros m Hm Hb _.
    apply elem_of_cons in Hm as [-> | Hm]; [reflexivity|].
    apply list_elem_of_singleton in Hm as ->. discriminate.
  - apply (proj2 (leave_stops_without_decided_member sample_bot_id alice_leaves
                    world_carol_denied (session two_artifacts) eq_refl Hne eq_refl eq_refl)
             carol).
    + apply list_elem_of_here.
    + reflexivity.
    + discriminate.
    + eexists. reflexivity.
Defined.

(** Carol, not a bot and undecided, is still in the channel when alice
    leaves, and the session is stopped all the same. *)
Lemma leave_stops_with_undecided_member_present :
  carol ∈ members (ev_channel alice_leaves) /\
  bot carol = false /\
  default ∅ (consent_file world_alice) !! py_str (member_id carol) = None /\
  VoiceStateManager.get 1 (active_recordings world_alice) = Some (session two_artifacts) /\
  VoiceStateManager.get 1
    (active_recordings (snd (on_voice_user_leave sample_bot_id alice_leaves world_alice)))
  = None /\
  trace (snd (on_voice_user_leave sample_bot_id alice_leaves world_alice))
  = [EvChannelSend 10 MSG_ALL_LEFT; EvDisconnect 10; EvTaskStop].
Proof.
  split; [apply list_elem_of_here|].
  repeat split; vm_compute; reflexivity.
Qed.

(** Alice leaves with her artifact pending: the forced stop removes the
    session and flushes nothing. *)
Lemma leave_stop_tears_down_without_flush_witness :
  remaining alice_leaves (default ∅ (consent_file world_alice)) = [] /\
  active_recordings (snd (on_voice_user_leave sample_bot_id alice_leaves world_alice))
  = delete 1 (active_recordings world_alice) /\
  fs (snd (on_voice_user_leave sample_bot_id alice_leaves world_alice)) = fs world_alice /\
  published (snd (on_voice_user_leave sample_bot_id alice_leaves world_alice))
  = published world_alice.
Proof.
  assert (Hne : member_id (ev_author alice_leaves) <> sample_bot_id) by discriminate.
  assert (Hrem : remaining alice_leaves (default ∅ (consent_file world_alice)) = [])
    by reflexivity.
  pose proof (leave_stop_tears_down_without_flush "audio-queue" sample_bot_id py_str
                ascii_only alice_leaves (guild_ctx None) world_alice
                (session two_artifacts) eq_refl Hne eq_refl eq_refl eq_refl Hrem)
    as (Hreg & _ & _ & _ & _ & Hfs & Hpub & _).
  split; [exact Hrem|]. split; [exact Hreg|]. split; [exact Hfs | exact Hpub].
Defined.

(** The same world, stopped by the leave and stopped by the command: the
    command moves alice's artifact, deletes carol's and publishes alice's
    segment after stopping the capture and queueing the stop cue; the leave
    does none of it. *)
Lemma leave_stop_differs_from_stop_command :
  fs (snd (on_voice_user_leave sample_bot_id alice_leaves world_alice))
  = {[ artifact 7; artifact 9 ]} /\
  published (snd (on_voice_user_leave sample_bot_id alice_leaves world_alice)) = [] /\
  trace (snd (on_voice_user_leave sample_bot_id alice_leaves world_alice))
  = [EvChannelSend 10 MSG_ALL_LEFT; EvDisconnect 10; EvTaskStop] /\
  fs (snd (stop_recording "audio-queue" py_str ascii_only (guild_ctx None) world_alice))
  = {[ alice_dest ]} /\
  published (snd (stop_recording "audio-queue" py_str ascii_only (guild_ctx None) world_alice))
  = [("audio-queue"%string, alice_message)] /\
  trace (snd (stop_recording "audio-queue" py_str ascii_only (guild_ctx None) world_alice))
  = [EvDisconnect 10; EvSend (MSG_STOPPED 1) false;
     EvPublish "audio-queue" alice_message;
     EvPlayNoWait 10 CueStop; EvStopRecording 10; EvTaskStop].
Proof. repeat split; vm_compute; reflexivity. Qed.

(** ** The further properties at the sample data *)

Lemma split_join_round_trip_witness :
  ["consent"; "allow"; "7"]%string <> [] /\
  Forall (fun piece => contains "_" piece = false) ["consent"; "allow"; "7"]%string /\
  split_on "_" (join_with "_" ["consent"; "allow"; "7"]%string)
  = ["consent"; "allow"; "7"]%string.
Proof.
  assert (Hn : ["consent"; "allow"; "7"]%string <> []) by discriminate.
  assert (Hf : Forall (fun piece => contains "_" piece = false)
                 ["consent"; "allow"; "7"]%string)
    by (repeat constructor).
  split; [exact Hn|]. split; [exact Hf|].
  exact (proj2 (proj2 (split_join_round_trip "_")) _ Hn Hf).
Defined.

Lemma consent_keys_round_trip_witness :
  py_str 7 = py_str 7 /\ py_int ascii_only (py_str 7) = Some 7%Z /\ (7 = 7)%N.
Proof.
  split; [reflexivity|]. split.
  - exact (proj1 (consent_keys_round_trip ascii_only) 7).
  - exact (proj2 (consent_keys_round_trip ascii_only) 7 7 eq_refl).
Defined.



Lemma consent_response_malformed_id_witness :
  length (split_on "_" (custom_id click_without_id)) <> 3%nat /\
  handle_consent_response ascii_only click_without_id world_alice
  = (Raise ValueError, world_alice) /\
  split_on "_" (custom_id click_with_name) = ["consent"; "allow"; "alice"]%string /\
  py_int ascii_only "alice" = None /\
  handle_consent_response ascii_only click_with_name world_alice
  = (Raise ValueError, world_alice).
Proof.
  assert (Hl : length (split_on "_" (custom_id click_without_id)) <> 3%nat)
    by discriminate.
  assert (Hs : split_on "_" (custom_id click_with_name)
               = ["consent"; "allow"; "alice"]%string) by reflexivity.
  assert (Hi : py_int ascii_only "alice" = None) by reflexivity.
  split; [exact Hl|]. split.
  - exact (proj1 (consent_response_malformed_id ascii_only click_without_id world_alice) Hl).
  - split; [exact Hs|]. split; [exact Hi|].
    exact (proj2 (consent_response_malformed_id ascii_only click_with_name world_alice)
             _ _ _ Hs Hi).
Defined.

(** A start in the lounge of an idle guild: carol, undecided, is asked;
    the bot is not. *)
Lemma start_registers_and_requests_consent_witness :
  author_voice (guild_ctx (Some (Some lounge))) = Some (Some lounge) /\
  active_recordings world_idle !! guild_id (guild_ctx (Some (Some lounge))) = None /\
  trace (snd (start_recording (guild_ctx (Some (Some lounge))) world_idle))
  = [EvTaskStart; EvSend MSG_STARTED false;
     EvConsentRequest None 9 ["consent_allow_9"; "consent_deny_9"]%string;
     EvPlayNoWait 10 CueStart; EvStartRecording 10; EvConnect 10].
Proof.
  assert (Hv : author_voice (guild_ctx (Some (Some lounge))) = Some (Some lounge))
    by reflexivity.
  assert (Hr : active_recordings world_idle !! guild_id (guild_ctx (Some (Some lounge)))
               = None) by reflexivity.
  split; [exact Hv|]. split; [exact Hr|].
  destruct (start_registers_and_requests_consent (guild_ctx (Some (Some lounge)))
              world_idle lounge Hv Hr) as (_ & _ & _ & _ & _ & Ht).
  rewrite Ht. reflexivity.
Defined.

Lemma start_twice_and_start_stop_witness :
  start_recording (guild_ctx (Some (Some lounge)))
    (snd (start_recording (guild_ctx (Some (Some lounge))) world_idle))
  = (Ok tt,
     record (EvSend MSG_ALREADY_RECORDING true)
       (snd (start_recording (guild_ctx (Some (Some lounge))) world_idle))) /\
  active_recordings
    (snd (stop_recording "audio-queue" py_str ascii_only (guild_ctx (Some (Some lounge)))
            (snd (start_recording (guild_ctx (Some (Some lounge))) world_idle))))
  = active_recordings world_idle.
Proof.
  destruct (start_twice_and_start_stop "audio-queue" py_str ascii_only
              (guild_ctx (Some (Some lounge))) world_idle lounge eq_refl eq_refl)
    as (H1 & _ & H2 & _).
  split; [exact H1 | exact H2].
Defined.

Lemma stop_unregisters_and_second_stop_fails_witness :
  (2 <> guild_id (guild_ctx None))%N /\
  active_recordings
    (snd (stop_recording "audio-queue" py_str ascii_only (guild_ctx None) world_alice)) !! 1
  = None /\
  active_recordings
    (snd (stop_recording "audio-queue" py_str ascii_only (guild_ctx None) world_alice)) !! 2
  = active_recordings world_alice !! 2.
Proof.
  assert (Hne : (2 <> guild_id (guild_ctx None))%N) by discriminate.
  destruct (stop_unregisters_and_second_stop_fails "audio-queue" py_str ascii_only
              (guild_ctx None) world_alice) as (Hnone & Hother & _).
  split; [exact Hne|]. split; [exact Hnone | exact (Hother 2 Hne)].
Defined.

(** The stop of the sample session reports the one segment it published;
    the stop of the session whose artifact is missing reports the error. *)
Lemma stop_reports_published_count_witness :
  active_recordings world_alice !! guild_id (guild_ctx None) = Some (session two_artifacts) /\
  active_recordings world_missing !! guild_id (guild_ctx None)
  = Some (session [(7, artifact 7)]) /\
  trace (snd (stop_recording "audio-queue" py_str ascii_only (guild_ctx None) world_alice))
  = [EvDisconnect 10; EvSend (MSG_STOPPED 1) false; EvPublish "audio-queue" alice_message;
     EvPlayNoWait 10 CueStop; EvStopRecording 10; EvTaskStop] /\
  trace (snd (stop_recording "audio-queue" py_str ascii_only (guild_ctx None) world_missing))
  = [EvDisconnect 10; EvPlay 10 CueError; EvSend MSG_STOP_ERROR true;
     EvPlayNoWait 10 CueStop; EvStopRecording 10; EvTaskStop].
Proof.
  assert (Hr : active_recordings world_alice !! guild_id (guild_ctx None)
               = Some (session two_artifacts)) by reflexivity.
  assert (Hm : active_recordings world_missing !! guild_id (guild_ctx None)
               = Some (session [(7, artifact 7)])) by reflexivity.
  split; [exact Hr|]. split; [exact Hm|]. split.
  - pose proof (stop_reports_published_count "audio-queue" py_str ascii_only
                  (guild_ctx None) world_alice (session two_artifacts) Hr) as H.
    cbv zeta in H.
    destruct (flush "audio-queue" py_str ascii_only (guild_ctx None) (session two_artifacts)
                (default ∅ (consent_file world_alice))
                (stop_flush_start (guild_ctx None) (session two_artifacts) world_alice))
      as [[paths|e] w1] eqn:E.
    + destruct H as [H _]. rewrite H.
      vm_compute in E. injection E as <- <-. reflexivity.
    + vm_compute in E. discriminate.
  - pose proof (stop_reports_published_count "audio-queue" py_str ascii_only
                  (guild_ctx None) world_missing (session [(7, artifact 7)]) Hm) as H.
    cbv zeta in H.
    destruct (flush "audio-queue" py_str ascii_only (guild_ctx None)
                (session [(7, artifact 7)])
                (default ∅ (consent_file world_missing))
                (stop_flush_start (guild_ctx None) (session [(7, artifact 7)]) world_missing))
      as [[paths|e] w1] eqn:E.
    + vm_compute in E. discriminate.
    + rewrite H. vm_compute in E. injection E as <- <-. reflexivity.
Defined.

Lemma periodic_keeps_registry_witness :
  (2 <> guild_id (guild_ctx None))%N /\
  is_Some (active_recordings world_alice !! 1) /\
  is_Some (active_recordings
             (snd (scheduled_transcription_task "audio-queue" py_str ascii_only
                     (guild_ctx None) world_alice)) !! 1) /\
  active_recordings
    (snd (scheduled_transcription_task "audio-queue" py_str ascii_only
            (guild_ctx None) world_alice)) !! 2
  = active_recordings world_alice !! 2.
Proof.
  assert (Hne : (2 <> guild_id (guild_ctx None))%N) by discriminate.
  assert (Hs : is_Some (active_recordings world_alice !! 1)) by (eexists; reflexivity).
  destruct (periodic_keeps_registry "audio-queue" py_str ascii_only
              (guild_ctx None) world_alice) as (_ & _ & Hother & Hsame).
  split; [exact Hne|]. split; [exact Hs|]. split.
  - exact (proj2 (Hsame 1) Hs).
  - exact (Hother 2 Hne).
Defined.

(** Alice's artifact is not on disk: the flush raises, the session is
    disconnected and stays registered, and a start is refused. *)
Lemma periodic_resumes_or_goes_stale_witness :
  active_recordings world_missing !! guild_id (guild_ctx (Some (Some lounge)))
  = Some (session [(7, artifact 7)]) /\
  connected (session [(7, artifact 7)]) = true /\
  fst (flush "audio-queue" py_str ascii_only (guild_ctx (Some (Some lounge)))
         (session [(7, artifact 7)]) (default ∅ (consent_file world_missing))
         (periodic_flush_start (guild_ctx (Some (Some lounge)))
            (session [(7, artifact 7)]) world_missing))
  = Raise OSError /\
  trace (snd (scheduled_transcription_task "audio-queue" py_str ascii_only
                (guild_ctx (Some (Some lounge))) world_missing))
  = [EvDisconnect 10; EvPlay 10 CueError; EvSend MSG_PROCESS_ERROR true;
     EvStopRecording 10] /\
  snd (start_recording (guild_ctx (Some (Some lounge)))
         (snd (scheduled_transcription_task "audio-queue" py_str ascii_only
                 (guild_ctx (Some (Some lounge))) world_missing)))
  = record (EvSend MSG_ALREADY_RECORDING true)
      (snd (scheduled_transcription_task "audio-queue" py_str ascii_only
              (guild_ctx (Some (Some lounge))) world_missing)).
Proof.
  assert (Hr : active_recordings world_missing !! guild_id (guild_ctx (Some (Some lounge)))
               = Some (session [(7, artifact 7)])) by reflexivity.
  destruct (periodic_resumes_or_goes_stale "audio-queue" py_str ascii_only
              (guild_ctx (Some (Some lounge))) world_missing (session [(7, artifact 7)])
              lounge Hr eq_refl eq_refl) as [Hend Hstart].
  split; [exact Hr|]. split; [reflexivity|].
  destruct (flush "audio-queue" py_str ascii_only (guild_ctx (Some (Some lounge)))
              (session [(7, artifact 7)]) (default ∅ (consent_file world_missing))
              (periodic_flush_start (guild_ctx (Some (Some lounge)))
                 (session [(7, artifact 7)]) world_missing))
    as [[paths|e] w1] eqn:E.
  - vm_compute in E. discriminate.
  - destruct Hend as [_ Ht]. rewrite Ht.
    vm_compute in E. injection E as <- <-.
    split; [reflexivity|]. split; [reflexivity | exact Hstart].
Defined.

(** Carol joins the channel of the session: undecided she is asked, with a
    denial on record she is not. *)
Lemma join_requests_consent_once_witness :
  bot (ev_author carol_joins) = false /\
  member_id (ev_author carol_joins) <> sample_bot_id /\
  on_voice_user_join sample_bot_id carol_joins world_alice
  = (Ok tt, record (consent_request_event 10 carol) world_alice) /\
  on_voice_user_join sample_bot_id carol_joins world_carol_denied
  = (Ok tt, world_carol_denied).
Proof.
  assert (Hne : member_id (ev_author carol_joins) <> sample_bot_id) by discriminate.
  split; [reflexivity|]. split; [exact Hne|]. split.
  - exact (proj1 (join_requests_consent_once sample_bot_id carol_joins world_alice
                    (session two_artifacts) eq_refl Hne eq_refl eq_refl) eq_refl).
  - apply (proj2 (join_requests_consent_once sample_bot_id carol_joins world_carol_denied
                    (session two_artifacts) eq_refl Hne eq_refl eq_refl)).
    eexists. reflexivity.
Defined.

(** The bot leaves a channel in which nobody has a decision on record: the
    session goes on. *)
Lemma presence_events_ignored_witness :
  bot (ev_author bot_leaves) = true /\
  remaining bot_leaves (default ∅ (consent_file world_alice)) = [] /\
  on_voice_user_leave sample_bot_id bot_leaves world_alice = (Ok tt, world_alice).
Proof.
  assert (Hb : bot (ev_author bot_leaves) = true) by reflexivity.
  split; [exact Hb|]. split; [reflexivity|].
  exact (proj2 (presence_events_ignored sample_bot_id bot_leaves world_alice
                  (or_introl Hb))).
Defined.

(** The confirmation of the subscription, whose payload is not JSON, and a
    rejection event: both passed over. *)
Lemma on_ready_passes_over_witness :
  (0 <> 7)%N /\
  Forall (passed_over "rejected-queue")
    [subscribe_confirmation; rejection_event "rejected-queue" 1] /\
  on_ready_loop "rejected-queue" 0
    [subscribe_confirmation; rejection_event "rejected-queue" 1] world_alice
  = (Ok 0, world_alice).
Proof.
  assert (Hc : (0 <> 7)%N) by discriminate.
  assert (Hall : Forall (passed_over "rejected-queue")
                   [subscribe_confirmation; rejection_event "rejected-queue" 1]).
  { constructor; [left; discriminate|].
    constructor; [right; split; [reflexivity | discriminate] | constructor]. }
  split; [exact Hc|]. split; [exact Hall|].
  exact (on_ready_passes_over "rejected-queue" 0 _ world_alice Hc Hall).
Defined.

(** The notes next to the artifacts survive the stop. *)
Lemma flush_touches_only_artifacts_witness :
  active_recordings world_with_notes !! guild_id (guild_ctx None)
  = Some (session two_artifacts) /\
  ["audio"%string; "notes.txt"%string] ∈ fs world_with_notes /\
  (["audio"%string; "notes.txt"%string] ∉ (snd <$> output (session two_artifacts))) /\
  ["audio"%string; "notes.txt"%string]
  ∈ fs (snd (stop_recording "audio-queue" py_str ascii_only (guild_ctx None)
               world_with_notes)).
Proof.
  assert (Hr : active_recordings world_with_notes !! guild_id (guild_ctx None)
               = Some (session two_artifacts)) by reflexivity.
  assert (Hin : ["audio"%string; "notes.txt"%string] ∈ fs world_with_notes)
    by (vm_compute; reflexivity).
  assert (Hout : ["audio"%string; "notes.txt"%string]
                 ∉ (snd <$> output (session two_artifacts))).
  { intros H. cbn in H. apply elem_of_cons in H as [H | H]; [discriminate|].
    apply elem_of_cons in H as [H | H]; [discriminate|]. now apply elem_of_nil in H. }
  split; [exact Hr|]. split; [exact Hin|]. split; [exact Hout|].
  exact (proj1 (flush_touches_only_artifacts "audio-queue" py_str ascii_only
                  (guild_ctx None) world_with_notes _ (session two_artifacts) Hr
                  (or_intror eq_refl)) _ Hin Hout).
Defined.

Lemma flush_keeps_ids_unique_witness :
  ids_drawn py_str world_alice /\
  NoDup (published_ids world_alice) /\
  NoDup (published_ids
           (snd (stop_recording "audio-queue" py_str ascii_only (guild_ctx None)
                   world_alice))).
Proof.
  assert (Hi : ids_drawn py_str world_alice) by (apply ids_drawn_start; reflexivity).
  assert (Hn : NoDup (published_ids world_alice)) by constructor.
  split; [exact Hi|]. split; [exact Hn|].
  exact (proj2 (flush_keeps_ids_unique "audio-queue" py_str ascii_only py_str_inj
                  (guild_ctx None) world_alice _ (session two_artifacts) eq_refl
                  (or_intror eq_refl) Hi Hn)).
Defined.

(** The session of [world_bot] with an empty consent document: nothing is
    published and the artifact is gone. *)
Lemma flush_without_consent_record_witness :
  consent_file (world ∅ [(8, artifact 8)]) = Some ∅ /\
  published (snd (stop_recording "audio-queue" py_str ascii_only (guild_ctx None)
                    (world ∅ [(8, artifact 8)])))
  = published (world ∅ [(8, artifact 8)]) /\
  (artifact 8
   ∉ fs (snd (stop_recording "audio-queue" py_str ascii_only (guild_ctx None)
                (world ∅ [(8, artifact 8)])))).
Proof.
  destruct (flush_without_consent_record "audio-queue" py_str ascii_only (guild_ctx None)
              (world ∅ [(8, artifact 8)]) _ (session [(8, artifact 8)])
              (or_intror eq_refl) eq_refl (or_intror eq_refl)) as [Hp Hd].
  split; [reflexivity|]. split; [exact Hp|].
  apply (Hd 8); [apply list_elem_of_here | reflexivity].
Defined.


(** Two sessions, registered for guild 1 and then for guild 2: channel 10
    is disconnected first, then channel 30. *)
Lemma shutdown_disconnects_all_witness :
  NoDup [1; 2] /\
  (forall g, g ∈ [1; 2] <-> is_Some (active_recordings world_two_guilds !! g)) /\
  active_recordings (snd (shutdown [1; 2] world_two_guilds)) = ∅ /\
  trace (snd (shutdown [1; 2] world_two_guilds)) = [EvDisconnect 30; EvDisconnect 10].
Proof.
  assert (Hnd : NoDup [1; 2]).
  { apply NoDup_cons. split; [|apply NoDup_singleton].
    intros H%list_elem_of_singleton. discriminate. }
  assert (Hkeys : forall g, g ∈ [1; 2]
                            <-> is_Some (active_recordings world_two_guilds !! g)).
  { intros g. split.
    - intros [-> | [-> | H%elem_of_nil]%elem_of_cons]%elem_of_cons;
        [eexists; reflexivity | eexists; reflexivity | contradiction].
    - intros [vs Hvs]. cbn [world_two_guilds active_recordings] in Hvs.
      destruct (decide (g = 1)) as [-> | H1]; [apply list_elem_of_here|].
      destruct (decide (g = 2)) as [-> | H2];
        [apply list_elem_of_further, list_elem_of_here|].
      rewrite lookup_insert_ne in Hvs by congruence.
      rewrite lookup_singleton_ne in Hvs by congruence. discriminate. }
  destruct (shutdown_disconnects_all [1; 2] world_two_guilds Hnd Hkeys)
    as (Hempty & _ & _ & _ & Htrace & _).
  split; [exact Hnd|]. split; [exact Hkeys|]. split; [exact Hempty|].
  rewrite Htrace. vm_compute. reflexivity.
Defined.

(** The order of the visit is the order of the disconnections. *)
Example shutdown_in_reverse_order :
  trace (snd (shutdown [2; 1] world_two_guilds)) = [EvDisconnect 10; EvDisconnect 30].
Proof. vm_compute. reflexivity. Qed.

(** What [int] skips and what it refuses: the separator 0x1c is not white
    space for it, a tab and a line feed are, and a non-ASCII character
    counts as a space only when it is white space. *)
Example py_int_white_space :
  py_int ascii_only separator_seven = None /\
  py_int ascii_only (String (ascii_of_N 9) "7" +:+ String (ascii_of_N 10) "") = Some 7%Z /\
  py_int (fun c => code c =? 160) (String (ascii_of_N 160) "7") = Some 7%Z /\
  py_int ascii_only (String (ascii_of_N 160) "7") = None /\
  py_int ascii_only "+ 7" = None.
Proof. repeat split; reflexivity. Qed.

(** A button whose id starts with the separator is refused before anything
    is read or written. *)
Example consent_response_separator_id :
  handle_consent_response ascii_only
    {| custom_id := "consent_allow_" +:+ separator_seven; user_id_of := 7 |} world_idle
  = (Raise ValueError, world_idle).
Proof. reflexivity. Qed.
